(** * aquaHome backend: the service-request lifecycle

    A shallow embedding of [src/services/serviceRequests.service.ts]:
    the status machine ([updateServiceRequestStatus]), the installation
    synchronizer ([syncInstallationRequestStatusInTransaction]), the
    audit-log wrapper ([logActionHistoryInTransaction]), the assignment
    operations, the two listings ([getAllServiceRequests],
    [getAllUnassignedServiceRequests]), the change of the scheduled date
    ([scheduleServiceRequest]) and payment reconciliation
    ([refreshPaymentStatus]).

    The relational store is a record of tables, each table a list of rows
    in insertion order.  Effects (reads and writes through a database
    handle, the transaction primitive, the shared [fastify.db] reference,
    gateway calls, thrown errors) live in a small state-and-exception
    monad over a [World]. *)

From Stdlib Require Import List String Ascii ZArith QArith Bool Arith Lia.
Import ListNotations.

Local Open Scope string_scope.
Local Open Scope nat_scope.
Local Open Scope list_scope.

(* ------------------------------------------------------------------ *)
(** ** JavaScript values *)

(** Truthiness of an optional string ([null], [undefined] and the empty
    string are falsy). *)
Definition truthy (v : option string) : bool :=
  match v with
  | Some EmptyString => false
  | Some _ => true
  | None => false
  end.

(** Truthiness of an optional number ([null], [undefined] and [0] are
    falsy). *)
Definition truthyZ (v : option Z) : bool :=
  match v with
  | Some z => negb (Z.eqb z 0)
  | None => false
  end.

(** [v] when it is truthy. *)
Definition asTruthy (v : option string) : option string :=
  if truthy v then v else None.

Definition optStringEqb (a : option string) (b : string) : bool :=
  match a with
  | Some x => String.eqb x b
  | None => false
  end.

(** [data?.xs && data.xs.length > 0] *)
Definition nonEmptyArray (v : option (list string)) : bool :=
  match v with
  | Some (_ :: _) => true
  | _ => false
  end.

(** [o?.f] on an optional object. *)
Definition opt_field {A B : Type} (o : option A) (f : A -> option B) : option B :=
  match o with
  | Some a => f a
  | None => None
  end.

(** [Array.prototype.join]. *)
Fixpoint join (sep : string) (xs : list string) : string :=
  match xs with
  | [] => EmptyString
  | [x] => x
  | x :: rest => x ++ sep ++ join sep rest
  end.

(** [JSON.stringify] on an array of strings: each element is quoted with
    the JSON escapes and the elements are separated by commas. *)
Definition dquote : ascii := ascii_of_nat 34.
Definition backslash : ascii := ascii_of_nat 92.

Definition hexDigit (n : nat) : ascii :=
  nth n ["0"; "1"; "2"; "3"; "4"; "5"; "6"; "7"; "8"; "9";
         "a"; "b"; "c"; "d"; "e"; "f"]%char "0"%char.

Definition quoteJSONChar (c : ascii) : string :=
  let n := nat_of_ascii c in
  if Nat.eqb n 34 then String backslash (String dquote EmptyString)
  else if Nat.eqb n 92 then String backslash (String backslash EmptyString)
  else if Nat.eqb n 8 then String backslash "b"
  else if Nat.eqb n 9 then String backslash "t"
  else if Nat.eqb n 10 then String backslash "n"
  else if Nat.eqb n 12 then String backslash "f"
  else if Nat.eqb n 13 then String backslash "r"
  else if Nat.ltb n 32 then
    String backslash
      ("u00" ++ String (hexDigit (n / 16)) (String (hexDigit (n mod 16)) EmptyString))
  else String c EmptyString.

Fixpoint quoteJSONBody (s : string) : string :=
  match s with
  | EmptyString => EmptyString
  | String c rest => quoteJSONChar c ++ quoteJSONBody rest
  end.

Definition quoteJSONString (s : string) : string :=
  String dquote (quoteJSONBody s ++ String dquote EmptyString).

Definition JSON_stringify (xs : list string) : string :=
  "[" ++ join "," (map quoteJSONString xs) ++ "]".

(* ------------------------------------------------------------------ *)
(** ** Enumerations of [../types]

    The module [../types] is not among the sources.  Each enumeration
    below has the members the specification names and the service uses. *)

Module ServiceRequestStatus.
(** Modelled from the spec: the states of section 4.1. *)
Inductive t :=
| CREATED | ASSIGNED | SCHEDULED | IN_PROGRESS
| PAYMENT_PENDING | COMPLETED | CANCELLED.

Definition eqb (a b : t) : bool :=
  match a, b with
  | CREATED, CREATED | ASSIGNED, ASSIGNED | SCHEDULED, SCHEDULED
  | IN_PROGRESS, IN_PROGRESS | PAYMENT_PENDING, PAYMENT_PENDING
  | COMPLETED, COMPLETED | CANCELLED, CANCELLED => true
  | _, _ => false
  end.

(** Modelled from the spec: the text of a status inside a template
    literal, spelled as section 4.1 spells the state. *)
Definition name (s : t) : string :=
  match s with
  | CREATED => "CREATED"
  | ASSIGNED => "ASSIGNED"
  | SCHEDULED => "SCHEDULED"
  | IN_PROGRESS => "IN_PROGRESS"
  | PAYMENT_PENDING => "PAYMENT_PENDING"
  | COMPLETED => "COMPLETED"
  | CANCELLED => "CANCELLED"
  end.
End ServiceRequestStatus.

Module InstallationRequestStatus.
(** Modelled from the spec: the installation statuses of section 4.2,
    with the two earlier ones the product queries mention. *)
Inductive t :=
| SUBMITTED | FRANCHISE_CONTACTED
| INSTALLATION_SCHEDULED | INSTALLATION_IN_PROGRESS
| PAYMENT_PENDING | INSTALLATION_COMPLETED | CANCELLED.
End InstallationRequestStatus.

Module PaymentStatus.
(** Modelled from the spec: the payment statuses of section 3. *)
Inductive t := PENDING | COMPLETED | FAILED | REFUNDED.

Definition eqb (a b : t) : bool :=
  match a, b with
  | PENDING, PENDING | COMPLETED, COMPLETED
  | FAILED, FAILED | REFUNDED, REFUNDED => true
  | _, _ => false
  end.
End PaymentStatus.

Module PaymentType.
(** Modelled from the spec: the payment type the reconciliation writes;
    the others are not told apart. *)
Inductive t := SUBSCRIPTION | OTHER.
End PaymentType.

Module ServiceRequestType.
(** Modelled from the spec: the request types of section 3.
    [INSTALLATION] is the member whose value the service also writes as
    the literal ['installation']. *)
Inductive t := GENERAL | INSTALLATION | OTHER (label : string).

Definition isInstallation (x : t) : bool :=
  match x with INSTALLATION => true | _ => false end.
End ServiceRequestType.

Module UserRole.
(** Modelled from the spec: the four roles of section 1. *)
Inductive t := ADMIN | FRANCHISE_OWNER | SERVICE_AGENT | CUSTOMER.

Definition eqb (a b : t) : bool :=
  match a, b with
  | ADMIN, ADMIN | FRANCHISE_OWNER, FRANCHISE_OWNER
  | SERVICE_AGENT, SERVICE_AGENT | CUSTOMER, CUSTOMER => true
  | _, _ => false
  end.
End UserRole.

Module ActionType.
(** Modelled from the spec: the action types the service records. *)
Inductive t :=
| SERVICE_REQUEST_CREATED | SERVICE_REQUEST_ASSIGNED
| SERVICE_REQUEST_SCHEDULED | SERVICE_REQUEST_IN_PROGRESS
| SERVICE_REQUEST_COMPLETED | SERVICE_REQUEST_CANCELLED
| INSTALLATION_REQUEST_SCHEDULED | INSTALLATION_REQUEST_IN_PROGRESS
| INSTALLATION_REQUEST_COMPLETED | INSTALLATION_REQUEST_CANCELLED
| PAYMENT_COMPLETED.
End ActionType.

(* ------------------------------------------------------------------ *)
(** ** Rows

    The table definitions of [../models/schema] are not among the
    sources.  A row has the attributes section 3 lists for its entity,
    under the names the service reads and writes them by. *)

Record ServiceRequest := mkServiceRequest {
  sr_id : string;
  sr_subscriptionId : option string;
  sr_customerId : string;
  sr_productId : string;
  sr_installationRequestId : option string;
  sr_type : ServiceRequestType.t;
  sr_description : string;
  sr_images : option string;
  sr_status : ServiceRequestStatus.t;
  sr_assignedToId : option string;
  sr_franchiseId : string;
  sr_scheduledDate : option string;
  sr_completedDate : option string;
  sr_completedAt : option string;
  sr_beforeImages : option string;
  sr_afterImages : option string;
  (** The payment flag the status machine reads ([requirePayment]); the
      specification calls it requiresPayment. *)
  sr_requirePayment : bool;
  sr_razorpaySubscriptionId : option string;
  sr_createdAt : string;
  sr_updatedAt : string
}.

Record InstallationRequest := mkInstallationRequest {
  ir_id : string;
  ir_customerId : string;
  ir_productId : string;
  ir_franchiseId : string;
  ir_status : InstallationRequestStatus.t;
  ir_assignedTechnicianId : option string;
  ir_connectId : option string;
  ir_razorpaySubscriptionId : option string;
  ir_razorpayPaymentLink : option string;
  ir_completedDate : option string;
  ir_updatedAt : string
}.

Record Payment := mkPayment {
  pay_id : string;
  pay_installationRequestId : option string;
  pay_subscriptionId : option string;
  pay_amount : Q;
  pay_type : PaymentType.t;
  pay_status : PaymentStatus.t;
  pay_paymentMethod : string;
  pay_razorpayPaymentId : option string;
  pay_razorpaySubscriptionId : option string;
  pay_paidDate : option string;
  pay_createdAt : string;
  pay_updatedAt : string
}.

Record Subscription := mkSubscription {
  sub_id : string;
  sub_connectId : string;
  sub_requestId : string;
  sub_customerId : string;
  sub_productId : string;
  sub_franchiseId : string;
  sub_planName : string;
  sub_status : string;
  sub_startDate : string;
  sub_currentPeriodStartDate : string;
  sub_currentPeriodEndDate : option string;
  sub_nextPaymentDate : option string;
  sub_monthlyAmount : Z;
  sub_depositAmount : Z;
  sub_createdAt : string;
  sub_updatedAt : string;
  sub_razorpaySubscriptionId : string
}.

Record Product := mkProduct {
  prod_id : string;
  prod_name : string;
  prod_rentPrice : Z;
  prod_deposit : Z
}.

Record User := mkUser {
  usr_id : string;
  usr_role : UserRole.t;
  usr_name : option string;
  usr_phone : option string
}.

Record Franchise := mkFranchise {
  fr_id : string;
  fr_ownerId : option string
}.

Record FranchiseAgent := mkFranchiseAgent {
  fa_agentId : string;
  fa_franchiseId : string;
  fa_isActive : bool
}.

(** The authenticated caller ([request.user]). *)
Record Actor := mkActor {
  userId : string;
  role : UserRole.t;
  actorName : option string;
  actorPhone : option string
}.

(* ------------------------------------------------------------------ *)
(** ** The audit trail *)

Inductive EntityType :=
| service_request | installation_request | subscription | payment.

(** A status written into an audit entry: the three status families share
    the [fromStatus]/[toStatus] columns. *)
Inductive StatusValue :=
| SRStatus (s : ServiceRequestStatus.t)
| IRStatus (s : InstallationRequestStatus.t)
| PayStatus (s : PaymentStatus.t).

(** The [actionType] of an entry: a member of [ActionType], or one of the
    two template literals of the status machine,
    [status_updated_to_${status.toLowerCase()}] and
    [service_request_${status.toLowerCase()}]. *)
Inductive ActionTag :=
| Typed (a : ActionType.t)
| status_updated_to (s : ServiceRequestStatus.t)
| service_request_event (s : ServiceRequestStatus.t).

Inductive MetaValue :=
| MString (v : option string)
| MNumber (n : Z)
| MBool (b : bool)
| MStatus (s : ServiceRequestStatus.t).

(** The object handed to [logActionHistory]. *)
Record ActionData := mkActionData {
  entityType : option EntityType;
  entityId : option string;
  serviceRequestId : option string;
  installationRequestId : option string;
  subscriptionId : option string;
  paymentId : option string;
  actionType : ActionTag;
  fromStatus : option StatusValue;
  toStatus : option StatusValue;
  performedBy : string;
  performedByRole : UserRole.t;
  comment : option string;
  details : list (string * MetaValue);
  metadata : list (string * MetaValue)
}.

(** [{ entityType, entityId, actionType, performedBy, performedByRole, details }] *)
Definition entityAction (et : EntityType) (eid : string) (tag : ActionTag)
    (user : Actor) (ds : list (string * MetaValue)) : ActionData :=
  mkActionData (Some et) (Some eid) None None None None tag None None
               (userId user) (role user) None ds [].

(** [{ serviceRequestId?, installationRequestId?, paymentId?, actionType,
      fromStatus, toStatus, performedBy, performedByRole, comment, metadata }] *)
Definition linkedAction (srId irId payId : option string) (tag : ActionTag)
    (from to : option StatusValue) (user : Actor) (c : string)
    (md : list (string * MetaValue)) : ActionData :=
  mkActionData None None srId irId None payId tag from to
               (userId user) (role user) (Some c) [] md.

Record ActionHistoryEntry := mkActionHistoryEntry {
  ah_data : ActionData;
  ah_timestamp : string
}.

(* ------------------------------------------------------------------ *)
(** ** The store *)

Record Db := mkDb {
  serviceRequests : list ServiceRequest;
  installationRequests : list InstallationRequest;
  payments : list Payment;
  subscriptions : list Subscription;
  actionHistory : list ActionHistoryEntry;
  products : list Product;
  users : list User;
  franchises : list Franchise;
  franchiseAgents : list FranchiseAgent
}.

Inductive Table :=
| T_serviceRequests | T_installationRequests | T_payments
| T_subscriptions | T_actionHistory.

(** [query.<table>.findFirst({ where })] *)
Definition findFirst {A : Type} (where_ : A -> bool) (rows : list A) : option A :=
  find where_ rows.

(** [update(<table>).set(...).where(...)] on the rows of one table. *)
Definition updateWhere {A : Type} (where_ : A -> bool) (set_ : A -> A)
    (rows : list A) : list A :=
  map (fun r => if where_ r then set_ r else r) rows.

(** Column assignments of an [update ... set].  An object literal is a
    list of assignments applied in order, so that a later assignment to a
    key overrides an earlier one; a key whose value is [undefined] is not
    in the list (the query builder skips it). *)
Inductive ServiceRequestSet :=
| SR_status (v : ServiceRequestStatus.t)
| SR_updatedAt (v : string)
| SR_assignedToId (v : option string)
| SR_scheduledDate (v : option string)
| SR_completedAt (v : option string)
| SR_beforeImages (v : option string)
| SR_afterImages (v : option string)
| SR_subscriptionId (v : option string)
| SR_razorpaySubscriptionId (v : option string).

Definition applySR (a : ServiceRequestSet) (r : ServiceRequest) : ServiceRequest :=
  let 'mkServiceRequest id sub cust prod inst ty descr imgs st asg fr sch cd ca
        bi ai rp rz cr up := r in
  match a with
  | SR_status v =>
      mkServiceRequest id sub cust prod inst ty descr imgs v asg fr sch cd ca bi ai rp rz cr up
  | SR_updatedAt v =>
      mkServiceRequest id sub cust prod inst ty descr imgs st asg fr sch cd ca bi ai rp rz cr v
  | SR_assignedToId v =>
      mkServiceRequest id sub cust prod inst ty descr imgs st v fr sch cd ca bi ai rp rz cr up
  | SR_scheduledDate v =>
      mkServiceRequest id sub cust prod inst ty descr imgs st asg fr v cd ca bi ai rp rz cr up
  | SR_completedAt v =>
      mkServiceRequest id sub cust prod inst ty descr imgs st asg fr sch cd v bi ai rp rz cr up
  | SR_beforeImages v =>
      mkServiceRequest id sub cust prod inst ty descr imgs st asg fr sch cd ca v ai rp rz cr up
  | SR_afterImages v =>
      mkServiceRequest id sub cust prod inst ty descr imgs st asg fr sch cd ca bi v rp rz cr up
  | SR_subscriptionId v =>
      mkServiceRequest id v cust prod inst ty descr imgs st asg fr sch cd ca bi ai rp rz cr up
  | SR_razorpaySubscriptionId v =>
      mkServiceRequest id sub cust prod inst ty descr imgs st asg fr sch cd ca bi ai rp v cr up
  end.

Definition setSR (sets : list ServiceRequestSet) (r : ServiceRequest) : ServiceRequest :=
  fold_left (fun acc a => applySR a acc) sets r.

Inductive InstallationRequestSet :=
| IR_status (v : InstallationRequestStatus.t)
| IR_assignedTechnicianId (v : option string)
| IR_connectId (v : option string)
| IR_razorpaySubscriptionId (v : option string)
| IR_razorpayPaymentLink (v : option string)
| IR_completedDate (v : option string)
| IR_updatedAt (v : string).

Definition applyIR (a : InstallationRequestSet) (r : InstallationRequest)
    : InstallationRequest :=
  let 'mkInstallationRequest id cust prod fr st tech conn rz link cd up := r in
  match a with
  | IR_status v => mkInstallationRequest id cust prod fr v tech conn rz link cd up
  | IR_assignedTechnicianId v => mkInstallationRequest id cust prod fr st v conn rz link cd up
  | IR_connectId v => mkInstallationRequest id cust prod fr st tech v rz link cd up
  | IR_razorpaySubscriptionId v => mkInstallationRequest id cust prod fr st tech conn v link cd up
  | IR_razorpayPaymentLink v => mkInstallationRequest id cust prod fr st tech conn rz v cd up
  | IR_completedDate v => mkInstallationRequest id cust prod fr st tech conn rz link v up
  | IR_updatedAt v => mkInstallationRequest id cust prod fr st tech conn rz link cd v
  end.

Definition setIR (sets : list InstallationRequestSet) (r : InstallationRequest)
    : InstallationRequest :=
  fold_left (fun acc a => applyIR a acc) sets r.

Inductive PaymentSet :=
| Pay_status (v : PaymentStatus.t)
| Pay_razorpayPaymentId (v : option string)
| Pay_razorpaySubscriptionId (v : option string)
| Pay_paymentMethod (v : string)
| Pay_amount (v : Q)
| Pay_paidDate (v : option string)
| Pay_updatedAt (v : string)
| Pay_subscriptionId (v : option string).

Definition applyPay (a : PaymentSet) (r : Payment) : Payment :=
  let 'mkPayment id inst sub amt ty st meth rzp rzs paid cr up := r in
  match a with
  | Pay_status v => mkPayment id inst sub amt ty v meth rzp rzs paid cr up
  | Pay_razorpayPaymentId v => mkPayment id inst sub amt ty st meth v rzs paid cr up
  | Pay_razorpaySubscriptionId v => mkPayment id inst sub amt ty st meth rzp v paid cr up
  | Pay_paymentMethod v => mkPayment id inst sub amt ty st v rzp rzs paid cr up
  | Pay_amount v => mkPayment id inst sub v ty st meth rzp rzs paid cr up
  | Pay_paidDate v => mkPayment id inst sub amt ty st meth rzp rzs v cr up
  | Pay_updatedAt v => mkPayment id inst sub amt ty st meth rzp rzs paid cr v
  | Pay_subscriptionId v => mkPayment id inst v amt ty st meth rzp rzs paid cr up
  end.

Definition setPay (sets : list PaymentSet) (r : Payment) : Payment :=
  fold_left (fun acc a => applyPay a acc) sets r.

(** One statement against one table, as a function on the store. *)
Definition onServiceRequests (f : list ServiceRequest -> list ServiceRequest) (d : Db) : Db :=
  mkDb (f (serviceRequests d)) (installationRequests d) (payments d) (subscriptions d)
       (actionHistory d) (products d) (users d) (franchises d) (franchiseAgents d).

Definition onInstallationRequests
    (f : list InstallationRequest -> list InstallationRequest) (d : Db) : Db :=
  mkDb (serviceRequests d) (f (installationRequests d)) (payments d) (subscriptions d)
       (actionHistory d) (products d) (users d) (franchises d) (franchiseAgents d).

Definition onPayments (f : list Payment -> list Payment) (d : Db) : Db :=
  mkDb (serviceRequests d) (installationRequests d) (f (payments d)) (subscriptions d)
       (actionHistory d) (products d) (users d) (franchises d) (franchiseAgents d).

Definition onSubscriptions (f : list Subscription -> list Subscription) (d : Db) : Db :=
  mkDb (serviceRequests d) (installationRequests d) (payments d) (f (subscriptions d))
       (actionHistory d) (products d) (users d) (franchises d) (franchiseAgents d).

Definition onActionHistory
    (f : list ActionHistoryEntry -> list ActionHistoryEntry) (d : Db) : Db :=
  mkDb (serviceRequests d) (installationRequests d) (payments d) (subscriptions d)
       (f (actionHistory d)) (products d) (users d) (franchises d) (franchiseAgents d).

(** [insert(<table>).values(row)] appends the row. *)
Definition insertRow {A : Type} (row : A) (rows : list A) : list A := rows ++ [row].

(* ------------------------------------------------------------------ *)
(** ** Errors, handles and the world *)

(** Modelled from the spec: the error kinds of section 7 that
    [../utils/errors] builds, and three failures of the runtime: reading a
    property of [undefined], a gateway call that throws, a statement the
    storage engine rejects. *)
Inductive Error :=
| NotFound (what : string)
| BadRequest (msg : string)
| Forbidden (msg : string)
| TypeError
| GatewayError
| StorageFailure.

Definition notFound (what : string) : Error := NotFound what.
Definition badRequest (msg : string) : Error := BadRequest msg.
Definition forbidden (msg : string) : Error := Forbidden msg.

(** The outcome of a call: a value, or a thrown error. *)
Inductive Result (A : Type) :=
| Ok (a : A)
| Throw (e : Error).
Arguments Ok {A} a.
Arguments Throw {A} e.

(** A database handle: the application's own connection ([fastify.db] as
    created at start-up) or the scoped handle [tx] that [db.transaction]
    passes to its callback. *)
Inductive Handle := RootDb | TxHandle.

(** The two calls made to the payment gateway. *)
Inductive GatewayCall := subscriptions_fetch | invoices_all.

(** The external effects of a call, in the order they happen. *)
Inductive Event :=
| EvTxBegin
| EvTxCommit
| EvTxRollback
| EvGateway (c : GatewayCall)
| EvWrite (t : Table).

(** [root] is the committed store; [txn] the working copy of the open
    transaction, if any; [fastify_db] the handle the shared reference
    [fastify.db] currently holds; [writes] counts the write statements
    issued so far and [fault] says which of them the storage engine
    rejects; [trace] records the order of the external effects. *)
Record World := mkWorld {
  root : Db;
  txn : option Db;
  fastify_db : Handle;
  writes : nat;
  fault : nat -> bool;
  trace : list Event
}.

(** Computations: a state monad over the world with thrown errors.  A
    thrown error keeps the world it was thrown in. *)
Definition M (A : Type) : Type := World -> Result A * World.

Definition ret {A : Type} (a : A) : M A := fun w => (Ok a, w).

Definition throw {A : Type} (e : Error) : M A := fun w => (Throw e, w).

Definition bind {A B : Type} (m : M A) (k : A -> M B) : M B :=
  fun w =>
    match m w with
    | (Ok a, w1) => k a w1
    | (Throw e, w1) => (Throw e, w1)
    end.

Declare Scope m_scope.
Delimit Scope m_scope with M.
Notation "x <- c1 ;; c2" := (bind c1 (fun x => c2))
  (at level 61, c1 at next level, right associativity) : m_scope.
Notation "c1 ;; c2" := (bind c1 (fun _ => c2))
  (at level 61, right associativity) : m_scope.
Local Open Scope m_scope.

(** [try { body } finally { fin }] *)
Definition try_finally {A : Type} (body : M A) (fin : M unit) : M A :=
  fun w =>
    match body w with
    | (r, w1) =>
        match fin w1 with
        | (Ok _, w2) => (r, w2)
        | (Throw e, w2) => (Throw e, w2)
        end
    end.

(** [try { body } catch (error) { handler }] *)
Definition try_catch {A : Type} (body : M A) (handler : Error -> M A) : M A :=
  fun w =>
    match body w with
    | (Ok a, w1) => (Ok a, w1)
    | (Throw e, w1) => handler e w1
    end.

(** What a handle sees. *)
Definition view (h : Handle) (w : World) : Db :=
  match h, txn w with
  | TxHandle, Some d => d
  | _, _ => root w
  end.

(** A read through a handle. *)
Definition query (h : Handle) : M Db := fun w => (Ok (view h w), w).

(** [getFastifyInstance().db] *)
Definition get_fastify_db : M Handle := fun w => (Ok (fastify_db w), w).

(** [fastify.db = h] *)
Definition set_fastify_db (h : Handle) : M unit :=
  fun w => (Ok tt, mkWorld (root w) (txn w) h (writes w) (fault w) (trace w)).

(** Records an external effect. *)
Definition emit (e : Event) : M unit :=
  fun w => (Ok tt, mkWorld (root w) (txn w) (fastify_db w) (writes w) (fault w)
                           (trace w ++ [e])).

(** A write statement through a handle.  The statement is rejected when
    the fault plan says so.  Through [tx] it changes the working copy of
    the open transaction; through the application's own connection it is
    committed at once (and visible to an open transaction). *)
Definition execute (h : Handle) (t : Table) (f : Db -> Db) : M unit :=
  fun w =>
    let w1 := mkWorld (root w) (txn w) (fastify_db w) (S (writes w)) (fault w)
                      (trace w ++ [EvWrite t]) in
    if fault w (writes w) then (Throw StorageFailure, w1)
    else
      match h, txn w with
      | TxHandle, Some d =>
          (Ok tt, mkWorld (root w) (Some (f d)) (fastify_db w) (S (writes w)) (fault w)
                          (trace w ++ [EvWrite t]))
      | TxHandle, None => (Throw StorageFailure, w1)
      | RootDb, o =>
          (Ok tt, mkWorld (f (root w)) (option_map f o) (fastify_db w) (S (writes w))
                          (fault w) (trace w ++ [EvWrite t]))
      end.

(** [db.transaction(async (tx) => fn(tx))]: the callback runs on a working
    copy; a normal return commits it, a thrown error discards it and is
    rethrown. *)
Definition transaction {A : Type} (fn : Handle -> M A) : M A :=
  fun w =>
    let w0 := mkWorld (root w) (Some (root w)) (fastify_db w) (writes w) (fault w)
                      (trace w ++ [EvTxBegin]) in
    match fn TxHandle w0 with
    | (Ok a, w1) =>
        (Ok a, mkWorld (view TxHandle w1) None (fastify_db w1) (writes w1) (fault w1)
                       (trace w1 ++ [EvTxCommit]))
    | (Throw e, w1) =>
        (Throw e, mkWorld (root w1) None (fastify_db w1) (writes w1) (fault w1)
                          (trace w1 ++ [EvTxRollback]))
    end.

(** The clock, the id generators and the date arithmetic of the JavaScript
    runtime, as seen by one call. *)
Record Runtime := mkRuntime {
  now : string;                          (* new Date().toISOString() *)
  generateId : string -> string;         (* generateId(prefix) *)
  generateConnectId : string;            (* Math.random()-based *)
  epochToISOString : Z -> string;        (* new Date(ms).toISOString() *)
  getNextMonthDate : string -> string    (* setMonth(getMonth() + 1) *)
}.

(* ------------------------------------------------------------------ *)
(** ** Action history *)

(** Neither [null] nor [undefined]. *)
Definition present {A : Type} (v : option A) : bool :=
  match v with Some _ => true | None => false end.

(** The entry names at least one entity. *)
Definition hasOwner (a : ActionData) : bool :=
  present (entityId a) || present (serviceRequestId a)
  || present (installationRequestId a) || present (subscriptionId a)
  || present (paymentId a).

(** Modelled from the spec: [logActionHistory] of [../utils/actionHistory],
    which is not among the sources.  Section 4.4: an append-only write; the
    entry must carry at least one owning entity reference; the timestamp is
    assigned by the server; the write goes through whatever handle
    [fastify.db] holds when it is called. *)
Definition logActionHistory (rt : Runtime) (actionData : ActionData) : M unit :=
  if hasOwner actionData then
    db <- get_fastify_db ;;
    execute db T_actionHistory
      (onActionHistory (insertRow (mkActionHistoryEntry actionData (now rt))))
  else throw (badRequest "Action history entry needs an entity reference").

(** Transaction-aware version of [logActionHistory]: the shared reference
    is pointed at [tx] for the duration of the call and restored after. *)
Definition logActionHistoryInTransaction (rt : Runtime) (tx : Handle)
    (actionData : ActionData) : M unit :=
  originalDbRef <- get_fastify_db ;;
  set_fastify_db tx ;;
  try_finally (logActionHistory rt actionData) (set_fastify_db originalDbRef).

(* ------------------------------------------------------------------ *)
(** ** Reading a service request *)

(** [installationRequests.findFirst({ where, with: { product: true } })] *)
Definition findInstallationWithProduct (d : Db) (irid : string)
    : option (InstallationRequest * option Product) :=
  match findFirst (fun r => String.eqb (ir_id r) irid) (installationRequests d) with
  | Some ir_ =>
      Some (ir_, findFirst (fun p => String.eqb (prod_id p) (ir_productId ir_)) (products d))
  | None => None
  end.

(** Reading a property of a joined relation that is [null]. *)
Definition deref {A : Type} (v : option A) : M A :=
  match v with
  | Some a => ret a
  | None => throw TypeError
  end.

(** [getServiceRequestById]: the row with that id, read through
    [fastify.db].  For a request of type installation that is linked to an
    installation request in PAYMENT_PENDING, lines 139-160 compute a
    [paymentStatus] from the first payment of the installation request and
    from the deposit or the buy price of its product; reading the price of
    a product that is not stored throws.  The value of [paymentStatus], the
    joined relations and the parsed image arrays of the returned object
    are reads that no caller below branches on; the answer is the row. *)
Definition getServiceRequestById (id : string) : M (option ServiceRequest) :=
  db <- get_fastify_db ;;
  d <- query db ;;
  match findFirst (fun r => String.eqb (sr_id r) id) (serviceRequests d) with
  | None => ret None
  | Some result =>
      (* For installation type service requests, also check installation
         request payment *)
      match (if ServiceRequestType.isInstallation (sr_type result)
             then asTruthy (sr_installationRequestId result) else None) with
      | Some irid =>
          d <- query db ;;
          match findInstallationWithProduct d irid with
          | Some (installationRequest, product) =>
              match ir_status installationRequest with
              | InstallationRequestStatus.PAYMENT_PENDING =>
                  d <- query db ;;
                  let installationPayment :=
                    findFirst (fun p => optStringEqb (pay_installationRequestId p) irid)
                              (payments d) in
                  (* amount: installationRequest.product.deposit or
                     installationRequest.product.buyPrice *)
                  product <- deref product ;;
                  ret (Some result)
              | _ => ret (Some result)
              end
          | None => ret (Some result)
          end
      | None => ret (Some result)
      end
  end.

Definition getFranchiseById (franchiseId : string) : M (option Franchise) :=
  db <- get_fastify_db ;;
  d <- query db ;;
  ret (findFirst (fun f => String.eqb (fr_id f) franchiseId) (franchises d)).

(* ------------------------------------------------------------------ *)
(** ** The status machine *)

Import ServiceRequestStatus.

Definition validTransitions (s : ServiceRequestStatus.t) : list ServiceRequestStatus.t :=
  match s with
  | CREATED => [ASSIGNED; CANCELLED]
  | ASSIGNED => [SCHEDULED; CANCELLED; ASSIGNED]
  | SCHEDULED => [IN_PROGRESS; CANCELLED]
  | IN_PROGRESS => [PAYMENT_PENDING; COMPLETED; CANCELLED]
  | PAYMENT_PENDING => [COMPLETED; CANCELLED]
  | COMPLETED => []
  | CANCELLED => [ASSIGNED; SCHEDULED]
  end.

Definition includes (xs : list ServiceRequestStatus.t) (x : ServiceRequestStatus.t) : bool :=
  existsb (fun y => ServiceRequestStatus.eqb y x) xs.

(** [a || b] on strings. *)
Definition orString (a b : string) : string :=
  match a with EmptyString => b | _ => a end.

Definition invalidTransitionMessage (currentStatus status : ServiceRequestStatus.t) : string :=
  "Invalid status transition from " ++ name currentStatus ++ " to " ++ name status
  ++ ". Valid transitions are: "
  ++ orString (join ", " (map name (validTransitions currentStatus))) "none".

(** The optional [data] argument of [updateServiceRequestStatus]. *)
Record StatusData := mkStatusData {
  agentId : option string;
  completedAt : option string;
  scheduledDate : option string;
  beforeImages : option (list string);
  afterImages : option (list string)
}.

(** [status === IN_PROGRESS ? 'beforeImages' : 'afterImages'], as the
    assignment to that key. *)
Definition imageField (status : ServiceRequestStatus.t) (v : option string)
    : ServiceRequestSet :=
  if ServiceRequestStatus.eqb status IN_PROGRESS then SR_beforeImages v
  else SR_afterImages v.

(** [`Service agent ${x.name || x.phone} assigned`].  [absent] is the text
    of a [phone] that has no value: [null] for the column of a stored row,
    [undefined] for a property the object does not have. *)
Definition agentAssignedComment (absent : string) (name_ phone : option string) : string :=
  "Service agent "
  ++ match asTruthy name_, phone with
     | Some n, _ => n
     | None, Some p => p
     | None, None => absent
     end
  ++ " assigned".

Definition syncInstallationRequestStatusInTransaction (rt : Runtime) (tx : Handle)
    (installationRequestId : string) (serviceRequestStatus : ServiceRequestStatus.t)
    (user : Actor) : M unit :=
  let '(installationStatus, installationActionType, updateData) :=
    match serviceRequestStatus with
    | IN_PROGRESS =>
        (Some InstallationRequestStatus.INSTALLATION_IN_PROGRESS,
         Some ActionType.INSTALLATION_REQUEST_IN_PROGRESS, [])
    | PAYMENT_PENDING =>
        (Some InstallationRequestStatus.PAYMENT_PENDING,
         Some ActionType.INSTALLATION_REQUEST_COMPLETED, [])
    | COMPLETED =>
        (Some InstallationRequestStatus.INSTALLATION_COMPLETED,
         Some ActionType.INSTALLATION_REQUEST_COMPLETED, [])
    | CANCELLED =>
        (Some InstallationRequestStatus.CANCELLED,
         Some ActionType.INSTALLATION_REQUEST_CANCELLED,
         [IR_razorpayPaymentLink None; IR_razorpaySubscriptionId None])
    | SCHEDULED =>
        (Some InstallationRequestStatus.INSTALLATION_SCHEDULED,
         Some ActionType.INSTALLATION_REQUEST_SCHEDULED, [])
    | _ => (None, None, [])
    end in
  match installationStatus, installationActionType with
  | Some st, Some act =>
      execute tx T_installationRequests
        (onInstallationRequests
           (updateWhere (fun r => String.eqb (ir_id r) installationRequestId)
                        (setIR (IR_status st :: updateData)))) ;;
      logActionHistoryInTransaction rt tx
        (linkedAction None (Some installationRequestId) None (Typed act)
           (Some (SRStatus serviceRequestStatus)) (Some (SRStatus ASSIGNED)) user
           (agentAssignedComment "undefined" (actorName user) (actorPhone user))
           [])
  | _, _ => ret tt
  end.

(** Lines 450-510: the status-specific validations.  [updateData] comes
    back with the two image columns set to [null] for CANCELLED and
    untouched otherwise. *)
Definition statusValidations (db : Handle) (serviceRequest : ServiceRequest)
    (status : ServiceRequestStatus.t) (data : option StatusData)
    (updateData : list ServiceRequestSet) : M (list ServiceRequestSet) :=
  let currentStatus := sr_status serviceRequest in
  match status with
  | ASSIGNED =>
      if negb (truthy (opt_field data agentId)) then
        throw (badRequest "Agent ID is required for assignment")
      else ret updateData
  | SCHEDULED =>
      if negb (truthy (sr_assignedToId serviceRequest)) then
        throw (badRequest "Cannot schedule without assigned agent")
      else if negb (truthy (opt_field data scheduledDate)) then
        throw (badRequest "Scheduled date is required")
      else ret updateData
  | IN_PROGRESS =>
      (* For installation type, require before images *)
      if ServiceRequestType.isInstallation (sr_type serviceRequest)
         && negb (nonEmptyArray (opt_field data beforeImages)) then
        throw (badRequest
          "Before images are required to start installation service requests")
      else ret updateData
  | PAYMENT_PENDING =>
      if negb (sr_requirePayment serviceRequest) then
        throw (badRequest "This service request does not require payment")
      else if negb (nonEmptyArray (opt_field data afterImages)) then
        throw (badRequest
          "Completion images are required before requesting payment")
      else ret updateData
  | COMPLETED =>
      (* Require completion images *)
      if negb (truthy (sr_installationRequestId serviceRequest))
         && negb (nonEmptyArray (opt_field data afterImages)) then
        throw (badRequest "Completion images are required to mark as completed")
      (* If it requires payment and coming from IN_PROGRESS, must go
         through PAYMENT_PENDING first *)
      else if sr_requirePayment serviceRequest
              && ServiceRequestStatus.eqb currentStatus IN_PROGRESS then
        throw (badRequest
          "Service requests requiring payment must go through PAYMENT_PENDING status first")
      else
        match asTruthy (sr_installationRequestId serviceRequest) with
        | Some irid =>
            if sr_requirePayment serviceRequest then
              d <- query db ;;
              match findFirst (fun p => optStringEqb (pay_installationRequestId p) irid)
                              (payments d) with
              | Some paymnet =>
                  if negb (PaymentStatus.eqb (pay_status paymnet) PaymentStatus.COMPLETED)
                     || negb (optStringEqb (pay_installationRequestId paymnet) irid)
                  then throw (badRequest "Please Complete Payment First")
                  else ret updateData
              | None => throw (badRequest "Please Complete Payment First")
              end
            else ret updateData
        | None => ret updateData
        end
  | CANCELLED =>
      ret (updateData ++ [SR_beforeImages None; SR_afterImages None])
  | CREATED => ret updateData
  end.

(** Lines 512-527: the payload-driven assignments. *)
Definition statusSpecificData (rt : Runtime) (status : ServiceRequestStatus.t)
    (data : option StatusData) (updateData : list ServiceRequestSet)
    : list ServiceRequestSet :=
  (* Add specific data based on status *)
  let updateData :=
    updateData
    ++ (if truthy (opt_field data agentId)
        then [SR_assignedToId (opt_field data agentId)] else [])
    ++ (if truthy (opt_field data scheduledDate)
        then [SR_scheduledDate (opt_field data scheduledDate)] else [])
    ++ (if ServiceRequestStatus.eqb status COMPLETED
        then [SR_completedAt (Some (now rt))] else []) in
  (* Handle images - store them as JSON strings *)
  updateData
  ++ match opt_field data afterImages with
     | Some (x :: xs) => [imageField status (Some (JSON_stringify (x :: xs)))]
     | _ => []
     end
  ++ match opt_field data beforeImages with
     | Some (x :: xs) => [imageField status (Some (JSON_stringify (x :: xs)))]
     | _ => []
     end.

(** Lines 530-573: the callback of [db.transaction]. *)
Definition statusTransaction (rt : Runtime) (id : string)
    (status : ServiceRequestStatus.t) (user : Actor) (data : option StatusData)
    (serviceRequest : ServiceRequest) (updateData : list ServiceRequestSet)
    (tx : Handle) : M (option ServiceRequest) :=
  let currentStatus := sr_status serviceRequest in
  (* Update service request *)
  execute tx T_serviceRequests
    (onServiceRequests
       (updateWhere (fun r => String.eqb (sr_id r) id) (setSR updateData))) ;;
  (* Sync installation request status if needed *)
  match asTruthy (sr_installationRequestId serviceRequest) with
  | Some irid => syncInstallationRequestStatusInTransaction rt tx irid status user
  | None => ret tt
  end ;;
  (* Log action in history *)
  logActionHistoryInTransaction rt tx
    (entityAction service_request id (status_updated_to status) user
       [("fromStatus", MStatus currentStatus);
        ("toStatus", MStatus status);
        ("agentId", MString (opt_field data agentId));
        ("scheduledDate", MString (opt_field data scheduledDate));
        ("imagesCount", MNumber 0)]) ;;
  (* If there's a subscription, log it there too *)
  match asTruthy (sr_subscriptionId serviceRequest) with
  | Some subId =>
      logActionHistoryInTransaction rt tx
        (entityAction subscription subId (service_request_event status) user
           [("serviceRequestId", MString (Some id));
            ("status", MStatus status)])
  | None => ret tt
  end ;;
  getServiceRequestById id.

Definition updateServiceRequestStatus (rt : Runtime) (id : string)
    (status : ServiceRequestStatus.t) (user : Actor) (data : option StatusData)
    : M (option ServiceRequest) :=
  db <- get_fastify_db ;;
  serviceRequest <- getServiceRequestById id ;;
  match serviceRequest with
  | None => throw (notFound "Service Request")
  | Some serviceRequest =>
    (* Validate status transitions and required data *)
    let currentStatus := sr_status serviceRequest in
    (* Check if the status transition is valid *)
    if negb (includes (validTransitions currentStatus) status) then
      throw (badRequest (invalidTransitionMessage currentStatus status))
    else
      let updateData := [SR_status status; SR_updatedAt (now rt)] in
      updateData <- statusValidations db serviceRequest status data updateData ;;
      let updateData := statusSpecificData rt status data updateData in
      (* Use transaction to ensure all operations succeed or fail together *)
      transaction (statusTransaction rt id status user data serviceRequest updateData)
  end.

(* ------------------------------------------------------------------ *)
(** ** Assignment and installation service requests *)

Definition assignServiceAgent (rt : Runtime) (id : string) (assignedToId : string)
    (user : Actor) : M (option ServiceRequest) :=
  sr <- getServiceRequestById id ;;
  match sr with
  | None => throw (notFound "Service Request")
  | Some sr =>
    (* Only admin or franchise owner can assign *)
    if negb (UserRole.eqb (role user) UserRole.ADMIN
             || UserRole.eqb (role user) UserRole.FRANCHISE_OWNER) then
      throw (forbidden "You do not have permission to assign service agents")
    else
      (if UserRole.eqb (role user) UserRole.FRANCHISE_OWNER then
         franchise <- getFranchiseById (sr_franchiseId sr) ;;
         match franchise with
         | Some f =>
             if optStringEqb (fr_ownerId f) (userId user) then ret tt
             else throw (forbidden "Service request is not in your franchise area")
         | None => throw (forbidden "Service request is not in your franchise area")
         end
       else ret tt) ;;
      db <- get_fastify_db ;;
      d <- query db ;;
      match findFirst (fun u => String.eqb (usr_id u) assignedToId) (users d) with
      | None => throw (badRequest "Invalid service agent")
      | Some agent =>
        if negb (UserRole.eqb (usr_role agent) UserRole.SERVICE_AGENT) then
          throw (badRequest "Invalid service agent")
        else
          let oldStatus := sr_status sr in
          execute db T_serviceRequests
            (onServiceRequests
               (updateWhere (fun r => String.eqb (sr_id r) id)
                  (setSR [SR_assignedToId (Some assignedToId);
                          SR_status ASSIGNED;
                          SR_updatedAt (now rt)]))) ;;
          logActionHistory rt
            (linkedAction (Some id) None None (Typed ActionType.SERVICE_REQUEST_ASSIGNED)
               (Some (SRStatus oldStatus)) (Some (SRStatus ASSIGNED)) user
               (agentAssignedComment "null" (usr_name agent) (usr_phone agent))
               [("assignedToId", MString (Some assignedToId));
                ("agentName", MString (usr_name agent));
                ("agentPhone", MString (usr_phone agent))]) ;;
          getServiceRequestById id
      end
  end.

(** The push notifications sent after a change are best effort: they read
    the store, call the dispatcher and swallow every error, so they are a
    no-op on the world. *)
Definition sendServiceRequestNotifications : M unit := ret tt.

Definition assignServiceRequestToSelf (rt : Runtime) (id : string) (user : Actor)
    : M (option ServiceRequest) :=
  sr <- getServiceRequestById id ;;
  match sr with
  | None => throw (notFound "Service Request")
  | Some sr =>
    if truthy (sr_assignedToId sr) then
      throw (badRequest "Service request is already assigned")
    else if truthy (sr_installationRequestId sr) then
      throw (badRequest "Installation service requests cannot be self-assigned")
    else
      db <- get_fastify_db ;;
      (if UserRole.eqb (role user) UserRole.SERVICE_AGENT then
         d <- query db ;;
         match findFirst (fun fa => String.eqb (fa_agentId fa) (userId user)
                                    && String.eqb (fa_franchiseId fa) (sr_franchiseId sr)
                                    && Bool.eqb (fa_isActive fa) true)
                         (franchiseAgents d) with
         | Some _ => ret tt
         | None => throw (forbidden "You are not authorized to work in this franchise area")
         end
       else ret tt) ;;
      let oldStatus := sr_status sr in
      execute db T_serviceRequests
        (onServiceRequests
           (updateWhere (fun r => String.eqb (sr_id r) id)
              (setSR [SR_assignedToId (Some (userId user));
                      SR_status ASSIGNED;
                      SR_updatedAt (now rt)]))) ;;
      logActionHistory rt
        (linkedAction (Some id) None None (Typed ActionType.SERVICE_REQUEST_ASSIGNED)
           (Some (SRStatus oldStatus)) (Some (SRStatus ASSIGNED)) user
           "Service agent self-assigned"
           [("assignedToId", MString (Some (userId user)));
            ("selfAssigned", MBool true)]) ;;
      sendServiceRequestNotifications ;;
      getServiceRequestById id
  end.

(** The argument of [createInstallationServiceRequest]. *)
Record InstallationServiceRequestData := mkInstallationServiceRequestData {
  isr_installationRequestId : string;
  isr_assignedToId : option string;
  isr_scheduledDate : option string;
  isr_description : string
}.

(** [{ key: v }] inside [set]: nothing when [v] is [undefined]. *)
Definition whenDefined {A B : Type} (v : option A) (k : A -> B) : list B :=
  match v with
  | Some a => [k a]
  | None => []
  end.

Definition createInstallationServiceRequest (rt : Runtime)
    (data : InstallationServiceRequestData) (user : Actor)
    : M (option ServiceRequest) :=
  db <- get_fastify_db ;;
  let id := generateId rt "srq" in
  d <- query db ;;
  match findFirst (fun r => String.eqb (ir_id r) (isr_installationRequestId data))
                  (installationRequests d) with
  | None => throw (notFound "Installation Request")
  | Some installationRequest =>
    (* Check if installation service request already exists *)
    let existingServiceRequest :=
      findFirst (fun r => optStringEqb (sr_installationRequestId r)
                                       (isr_installationRequestId data)
                          && ServiceRequestType.isInstallation (sr_type r))
                (serviceRequests d) in
    match existingServiceRequest with
    | Some existing =>
        execute db T_serviceRequests
          (onServiceRequests
             (updateWhere (fun r => String.eqb (sr_id r) (sr_id existing))
                (setSR (SR_status SCHEDULED
                        :: whenDefined (isr_assignedToId data)
                             (fun a => SR_assignedToId (Some a)))))) ;;
        execute db T_installationRequests
          (onInstallationRequests
             (updateWhere (fun r => String.eqb (ir_id r) (ir_id installationRequest))
                (setIR [IR_status InstallationRequestStatus.INSTALLATION_SCHEDULED])))
    | None =>
        (* Check permissions *)
        (if UserRole.eqb (role user) UserRole.FRANCHISE_OWNER then
           franchise <- getFranchiseById (ir_franchiseId installationRequest) ;;
           match franchise with
           | Some f =>
               if optStringEqb (fr_ownerId f) (userId user) then ret tt
               else throw (forbidden "Installation request is not in your franchise area")
           | None => throw (forbidden "Installation request is not in your franchise area")
           end
         else ret tt) ;;
        (* Validate assigned agent if provided *)
        match asTruthy (isr_assignedToId data) with
        | Some a =>
            d <- query db ;;
            match findFirst (fun u => String.eqb (usr_id u) a) (users d) with
            | Some agent =>
                if UserRole.eqb (usr_role agent) UserRole.SERVICE_AGENT then ret tt
                else throw (badRequest "Invalid service agent")
            | None => throw (badRequest "Invalid service agent")
            end
        | None => ret tt
        end ;;
        let serviceRequest :=
          mkServiceRequest id None (ir_customerId installationRequest)
            (ir_productId installationRequest) (Some (isr_installationRequestId data))
            ServiceRequestType.INSTALLATION (isr_description data) None
            (if truthy (isr_assignedToId data) then SCHEDULED else CREATED)
            (asTruthy (isr_assignedToId data))
            (ir_franchiseId installationRequest)
            (asTruthy (isr_scheduledDate data))
            None None None None true None (now rt) (now rt) in
        execute db T_serviceRequests (onServiceRequests (insertRow serviceRequest)) ;;
        execute db T_installationRequests
          (onInstallationRequests
             (updateWhere (fun r => String.eqb (ir_id r) (ir_id installationRequest))
                (setIR (IR_status InstallationRequestStatus.INSTALLATION_SCHEDULED
                        :: whenDefined (isr_assignedToId data)
                             (fun a => IR_assignedTechnicianId (Some a))))))
    end ;;
    (* Log action history for installation request status update *)
    logActionHistory rt
      (linkedAction None (Some (isr_installationRequestId data)) None
         (Typed ActionType.INSTALLATION_REQUEST_SCHEDULED)
         (Some (IRStatus (ir_status installationRequest)))
         (Some (IRStatus InstallationRequestStatus.INSTALLATION_SCHEDULED)) user
         "Installation scheduled via service request creation"
         [("serviceRequestId", MString (Some id));
          ("assignedTechnicianId", MString (isr_assignedToId data))]) ;;
    getServiceRequestById
      (match existingServiceRequest with
       | Some existing => sr_id existing
       | None => id
       end)
  end.

(* ------------------------------------------------------------------ *)
(** ** Payment reconciliation *)

(** The payment gateway client ([fastify.razorpay]).  A call that throws
    answers [None]. *)
Record RazorpaySubscription := mkRazorpaySubscription {
  rzp_id : string;
  rzp_status : string;
  current_start : option Z;
  current_end : option Z
}.

Record RazorpayInvoice := mkRazorpayInvoice {
  inv_status : string;
  inv_payment_id : string;
  inv_amount : Z
}.

Record Razorpay := mkRazorpay {
  (* subscriptions.fetch(id) *)
  fetchSubscription : string -> option RazorpaySubscription;
  (* invoices.all({ subscription_id, count }) *)
  allInvoices : option string -> nat -> option (list RazorpayInvoice)
}.

Definition gateway {A : Type} (c : GatewayCall) (answer : option A) : M A :=
  emit (EvGateway c) ;;
  match answer with
  | Some a => ret a
  | None => throw GatewayError
  end.

Record SuccessfulPayment := mkSuccessfulPayment {
  sp_id : string;
  sp_amount : Z;
  sp_method : string;
  sp_razorpaySubscriptionId : option string;
  sp_subscriptionDetails : RazorpaySubscription
}.

Record PaymentDetails := mkPaymentDetails {
  pd_method : string;
  pd_amount : Q;
  pd_transactionId : option string
}.

Record RefreshResult := mkRefreshResult {
  message : string;
  paymentStatus : string;
  paymentDetails : option PaymentDetails
}.

(** [x / 100] on JavaScript numbers, as an exact quotient. *)
Definition div100 (x : Q) : Q := (x / 100)%Q.

Definition completedPaymentFor (irid pid : string) (p : Payment) : bool :=
  optStringEqb (pay_installationRequestId p) irid
  && optStringEqb (pay_razorpayPaymentId p) pid
  && PaymentStatus.eqb (pay_status p) PaymentStatus.COMPLETED.

Definition subscriptionFor (irid : string) (s : Subscription) : bool :=
  String.eqb (sub_requestId s) irid.

(** Lines 1057-1082: what the gateway says about the first invoice. *)
Definition fetchSuccessfulPayment (rzp : Razorpay) (serviceRequest : ServiceRequest)
    (installationRequest : InstallationRequest) : M (option SuccessfulPayment) :=
  match asTruthy (ir_razorpaySubscriptionId installationRequest) with
  | Some rzpSubId =>
      subscription_ <- gateway subscriptions_fetch (fetchSubscription rzp rzpSubId) ;;
      if String.eqb (rzp_status subscription_) "active"
         || String.eqb (rzp_status subscription_) "authenticated" then
        invoices <- gateway invoices_all
                      (allInvoices rzp (sr_razorpaySubscriptionId serviceRequest) 1) ;;
        match invoices with
        | first :: _ =>
            if String.eqb (inv_status first) "paid" then
              ret (Some (mkSuccessfulPayment (inv_payment_id first) (inv_amount first)
                           "SUBSCRIPTION" (sr_razorpaySubscriptionId serviceRequest)
                           subscription_))
            else ret None
        | [] => ret None
        end
      else ret None
  | None => ret None
  end.

(** Lines 1098-1204: the payment row is already COMPLETED. *)
Definition repairSubscription (rt : Runtime) (tx : Handle) (serviceRequestId irid : string)
    (user : Actor) (successfulPayment : SuccessfulPayment) (existingPayment : Payment)
    : M RefreshResult :=
  d <- query tx ;;
  match findFirst (subscriptionFor irid) (subscriptions d) with
  | None =>
      d <- query tx ;;
      match findInstallationWithProduct d irid with
      | Some (installationRequest, product) =>
          let now_ := now rt in
          let razorpaySubscription := sp_subscriptionDetails successfulPayment in
          let currentPeriodStart :=
            match current_start razorpaySubscription with
            | Some s => if truthyZ (Some s) then epochToISOString rt (s * 1000) else now_
            | None => now_
            end in
          let currentPeriodEnd :=
            match current_end razorpaySubscription with
            | Some e => if truthyZ (Some e) then Some (epochToISOString rt (e * 1000)) else None
            | None => None
            end in
          let nextPaymentDate := currentPeriodEnd in
          let connectId := generateConnectId rt in
          let subscriptionId_ := generateId rt "sub" in
          product <- deref product ;;
          execute tx T_subscriptions
            (onSubscriptions (insertRow
               (mkSubscription subscriptionId_ connectId irid
                  (ir_customerId installationRequest) (ir_productId installationRequest)
                  (ir_franchiseId installationRequest)
                  (prod_name product ++ " Rental Plan") "ACTIVE" now_
                  currentPeriodStart currentPeriodEnd nextPaymentDate
                  (prod_rentPrice product) (prod_deposit product) now_ now_
                  (rzp_id razorpaySubscription)))) ;;
          (* Update payment record with subscription ID if not already linked *)
          (if negb (truthy (pay_subscriptionId existingPayment)) then
             execute tx T_payments
               (onPayments
                  (updateWhere (fun p => String.eqb (pay_id p) (pay_id existingPayment))
                     (setPay [Pay_subscriptionId (Some subscriptionId_);
                              Pay_updatedAt now_;
                              Pay_razorpaySubscriptionId (Some (rzp_id razorpaySubscription))])))
           else ret tt) ;;
          execute tx T_installationRequests
            (onInstallationRequests
               (updateWhere (fun r => String.eqb (ir_id r) irid)
                  (setIR [IR_connectId (Some connectId);
                          IR_status InstallationRequestStatus.INSTALLATION_COMPLETED;
                          IR_completedDate (Some now_);
                          IR_updatedAt now_;
                          IR_razorpaySubscriptionId (Some (rzp_id razorpaySubscription))]))) ;;
          execute tx T_serviceRequests
            (onServiceRequests
               (updateWhere (fun r => String.eqb (sr_id r) serviceRequestId)
                  (setSR [SR_status COMPLETED;
                          SR_razorpaySubscriptionId (Some (rzp_id razorpaySubscription));
                          SR_subscriptionId (Some subscriptionId_);
                          SR_completedAt (Some now_);
                          SR_updatedAt now_]))) ;;
          logActionHistoryInTransaction rt tx
            (linkedAction None (Some irid) None
               (Typed ActionType.INSTALLATION_REQUEST_COMPLETED)
               (Some (IRStatus InstallationRequestStatus.PAYMENT_PENDING))
               (Some (IRStatus InstallationRequestStatus.INSTALLATION_COMPLETED)) user
               "Subscription created for completed payment"
               [("connectId", MString (Some connectId));
                ("subscriptionId", MString (Some subscriptionId_));
                ("paymentId", MString (Some (pay_id existingPayment)))])
      | None => ret tt
      end
  | Some _ => ret tt
  end ;;
  ret (mkRefreshResult "Payment already completed" "COMPLETED"
         (Some (mkPaymentDetails (pay_paymentMethod existingPayment)
                  (div100 (pay_amount existingPayment))
                  (pay_razorpayPaymentId existingPayment)))).

(** Lines 1206-1353: record the payment, make sure the subscription exists
    and complete both requests. *)
Definition recordPayment (rt : Runtime) (tx : Handle) (serviceRequestId irid : string)
    (user : Actor) (successfulPayment : SuccessfulPayment)
    (existingPayment : option Payment) : M RefreshResult :=
  let paymentId_ :=
    match existingPayment with
    | Some p => orString (pay_id p) (generateId rt "payment")
    | None => generateId rt "payment"
    end in
  let now_ := now rt in
  let rzpSubscriptionId := rzp_id (sp_subscriptionDetails successfulPayment) in
  match existingPayment with
  | Some p =>
      execute tx T_payments
        (onPayments
           (updateWhere (fun q => String.eqb (pay_id q) (pay_id p))
              (setPay [Pay_status PaymentStatus.COMPLETED;
                       Pay_razorpayPaymentId (Some (sp_id successfulPayment));
                       Pay_razorpaySubscriptionId (Some rzpSubscriptionId);
                       Pay_paymentMethod (sp_method successfulPayment);
                       Pay_amount (inject_Z (sp_amount successfulPayment));
                       Pay_paidDate (Some now_);
                       Pay_updatedAt now_])))
  | None =>
      execute tx T_payments
        (onPayments (insertRow
           (mkPayment paymentId_ (Some irid) None
              (div100 (inject_Z (sp_amount successfulPayment)))
              PaymentType.SUBSCRIPTION PaymentStatus.COMPLETED
              (sp_method successfulPayment) (Some (sp_id successfulPayment))
              (Some rzpSubscriptionId) (Some now_) now_ now_)))
  end ;;
  (* Ensure subscription exists *)
  d <- query tx ;;
  match findFirst (subscriptionFor irid) (subscriptions d) with
  | None =>
      d <- query tx ;;
      match findInstallationWithProduct d irid with
      | Some (installationRequest, product) =>
          let connectId := generateConnectId rt in
          let subscriptionId_ := generateId rt "sub" in
          product <- deref product ;;
          execute tx T_subscriptions
            (onSubscriptions (insertRow
               (mkSubscription subscriptionId_ connectId irid
                  (ir_customerId installationRequest) (ir_productId installationRequest)
                  (ir_franchiseId installationRequest)
                  (prod_name product ++ " Rental Plan") "ACTIVE" now_
                  now_ (Some (getNextMonthDate rt now_)) (Some (getNextMonthDate rt now_))
                  (prod_rentPrice product) (prod_deposit product) now_ now_
                  rzpSubscriptionId))) ;;
          execute tx T_payments
            (onPayments
               (updateWhere (fun p => String.eqb (pay_id p) paymentId_)
                  (setPay [Pay_subscriptionId (Some subscriptionId_)]))) ;;
          execute tx T_installationRequests
            (onInstallationRequests
               (updateWhere (fun r => String.eqb (ir_id r) irid)
                  (setIR [IR_connectId (Some connectId); IR_updatedAt now_]))) ;;
          execute tx T_serviceRequests
            (onServiceRequests
               (updateWhere (fun r => String.eqb (sr_id r) serviceRequestId)
                  (setSR [SR_subscriptionId (Some subscriptionId_)])))
      | None => ret tt
      end
  | Some _ => ret tt
  end ;;
  (* Update installation request status *)
  execute tx T_installationRequests
    (onInstallationRequests
       (updateWhere (fun r => String.eqb (ir_id r) irid)
          (setIR [IR_status InstallationRequestStatus.INSTALLATION_COMPLETED;
                  IR_completedDate (Some now_);
                  IR_updatedAt now_;
                  IR_razorpaySubscriptionId (Some rzpSubscriptionId)]))) ;;
  (* Update service request status to COMPLETED *)
  execute tx T_serviceRequests
    (onServiceRequests
       (updateWhere (fun r => String.eqb (sr_id r) serviceRequestId)
          (setSR [SR_status COMPLETED;
                  SR_completedAt (Some now_);
                  SR_updatedAt now_;
                  SR_razorpaySubscriptionId (Some rzpSubscriptionId)]))) ;;
  logActionHistoryInTransaction rt tx
    (linkedAction None (Some irid) (Some paymentId_)
       (Typed ActionType.PAYMENT_COMPLETED)
       (Some (PayStatus PaymentStatus.PENDING))
       (Some (PayStatus PaymentStatus.COMPLETED)) user
       "Payment status refreshed from Razorpay"
       [("razorpayPaymentId", MString (Some (sp_id successfulPayment)));
        ("razorpaySubscriptionId", MString (Some rzpSubscriptionId))]) ;;
  logActionHistoryInTransaction rt tx
    (linkedAction (Some serviceRequestId) None None
       (Typed ActionType.SERVICE_REQUEST_COMPLETED)
       (Some (SRStatus PAYMENT_PENDING)) (Some (SRStatus COMPLETED)) user
       "Service request completed after payment verification"
       [("paymentId", MString (Some paymentId_))]) ;;
  ret (mkRefreshResult "Payment verified and installation completed" "COMPLETED"
         (Some (mkPaymentDetails (sp_method successfulPayment)
                  (div100 (inject_Z (sp_amount successfulPayment)))
                  (Some (sp_id successfulPayment))))).

Definition refreshPaymentStatus (rzp : Razorpay) (rt : Runtime)
    (serviceRequestId : string) (user : Actor) : M RefreshResult :=
  db <- get_fastify_db ;;
  (* Basic validations *)
  serviceRequest <- getServiceRequestById serviceRequestId ;;
  match serviceRequest with
  | None => throw (notFound "Service Request")
  | Some serviceRequest =>
    match asTruthy (sr_installationRequestId serviceRequest) with
    | None => throw (badRequest "This service request is not linked to an installation")
    | Some irid =>
      (* The source compares with [InstallationRequestStatus.PAYMENT_PENDING];
         both enumerations name this member alike. *)
      if negb (ServiceRequestStatus.eqb (sr_status serviceRequest) PAYMENT_PENDING) then
        throw (badRequest "Installation must be in payment pending state")
      else
        fdb <- get_fastify_db ;;
        d <- query fdb ;;
        installationRequest <-
          deref (findFirst (fun r => String.eqb (ir_id r) irid) (installationRequests d)) ;;
        if negb (truthy (ir_razorpaySubscriptionId installationRequest)) then
          throw (badRequest "No payment subscription found for this request")
        else
          (* Use single transaction for all database operations *)
          transaction (fun tx =>
            try_catch
              (successfulPayment <-
                 fetchSuccessfulPayment rzp serviceRequest installationRequest ;;
               match successfulPayment with
               | Some successfulPayment =>
                   (* Check if payment already exists in database *)
                   d <- query tx ;;
                   let existingPayment :=
                     findFirst (completedPaymentFor irid (sp_id successfulPayment))
                               (payments d) in
                   match existingPayment with
                   | Some p =>
                       if PaymentStatus.eqb (pay_status p) PaymentStatus.COMPLETED then
                         repairSubscription rt tx serviceRequestId irid user
                                            successfulPayment p
                       else
                         recordPayment rt tx serviceRequestId irid user
                                       successfulPayment existingPayment
                   | None =>
                       recordPayment rt tx serviceRequestId irid user
                                     successfulPayment existingPayment
                   end
               | None =>
                   ret (mkRefreshResult "Payment not yet received" "PENDING" None)
               end)
              (fun error =>
                 throw (badRequest "Failed to refresh payment status from Razorpay")))
    end
  end.

(* ------------------------------------------------------------------ *)
(** ** Listing service requests *)

(** [query.<table>.findMany({ where })] *)
Definition findMany {A : Type} (where_ : A -> bool) (rows : list A) : list A :=
  filter where_ rows.

(** [and(...whereConditions)] *)
Definition allOf {A : Type} (whereConditions : list (A -> bool)) (r : A) : bool :=
  forallb (fun c => c r) whereConditions.

(** [orderBy: desc(key)]: the later timestamp first; rows with the same
    timestamp stay in the order of the table. *)
Fixpoint insertDesc {A : Type} (key : A -> string) (x : A) (l : list A) : list A :=
  match l with
  | [] => [x]
  | y :: rest =>
      if String.ltb (key x) (key y) then y :: insertDesc key x rest else x :: l
  end.

Definition orderByDesc {A : Type} (key : A -> string) (rows : list A) : list A :=
  fold_right (insertDesc key) [] rows.

Definition getUserById (userId_ : string) : M (option User) :=
  db <- get_fastify_db ;;
  d <- query db ;;
  ret (findFirst (fun u => String.eqb (usr_id u) userId_) (users d)).

(** The query-string filters of [getAllServiceRequests].  A status or a
    type filter is the member of the enumeration that the string names. *)
Record ServiceRequestFilters := mkServiceRequestFilters {
  f_status : option ServiceRequestStatus.t;
  f_type : option ServiceRequestType.t;
  f_franchiseId : option string;
  f_customerId : option string;
  f_subscriptionId : option string
}.

Definition serviceRequestTypeEqb (a b : ServiceRequestType.t) : bool :=
  match a, b with
  | ServiceRequestType.GENERAL, ServiceRequestType.GENERAL => true
  | ServiceRequestType.INSTALLATION, ServiceRequestType.INSTALLATION => true
  | ServiceRequestType.OTHER x, ServiceRequestType.OTHER y => String.eqb x y
  | _, _ => false
  end.

(** Lines 47-62: one condition for every filter that is set. *)
Definition filterConditions (filters : ServiceRequestFilters)
    : list (ServiceRequest -> bool) :=
  whenDefined (f_status filters)
    (fun s r => ServiceRequestStatus.eqb (sr_status r) s)
  ++ whenDefined (f_type filters)
       (fun t r => serviceRequestTypeEqb (sr_type r) t)
  ++ whenDefined (asTruthy (f_franchiseId filters))
       (fun f r => String.eqb (sr_franchiseId r) f)
  ++ whenDefined (asTruthy (f_customerId filters))
       (fun c r => String.eqb (sr_customerId r) c)
  ++ whenDefined (asTruthy (f_subscriptionId filters))
       (fun s r => optStringEqb (sr_subscriptionId r) s).

(** [getAllServiceRequests]: the rows the caller's role and the filters
    select, latest first.  [None] for the role conditions stands for the
    early [return []].  The joined relations and the parsed image arrays of
    the returned objects are left out, as in [getServiceRequestById]. *)
Definition getAllServiceRequests (filters : ServiceRequestFilters) (user : Actor)
    : M (list ServiceRequest) :=
  db <- get_fastify_db ;;
  (* Role-based filtering *)
  roleConditions <-
    (if UserRole.eqb (role user) UserRole.FRANCHISE_OWNER then
       (* Get user's owned franchise *)
       userFromDb <- getUserById (userId user) ;;
       d <- query db ;;
       match findFirst (fun f => optStringEqb (fr_ownerId f) (userId user))
                       (franchises d) with
       | None => ret None
       | Some ownedFranchise =>
           ret (Some [fun r => String.eqb (sr_franchiseId r) (fr_id ownedFranchise)])
       end
     else if UserRole.eqb (role user) UserRole.SERVICE_AGENT then
       ret (Some [fun r => optStringEqb (sr_assignedToId r) (userId user)])
     else if UserRole.eqb (role user) UserRole.CUSTOMER then
       ret (Some [fun r => String.eqb (sr_customerId r) (userId user)])
     else ret (Some [])) ;;
  match roleConditions with
  | None => ret []
  | Some roleConditions =>
      (* Additional filters *)
      let whereConditions := roleConditions ++ filterConditions filters in
      d <- query db ;;
      ret (orderByDesc sr_createdAt
             (findMany (allOf whereConditions) (serviceRequests d)))
  end.

(** An element of the answer of [getAllUnassignedServiceRequests]. *)
Record UnassignedServiceRequest := mkUnassignedServiceRequest {
  ur_id : string;
  ur_description : string;
  ur_type : ServiceRequestType.t;
  ur_priority : string;
  ur_status : string;
  ur_createdAt : string;
  ur_customerName : string;
  ur_customerAddress : string;
  ur_customerPhone : string
}.

(** [v || dflt] on an optional string. *)
Definition orDefault (v : option string) (dflt : string) : string :=
  match asTruthy v with
  | Some s => s
  | None => dflt
  end.

Section UserColumns.

(** The [city] column of the user table, which the rows of [User] do not
    carry. *)
Variable usr_city : User -> option string.

(** Lines 826-836: the shape of one answer, with the joined customer. *)
Definition unassignedView (d : Db) (sr : ServiceRequest) : UnassignedServiceRequest :=
  let customer := findFirst (fun u => String.eqb (usr_id u) (sr_customerId sr)) (users d) in
  mkUnassignedServiceRequest (sr_id sr) (sr_description sr) (sr_type sr)
    "high" "open" (sr_createdAt sr)
    (orDefault (opt_field customer usr_name) "Unknown")
    (orDefault (opt_field customer usr_city) "Not provided")
    (orDefault (opt_field customer usr_phone) "Not provided").

(** [getAllUnassignedServiceRequests]; [None] for the role conditions
    stands for the early [return []]. *)
Definition getAllUnassignedServiceRequests (user : Actor)
    : M (list UnassignedServiceRequest) :=
  db <- get_fastify_db ;;
  let whereConditions : list (ServiceRequest -> bool) :=
    [ fun r => negb (present (sr_assignedToId r));            (* Unassigned *)
      fun r => negb (present (sr_installationRequestId r));   (* Not installation type *)
      fun r => includes [CREATED; ASSIGNED] (sr_status r) ] in
  roleConditions <-
    (if UserRole.eqb (role user) UserRole.SERVICE_AGENT then
       (* Get agent's franchise assignments *)
       d <- query db ;;
       let agentFranchises :=
         findMany (fun fa => String.eqb (fa_agentId fa) (userId user))
                  (franchiseAgents d) in
       match agentFranchises with
       | _ :: _ =>
           let franchiseIds := map fa_franchiseId agentFranchises in
           ret (Some [fun r => existsb (String.eqb (sr_franchiseId r)) franchiseIds])
       | [] => ret None   (* Agent not assigned to any franchise *)
       end
     else if UserRole.eqb (role user) UserRole.FRANCHISE_OWNER then
       d <- query db ;;
       match findFirst (fun f => optStringEqb (fr_ownerId f) (userId user))
                       (franchises d) with
       | None => ret None
       | Some ownedFranchise =>
           ret (Some [fun r => String.eqb (sr_franchiseId r) (fr_id ownedFranchise)])
       end
     else ret (Some [])) ;;
  match roleConditions with
  | None => ret []
  | Some roleConditions =>
      let whereConditions := whereConditions ++ roleConditions in
      d <- query db ;;
      let results :=
        orderByDesc sr_createdAt
          (findMany (allOf whereConditions) (serviceRequests d)) in
      (* Format response according to requirements *)
      ret (map (unassignedView d) results)
  end.

End UserColumns.

(* ------------------------------------------------------------------ *)
(** ** Changing the scheduled date *)

(** The clock and the locale of the runtime, on time values (milliseconds
    since the epoch). *)
Record Calendar := mkCalendar {
  currentTime : Z;                      (* new Date() *)
  toLocaleDateString : Z -> string      (* new Date(ms).toLocaleDateString() *)
}.

(** [scheduleServiceRequest].  [scheduledDateTime] is the time value of
    [new Date(scheduledDate)].  A string that does not parse gives an
    Invalid Date, on which the comparison of line 754 is false and
    [toISOString] (line 760) throws a RangeError before any statement is
    issued; such calls are outside this embedding. *)
Definition scheduleServiceRequest (rt : Runtime) (cal : Calendar) (id : string)
    (scheduledDateTime : Z) (user : Actor) : M (option ServiceRequest) :=
  sr <- getServiceRequestById id ;;
  match sr with
  | None => throw (notFound "Service Request")
  | Some sr =>
    (* Permission: admin, franchise owner, or assigned agent *)
    hasPermission <-
      (if UserRole.eqb (role user) UserRole.ADMIN then ret true
       else if UserRole.eqb (role user) UserRole.SERVICE_AGENT
               && optStringEqb (sr_assignedToId sr) (userId user) then ret true
       else if UserRole.eqb (role user) UserRole.FRANCHISE_OWNER then
         franchise <- getFranchiseById (sr_franchiseId sr) ;;
         ret (match franchise with
              | Some f => optStringEqb (fr_ownerId f) (userId user)
              | None => false
              end)
       else ret false) ;;
    if negb hasPermission then
      throw (forbidden "You do not have permission to schedule this service request")
    (* Validate scheduled date is in the future *)
    else if Z.leb scheduledDateTime (currentTime cal) then
      throw (badRequest "Scheduled date must be in the future")
    else
      let oldStatus := sr_status sr in
      db <- get_fastify_db ;;
      execute db T_serviceRequests
        (onServiceRequests
           (updateWhere (fun r => String.eqb (sr_id r) id)
              (setSR [SR_scheduledDate (Some (epochToISOString rt scheduledDateTime));
                      SR_updatedAt (now rt)]))) ;;
      (* Log action history *)
      logActionHistory rt
        (linkedAction (Some id) None None (Typed ActionType.SERVICE_REQUEST_SCHEDULED)
           (Some (SRStatus oldStatus)) (Some (SRStatus SCHEDULED)) user
           ("Service scheduled for " ++ toLocaleDateString cal scheduledDateTime)
           [("scheduledDate", MString (Some (epochToISOString rt scheduledDateTime)))]) ;;
      (* Send push notifications *)
      sendServiceRequestNotifications ;;
      getServiceRequestById id
  end.

(* ------------------------------------------------------------------ *)
(** ** Vocabulary of the properties *)

(** A world between two requests: no transaction is open and the shared
    reference holds the application's own connection. *)
Definition idle (w : World) : Prop := txn w = None /\ fastify_db w = RootDb.

(** The committed row of a service request. *)
Definition storedServiceRequest (id : string) (w : World) : option ServiceRequest :=
  findFirst (fun r => String.eqb (sr_id r) id) (serviceRequests (root w)).

(** What [getServiceRequestById] answers on store [d]: the row, nothing,
    or the error of the computed payment status.  The read depends on the
    store only. *)
Definition readServiceRequest (d : Db) (id : string) : Result (option ServiceRequest) :=
  fst (getServiceRequestById id (mkWorld d None RootDb 0 (fun _ => false) [])).

(** The allowed-transition table, pair by pair as the specification lists
    it (section 4.1). *)
Definition transitionTable : list (ServiceRequestStatus.t * ServiceRequestStatus.t) :=
  [ (CREATED, ASSIGNED); (CREATED, CANCELLED);
    (ASSIGNED, SCHEDULED); (ASSIGNED, CANCELLED); (ASSIGNED, ASSIGNED);
    (SCHEDULED, IN_PROGRESS); (SCHEDULED, CANCELLED);
    (IN_PROGRESS, PAYMENT_PENDING); (IN_PROGRESS, COMPLETED); (IN_PROGRESS, CANCELLED);
    (PAYMENT_PENDING, COMPLETED); (PAYMENT_PENDING, CANCELLED);
    (CANCELLED, ASSIGNED); (CANCELLED, SCHEDULED) ].

(** The two messages a completion can be turned away with. *)
Definition mustGoThroughPaymentPending : string :=
  "Service requests requiring payment must go through PAYMENT_PENDING status first".

Definition completionImagesRequired : string :=
  "Completion images are required to mark as completed".

(** The mapping of section 4.2, status by status as the specification
    lists it; the statuses it does not list map to nothing. *)
Definition installationStatusFor (s : ServiceRequestStatus.t)
    : option InstallationRequestStatus.t :=
  match s with
  | IN_PROGRESS => Some InstallationRequestStatus.INSTALLATION_IN_PROGRESS
  | PAYMENT_PENDING => Some InstallationRequestStatus.PAYMENT_PENDING
  | COMPLETED => Some InstallationRequestStatus.INSTALLATION_COMPLETED
  | CANCELLED => Some InstallationRequestStatus.CANCELLED
  | SCHEDULED => Some InstallationRequestStatus.INSTALLATION_SCHEDULED
  | CREATED | ASSIGNED => None
  end.

(** An installation request after the synchronizer wrote status [st] for
    service-request status [s]: only the status changes, and on CANCELLED
    the two stored payment-link fields are cleared as well. *)
Definition syncedInstallation (s : ServiceRequestStatus.t)
    (st : InstallationRequestStatus.t) (r : InstallationRequest) : InstallationRequest :=
  mkInstallationRequest (ir_id r) (ir_customerId r) (ir_productId r) (ir_franchiseId r)
    st (ir_assignedTechnicianId r) (ir_connectId r)
    (if ServiceRequestStatus.eqb s CANCELLED then None else ir_razorpaySubscriptionId r)
    (if ServiceRequestStatus.eqb s CANCELLED then None else ir_razorpayPaymentLink r)
    (ir_completedDate r) (ir_updatedAt r).

(** The action type the synchronizer records with a mapped status. *)
Definition installationActionFor (s : ServiceRequestStatus.t) : ActionType.t :=
  match s with
  | IN_PROGRESS => ActionType.INSTALLATION_REQUEST_IN_PROGRESS
  | CANCELLED => ActionType.INSTALLATION_REQUEST_CANCELLED
  | SCHEDULED => ActionType.INSTALLATION_REQUEST_SCHEDULED
  | _ => ActionType.INSTALLATION_REQUEST_COMPLETED
  end.

(** The audit entry the synchronizer appends for installation request
    [irid] when it records action [act]. *)
Definition syncAuditEntry (rt : Runtime) (irid : string) (s : ServiceRequestStatus.t)
    (act : ActionType.t) (user : Actor) : ActionHistoryEntry :=
  mkActionHistoryEntry
    (linkedAction None (Some irid) None (Typed act)
       (Some (SRStatus s)) (Some (SRStatus ASSIGNED)) user
       (agentAssignedComment "undefined" (actorName user) (actorPhone user)) [])
    (now rt).

(** The working copy after a successful run of the synchronizer. *)
Definition syncedDb (rt : Runtime) (irid : string) (s : ServiceRequestStatus.t)
    (user : Actor) (d : Db) : Db :=
  match installationStatusFor s with
  | Some st =>
      onActionHistory
        (insertRow (syncAuditEntry rt irid s (installationActionFor s) user))
        (onInstallationRequests
           (updateWhere (fun row => String.eqb (ir_id row) irid)
                        (syncedInstallation s st)) d)
  | None => d
  end.



(** The audit entry of the status machine for the service request, and
    the one for its subscription. *)
Definition statusAuditEntry (rt : Runtime) (id : string) (status : ServiceRequestStatus.t)
    (user : Actor) (data : option StatusData) (sr : ServiceRequest)
    : ActionHistoryEntry :=
  mkActionHistoryEntry
    (entityAction service_request id (status_updated_to status) user
       [("fromStatus", MStatus (sr_status sr));
        ("toStatus", MStatus status);
        ("agentId", MString (opt_field data agentId));
        ("scheduledDate", MString (opt_field data scheduledDate));
        ("imagesCount", MNumber 0)])
    (now rt).

Definition subscriptionAuditEntry (rt : Runtime) (subId id : string)
    (status : ServiceRequestStatus.t) (user : Actor) : ActionHistoryEntry :=
  mkActionHistoryEntry
    (entityAction subscription subId (service_request_event status) user
       [("serviceRequestId", MString (Some id));
        ("status", MStatus status)])
    (now rt).


(** The update list of a status change that passed its validations. *)
Definition committedUpdateData (rt : Runtime) (status : ServiceRequestStatus.t)
    (data : option StatusData) : list ServiceRequestSet :=
  statusSpecificData rt status data
    ([SR_status status; SR_updatedAt (now rt)]
     ++ (if ServiceRequestStatus.eqb status CANCELLED
         then [SR_beforeImages None; SR_afterImages None] else [])).

(** The store a committed status update leaves behind. *)
Definition statusUpdateDb (rt : Runtime) (id : string) (status : ServiceRequestStatus.t)
    (user : Actor) (data : option StatusData) (sr : ServiceRequest)
    (updateData : list ServiceRequestSet) (d : Db) : Db :=
  let d1 := onServiceRequests
              (updateWhere (fun r => String.eqb (sr_id r) id) (setSR updateData)) d in
  let d2 := match asTruthy (sr_installationRequestId sr) with
            | Some irid => syncedDb rt irid status user d1
            | None => d1
            end in
  let d3 := onActionHistory (insertRow (statusAuditEntry rt id status user data sr)) d2 in
  match asTruthy (sr_subscriptionId sr) with
  | Some subId =>
      onActionHistory (insertRow (subscriptionAuditEntry rt subId id status user)) d3
  | None => d3
  end.

(** The image array of the payload that ends up stored: [beforeImages] is
    applied last, so it wins over [afterImages]. *)
Definition payloadImages (data : option StatusData) : option (list string) :=
  if nonEmptyArray (opt_field data beforeImages) then opt_field data beforeImages
  else if nonEmptyArray (opt_field data afterImages) then opt_field data afterImages
  else None.

(** The assignment invariant of section 3: a request that is neither
    CREATED nor CANCELLED has an agent. *)
Definition assignedOk (r : ServiceRequest) : bool :=
  match sr_status r with
  | CREATED | CANCELLED => true
  | _ => present (sr_assignedToId r)
  end.

(** Every stored service request is [assignedOk]. *)
Definition assignmentInvariant (d : Db) : Prop :=
  Forall (fun r => assignedOk r = true) (serviceRequests d).

(** Ids are a primary key of the service-request table. *)
Definition uniqueServiceRequestIds (d : Db) : Prop :=
  NoDup (map sr_id (serviceRequests d)).

(** Number of rows of a table that satisfy a condition. *)
Definition countWhere {A : Type} (p : A -> bool) (rows : list A) : nat :=
  List.length (filter p rows).

(** The two kinds of events a transaction body produces. *)
Definition isWrite (e : Event) : bool :=
  match e with EvWrite _ => true | _ => false end.

Definition isGateway (e : Event) : bool :=
  match e with EvGateway _ => true | _ => false end.

(** What one reconciliation may do to the payments and subscriptions of
    installation request [irid], from store [d] to store [d']: for every
    gateway payment id at most one COMPLETED payment row unless there were
    more already, the same for the subscriptions of the request, and at
    most one row more in either table. *)
Definition reconciled (irid : string) (d d' : Db) : Prop :=
  (forall pid,
     countWhere (completedPaymentFor irid pid) (payments d')
     <= Nat.max 1 (countWhere (completedPaymentFor irid pid) (payments d)))
  /\ countWhere (subscriptionFor irid) (subscriptions d')
     <= Nat.max 1 (countWhere (subscriptionFor irid) (subscriptions d))
  /\ List.length (payments d') <= List.length (payments d) + 1
  /\ List.length (subscriptions d') <= List.length (subscriptions d) + 1.

(** What a reconciliation that wrote something leaves in the working copy
    [d'] of a transaction started on [d]: the counts of [reconciled], and
    the service request [srid] COMPLETED. *)
Definition settled (irid srid : string) (d d' : Db) : Prop :=
  reconciled irid d d'
  /\ forall sr,
       findFirst (fun x => String.eqb (sr_id x) srid) (serviceRequests d) = Some sr ->
       exists sr',
         findFirst (fun x => String.eqb (sr_id x) srid) (serviceRequests d') = Some sr'
         /\ sr_status sr' = COMPLETED.

(** The shape of the events of one reconciliation: nothing when the call
    is rejected by its validations; otherwise the transaction opens, the
    gateway is asked, the statements are issued, and the transaction
    ends. *)
Definition reconciliationTrace (new : list Event) : Prop :=
  new = []
  \/ exists gs ws e,
       new = EvTxBegin :: gs ++ ws ++ [e]
       /\ forallb isGateway gs = true
       /\ forallb isWrite ws = true
       /\ (e = EvTxCommit \/ e = EvTxRollback).

(** The caller owns the franchise with this id. *)
Definition ownsFranchise (d : Db) (user : Actor) (franchiseId : string) : bool :=
  match findFirst (fun f => String.eqb (fr_id f) franchiseId) (franchises d) with
  | Some f => optStringEqb (fr_ownerId f) (userId user)
  | None => false
  end.

(** Who [assignServiceAgent] lets through: an admin, or the owner of the
    franchise of the request. *)
Definition mayAssign (d : Db) (user : Actor) (sr : ServiceRequest) : bool :=
  UserRole.eqb (role user) UserRole.ADMIN
  || (UserRole.eqb (role user) UserRole.FRANCHISE_OWNER
      && ownsFranchise d user (sr_franchiseId sr)).

(** The user with this id exists and is a service agent. *)
Definition isServiceAgent (d : Db) (uid : string) : bool :=
  match findFirst (fun u => String.eqb (usr_id u) uid) (users d) with
  | Some agent => UserRole.eqb (usr_role agent) UserRole.SERVICE_AGENT
  | None => false
  end.

(** The caller has an active link to the franchise with this id. *)
Definition worksIn (d : Db) (user : Actor) (franchiseId : string) : bool :=
  match findFirst (fun fa => String.eqb (fa_agentId fa) (userId user)
                             && String.eqb (fa_franchiseId fa) franchiseId
                             && Bool.eqb (fa_isActive fa) true)
                  (franchiseAgents d) with
  | Some _ => true
  | None => false
  end.

(** Who [scheduleServiceRequest] lets through: an admin, the agent the
    request is assigned to, or the owner of the franchise of the request. *)
Definition maySchedule (d : Db) (user : Actor) (sr : ServiceRequest) : bool :=
  UserRole.eqb (role user) UserRole.ADMIN
  || (UserRole.eqb (role user) UserRole.SERVICE_AGENT
      && optStringEqb (sr_assignedToId sr) (userId user))
  || (UserRole.eqb (role user) UserRole.FRANCHISE_OWNER
      && ownsFranchise d user (sr_franchiseId sr)).

(** The installation service request of installation request [irid]: the
    condition [createInstallationServiceRequest] looks for an existing
    request with. *)
Definition installationRequestOf (irid : string) (r : ServiceRequest) : bool :=
  optStringEqb (sr_installationRequestId r) irid
  && ServiceRequestType.isInstallation (sr_type r).

(** No installation request has two installation service requests. *)
Definition oneServiceRequestPerInstallation (d : Db) : Prop :=
  forall irid,
    countWhere (installationRequestOf irid) (serviceRequests d) <= 1.

(** What the gateway says about the first invoice of a request: the
    answer of [fetchSuccessfulPayment], which depends on the gateway and on
    the two rows only. *)
Definition gatewayVerdict (rzp : Razorpay) (sr : ServiceRequest)
    (ir_ : InstallationRequest) : Result (option SuccessfulPayment) :=
  fst (fetchSuccessfulPayment rzp sr ir_
         (mkWorld (mkDb [] [] [] [] [] [] [] [] []) None RootDb 0 (fun _ => false) [])).

(** Request [id] is linked to installation request [irid], both are
    stored, the request waits for its payment and the installation request
    names a gateway subscription: the checks of [refreshPaymentStatus]
    before it opens its transaction. *)
Definition awaitingPayment (d : Db) (id irid : string) (sr : ServiceRequest)
    (ir_ : InstallationRequest) : Prop :=
  findFirst (fun x => String.eqb (sr_id x) id) (serviceRequests d) = Some sr
  /\ asTruthy (sr_installationRequestId sr) = Some irid
  /\ sr_status sr = PAYMENT_PENDING
  /\ findFirst (fun x => String.eqb (ir_id x) irid) (installationRequests d) = Some ir_
  /\ truthy (ir_razorpaySubscriptionId ir_) = true.



(** The subscription that [refreshPaymentStatus] creates for installation
    request [ir_] of product [product] when it records a payment: the plan
    starts now and its first period ends a month from now. *)
Definition newSubscription (rt : Runtime) (ir_ : InstallationRequest) (product : Product)
    (sp : SuccessfulPayment) : Subscription :=
  mkSubscription (generateId rt "sub") (generateConnectId rt) (ir_id ir_)
    (ir_customerId ir_) (ir_productId ir_) (ir_franchiseId ir_)
    (prod_name product ++ " Rental Plan") "ACTIVE" (now rt) (now rt)
    (Some (getNextMonthDate rt (now rt))) (Some (getNextMonthDate rt (now rt)))
    (prod_rentPrice product) (prod_deposit product) (now rt) (now rt)
    (rzp_id (sp_subscriptionDetails sp)).

(** The ids of the stored service requests, in the order of the table. *)
Definition serviceRequestIds (d : Db) : list string := map sr_id (serviceRequests d).

(* ------------------------------------------------------------------ *)
(** ** Claims that the code does not meet, as the specification words them *)

(** Claim C4 as the specification words it: whatever the payload, the
    rejection names the PAYMENT_PENDING route. *)
Definition completion_always_names_payment_pending : Prop :=
  forall rt id user data w sr,
    idle w ->
    storedServiceRequest id w = Some sr ->
    sr_requirePayment sr = true ->
    sr_status sr = IN_PROGRESS ->
    updateServiceRequestStatus rt id COMPLETED user data w =
    (Throw (BadRequest mustGoThroughPaymentPending), w).

(** Claim C7 as the specification words it: after a successful
    cancellation both image columns are [null], whatever the payload. *)
Definition cancellation_clears_both_images : Prop :=
  forall rt id user data w sr v w',
    idle w ->
    storedServiceRequest id w = Some sr ->
    updateServiceRequestStatus rt id CANCELLED user data w = (Ok v, w') ->
    exists r',
      storedServiceRequest id w' = Some r'
      /\ sr_beforeImages r' = None
      /\ sr_afterImages r' = None.

(** Claim C6 as the specification words it: the gateway is asked before
    the transaction opens, so no gateway call follows [EvTxBegin]. *)
Definition gateway_read_precedes_transaction : Prop :=
  forall rzp rt id user w res w',
    idle w ->
    trace w = [] ->
    refreshPaymentStatus rzp rt id user w = (res, w') ->
    forall pre c post,
      trace w' = pre ++ EvGateway c :: post ->
      ~ In EvTxBegin pre.

(* ------------------------------------------------------------------ *)
(** ** Sample data *)

(** The runtime of a call: its clock, its fresh ids. *)
Definition rt0 : Runtime :=
  mkRuntime "2025-01-01T00:00:00.000Z" (fun p => (p ++ "_1")%string) "ABCD1234"
            (fun _ => "2025-01-05T00:00:00.000Z")
            (fun _ => "2025-02-01T00:00:00.000Z").

(** The runtime of a second call. *)
Definition rt1 : Runtime :=
  mkRuntime "2025-01-02T00:00:00.000Z" (fun p => (p ++ "_2")%string) "WXYZ5678"
            (fun _ => "2025-01-05T00:00:00.000Z")
            (fun _ => "2025-02-02T00:00:00.000Z").

(** Two callers. *)
Definition customer : Actor := mkActor "u1" UserRole.CUSTOMER (Some "Asha") None.
Definition admin : Actor := mkActor "adm" UserRole.ADMIN (Some "Root") None.

Definition emptyDb : Db := mkDb [] [] [] [] [] [] [] [] [].

(** An idle world over a store, with a storage engine that accepts every
    statement. *)
Definition world (d : Db) : World := mkWorld d None RootDb 0 (fun _ => false) [].

(** The same, with a storage engine that rejects the [k]-th statement. *)
Definition faultyWorld (d : Db) (k : nat) : World :=
  mkWorld d None RootDb 0 (fun n => Nat.eqb n k) [].

(** A world in the middle of a transaction over [d]. *)
Definition worldInTx (d : Db) : World :=
  mkWorld d (Some d) RootDb 0 (fun _ => false) [].

(** A general request in progress; [pay] is its payment flag. *)
Definition generalRequest (pay : bool) : ServiceRequest :=
  mkServiceRequest "srq1" None "u1" "p1" None ServiceRequestType.GENERAL "leak" None
    IN_PROGRESS (Some "agent1") "f1" None None None
    (Some "[b0]") (Some "[a0]") pay None "t0" "t0".

(** The store that holds one service request and nothing else. *)
Definition dbWith (r : ServiceRequest) : Db := onServiceRequests (fun _ => [r]) emptyDb.

(** A payload that carries [xs] as [afterImages]. *)
Definition images (xs : list string) : option StatusData :=
  Some (mkStatusData None None None None (Some xs)).

(** A general request in progress that belongs to subscription [sub1]. *)
Definition subscribedRequest : ServiceRequest :=
  mkServiceRequest "srq1" (Some "sub1") "u1" "p1" None ServiceRequestType.GENERAL
    "filter change" None IN_PROGRESS (Some "agent1") "f1" None None None
    None None false None "t0" "t0".

Definition product1 : Product := mkProduct "p1" "AquaPure" 499 1500.

(** An installation request waiting for its payment, the installation
    service request that drives it, and the store that holds them. *)
Definition installation1 : InstallationRequest :=
  mkInstallationRequest "ir1" "u1" "p1" "f1" InstallationRequestStatus.PAYMENT_PENDING
    (Some "agent1") None (Some "rzp_sub_1") (Some "https://rzp.io/l/1") None "t0".

Definition installationRequest1 : ServiceRequest :=
  mkServiceRequest "srq2" None "u1" "p1" (Some "ir1") ServiceRequestType.INSTALLATION
    "install" None PAYMENT_PENDING (Some "agent1") "f1" None None None
    (Some "[b0]") (Some "[a0]") true (Some "rzp_sub_1") "t0" "t0".

Definition installationDb : Db :=
  mkDb [installationRequest1] [installation1] [] [] [] [product1] [] [] [].

(** The store of [installationDb] without the product of the installation
    request. *)
Definition productlessDb : Db :=
  mkDb [installationRequest1] [installation1] [] [] [] [] [] [] [].

(** An installation request that has no service request yet, and a request
    to create one without naming an agent. *)
Definition freshInstallationDb : Db :=
  mkDb [] [installation1] [] [] [] [product1] [] [] [].

Definition unassignedInstall : InstallationServiceRequestData :=
  mkInstallationServiceRequestData "ir1" None None "install the purifier".

(** A gateway on which the first invoice of every subscription is paid. *)
Definition paidGateway : Razorpay :=
  mkRazorpay
    (fun id => Some (mkRazorpaySubscription id "active"
                       (Some 1735689600%Z) (Some 1738368000%Z)))
    (fun _ _ => Some [mkRazorpayInvoice "paid" "pay_rzp_1" 150000]).

(** A completed, paid request, a service agent, and the store that holds
    them. *)
Definition completedRequest : ServiceRequest :=
  mkServiceRequest "srq9" None "u1" "p1" None ServiceRequestType.GENERAL "leak" None
    COMPLETED (Some "agent1") "f1" None None (Some "t1") None (Some "[a0]") false None
    "t0" "t1".

Definition agent2 : User := mkUser "agent2" UserRole.SERVICE_AGENT (Some "Ravi") None.

Definition completedDb : Db :=
  mkDb [completedRequest] [] [] [] [] [] [agent2] [] [].

(** A request nobody has taken yet, in franchise [f1]; the store holds it
    together with a service agent who has an active link to [f1]. *)
Definition openRequest : ServiceRequest :=
  mkServiceRequest "srq7" None "u1" "p1" None ServiceRequestType.GENERAL "no water" None
    CREATED None "f1" None None None None None false None "t0" "t0".

Definition agentActor : Actor :=
  mkActor "agent2" UserRole.SERVICE_AGENT (Some "Ravi") None.

Definition openDb : Db :=
  mkDb [openRequest] [] [] [] [] [] [agent2] [] [mkFranchiseAgent "agent2" "f1" true].

(** No filter set. *)
Definition noFilters : ServiceRequestFilters :=
  mkServiceRequestFilters None None None None None.

(** The store of [freshInstallationDb] with a service agent, and a request
    to schedule installation [ir1] with that agent. *)
Definition staffedInstallationDb : Db :=
  mkDb [] [installation1] [] [] [] [product1] [agent2] [] [].

Definition assignedInstall : InstallationServiceRequestData :=
  mkInstallationServiceRequestData "ir1" (Some "agent2") None "install the purifier".

(** The owner of some other franchise. *)
Definition otherOwner : Actor :=
  mkActor "owner2" UserRole.FRANCHISE_OWNER (Some "Meera") None.

(** A request to schedule installation [ir1] with an agent nobody knows. *)
Definition strangerInstall : InstallationServiceRequestData :=
  mkInstallationServiceRequestData "ir1" (Some "nobody") None "install the purifier".

(** A clock at time 1000 and a date at time 5000. *)
Definition calendar0 : Calendar := mkCalendar 1000 (fun _ => "1/5/2025").

(** The store of [installationDb] with a payment of the installation
    request that is still PENDING. *)
Definition pendingPayment : Payment :=
  mkPayment "pay0" (Some "ir1") None 1500 PaymentType.SUBSCRIPTION PaymentStatus.PENDING
    "SUBSCRIPTION" None (Some "rzp_sub_1") None "t0" "t0".

Definition pendingPaymentDb : Db :=
  onPayments (fun _ => [pendingPayment]) installationDb.

(** The store of [installationDb] after the payment was recorded and the
    subscription created, with the service request still waiting. *)
Definition recordedPayment : Payment :=
  mkPayment "pay1" (Some "ir1") (Some "sub1") 1500 PaymentType.SUBSCRIPTION
    PaymentStatus.COMPLETED "SUBSCRIPTION" (Some "pay_rzp_1") (Some "rzp_sub_1")
    (Some "t1") "t1" "t1".

Definition subscription1 : Subscription :=
  mkSubscription "sub1" "ABCD1234" "ir1" "u1" "p1" "f1" "AquaPure Rental Plan" "ACTIVE"
    "t1" "t1" None None 499 1500 "t1" "t1" "rzp_sub_1".

Definition recordedDb : Db :=
  onSubscriptions (fun _ => [subscription1])
    (onPayments (fun _ => [recordedPayment]) installationDb).

(** A gateway that cannot be reached. *)
Definition deadGateway : Razorpay := mkRazorpay (fun _ => None) (fun _ _ => None).

(** A gateway on which the subscription has been created and nothing is
    paid yet. *)
Definition unpaidGateway : Razorpay :=
  mkRazorpay (fun id => Some (mkRazorpaySubscription id "created" None None))
             (fun _ _ => Some []).

(* ================================================================== *)
(** * Properties *)

Lemma includes_transitionTable (a b : ServiceRequestStatus.t) :
  includes (validTransitions a) b = true <-> In (a, b) transitionTable.
Proof.
  split.
  - destruct a, b; simpl; intro H; try discriminate H; tauto.
  - intro H; simpl in H.
    repeat (destruct H as [H | H]; [inversion H; reflexivity | ]).
    contradiction.
Qed.

Lemma not_in_table_not_included (a b : ServiceRequestStatus.t) :
  ~ In (a, b) transitionTable -> includes (validTransitions a) b = false.
Proof.
  intro H. destruct (includes (validTransitions a) b) eqn:E; [ | reflexivity].
  apply includes_transitionTable in E. contradiction.
Qed.

(* ------------------------------------------------------------------ *)
(** ** The read of a service request *)

(** Splits on every scrutinee that is not a run of the monad. *)
Ltac split_cases :=
  repeat (cbn [root txn fastify_db writes fault trace view fst];
          match goal with
          | |- context [match ?x with _ => _ end] =>
              lazymatch x with
              | context [mkWorld] => fail
              | _ => destruct x
              end
          end);
  cbn [root txn fastify_db writes fault trace view fst].

(** The read leaves the world as it is, and its answer depends on the
    committed store only: also inside a transaction, where [fastify.db]
    still is the application's own connection. *)
Lemma getServiceRequestById_in_tx id r o n flt tr :
  getServiceRequestById id (mkWorld r o RootDb n flt tr) =
  (readServiceRequest r id, mkWorld r o RootDb n flt tr).
Proof.
  unfold readServiceRequest, getServiceRequestById, bind, get_fastify_db, query, deref,
    ret, throw.
  cbn [fastify_db view root txn fst]. split_cases; reflexivity.
Qed.

Lemma getServiceRequestById_root (id : string) (w : World) :
  fastify_db w = RootDb ->
  getServiceRequestById id w = (readServiceRequest (root w) id, w).
Proof.
  destruct w as [r o h n flt tr]. cbn [fastify_db root]. intros ->.
  apply getServiceRequestById_in_tx.
Qed.

(** Steps through an operation whose definitions are unfolded: a read of
    a service request is replaced by its answer, every other scrutinee that
    is not a run of the monad is split. *)
Ltac root_steps :=
  repeat (cbn [root txn fastify_db writes fault trace view option_map];
          first
            [ rewrite getServiceRequestById_in_tx
            | match goal with
              | |- context [match ?x with _ => _ end] =>
                  lazymatch x with
                  | context [mkWorld] => fail
                  | _ => destruct x
                  end
              end ]);
  cbn [root txn fastify_db writes fault trace view option_map].

(** The answer of the read, case by case. *)
Lemma readServiceRequest_eq d id :
  readServiceRequest d id =
  match findFirst (fun x => String.eqb (sr_id x) id) (serviceRequests d) with
  | None => Ok None
  | Some sr =>
      match (if ServiceRequestType.isInstallation (sr_type sr)
             then asTruthy (sr_installationRequestId sr) else None) with
      | Some irid =>
          match findInstallationWithProduct d irid with
          | Some (ir_, None) =>
              match ir_status ir_ with
              | InstallationRequestStatus.PAYMENT_PENDING => Throw TypeError
              | _ => Ok (Some sr)
              end
          | _ => Ok (Some sr)
          end
      | None => Ok (Some sr)
      end
  end.
Proof.
  unfold readServiceRequest, getServiceRequestById, bind, get_fastify_db, query, deref,
    ret, throw.
  cbn [fastify_db view root txn fst]. split_cases; reflexivity.
Qed.

(** A read that answers, answers with the stored row. *)
Lemma readServiceRequest_Ok d id v :
  readServiceRequest d id = Ok v ->
  v = findFirst (fun x => String.eqb (sr_id x) id) (serviceRequests d).
Proof.
  rewrite readServiceRequest_eq.
  split_cases; intro H; first [discriminate H | injection H as <-; reflexivity].
Qed.

Lemma readServiceRequest_Some d id sr :
  readServiceRequest d id = Ok (Some sr) ->
  findFirst (fun x => String.eqb (sr_id x) id) (serviceRequests d) = Some sr.
Proof. intro H. symmetry. exact (readServiceRequest_Ok _ _ _ H). Qed.

Lemma readServiceRequest_None d id :
  findFirst (fun x => String.eqb (sr_id x) id) (serviceRequests d) = None ->
  readServiceRequest d id = Ok None.
Proof. intro H. rewrite readServiceRequest_eq, H. reflexivity. Qed.

(** The only error of the read is the missing product. *)
Lemma readServiceRequest_Throw d id e :
  readServiceRequest d id = Throw e ->
  e = TypeError
  /\ exists sr, findFirst (fun x => String.eqb (sr_id x) id) (serviceRequests d) = Some sr.
Proof.
  rewrite readServiceRequest_eq.
  destruct (findFirst (fun x => String.eqb (sr_id x) id) (serviceRequests d)) as [sr | ];
    [ | intro H; discriminate H].
  split_cases; intro H; inversion H; split; [reflexivity | eexists; reflexivity].
Qed.

(** A request that is not linked to an installation request is read
    without further ado. *)
Lemma readServiceRequest_unlinked d id sr :
  findFirst (fun x => String.eqb (sr_id x) id) (serviceRequests d) = Some sr ->
  truthy (sr_installationRequestId sr) = false ->
  readServiceRequest d id = Ok (Some sr).
Proof.
  intros Hsr Hno. rewrite readServiceRequest_eq, Hsr. unfold asTruthy. rewrite Hno.
  destruct (ServiceRequestType.isInstallation (sr_type sr)); reflexivity.
Qed.

(** So is a request whose installation request has its product. *)
Lemma readServiceRequest_with_product d id sr irid ir_ product :
  findFirst (fun x => String.eqb (sr_id x) id) (serviceRequests d) = Some sr ->
  asTruthy (sr_installationRequestId sr) = Some irid ->
  findFirst (fun x => String.eqb (ir_id x) irid) (installationRequests d) = Some ir_ ->
  findFirst (fun p => String.eqb (prod_id p) (ir_productId ir_)) (products d)
  = Some product ->
  readServiceRequest d id = Ok (Some sr).
Proof.
  intros Hsr Hir Hirq Hprod. rewrite readServiceRequest_eq, Hsr, Hir.
  destruct (ServiceRequestType.isInstallation (sr_type sr)); [ | reflexivity].
  unfold findInstallationWithProduct. rewrite Hirq, Hprod. reflexivity.
Qed.

Lemma sr_link_applySR a r :
  sr_type (applySR a r) = sr_type r
  /\ sr_installationRequestId (applySR a r) = sr_installationRequestId r.
Proof. destruct a, r; split; reflexivity. Qed.

Lemma sr_link_setSR upd r :
  sr_type (setSR upd r) = sr_type r
  /\ sr_installationRequestId (setSR upd r) = sr_installationRequestId r.
Proof.
  unfold setSR. revert r.
  induction upd as [ | a upd IH]; intro r; [split; reflexivity | ].
  cbn [fold_left]. destruct (IH (applySR a r)) as [-> ->]. apply sr_link_applySR.
Qed.

(** The head of [updateServiceRequestStatus]: the read, the transition
    check, and the rest. *)
Lemma updateServiceRequestStatus_head rt id status user data w :
  fastify_db w = RootDb ->
  updateServiceRequestStatus rt id status user data w =
  match readServiceRequest (root w) id with
  | Throw e => (Throw e, w)
  | Ok None => (Throw (notFound "Service Request"), w)
  | Ok (Some sr) =>
      if negb (includes (validTransitions (sr_status sr)) status) then
        (Throw (badRequest (invalidTransitionMessage (sr_status sr) status)), w)
      else
        bind (statusValidations RootDb sr status data
                [SR_status status; SR_updatedAt (now rt)])
             (fun updateData =>
                transaction (statusTransaction rt id status user data sr
                               (statusSpecificData rt status data updateData))) w
  end.
Proof.
  intros Hdb. unfold updateServiceRequestStatus.
  unfold bind at 1. unfold get_fastify_db at 1. rewrite Hdb.
  unfold bind at 1. rewrite (getServiceRequestById_root id w Hdb).
  destruct (readServiceRequest (root w) id) as [[sr | ] | e]; try reflexivity.
  destruct (negb (includes (validTransitions (sr_status sr)) status)); reflexivity.
Qed.

(** Once the row is read the call is the transition check followed by
    the rest. *)
Lemma updateServiceRequestStatus_found rt id status user data w sr :
  fastify_db w = RootDb ->
  readServiceRequest (root w) id = Ok (Some sr) ->
  updateServiceRequestStatus rt id status user data w =
  if negb (includes (validTransitions (sr_status sr)) status) then
    (Throw (badRequest (invalidTransitionMessage (sr_status sr) status)), w)
  else
    bind (statusValidations RootDb sr status data [SR_status status; SR_updatedAt (now rt)])
         (fun updateData =>
            transaction (statusTransaction rt id status user data sr
                           (statusSpecificData rt status data updateData))) w.
Proof.
  intros Hdb Hld. rewrite (updateServiceRequestStatus_head rt id status user data w Hdb), Hld.
  reflexivity.
Qed.

(** A call that returns has read the stored row. *)
Lemma updateServiceRequestStatus_returned rt id status user data w sr v w' :
  idle w ->
  storedServiceRequest id w = Some sr ->
  updateServiceRequestStatus rt id status user data w = (Ok v, w') ->
  readServiceRequest (root w) id = Ok (Some sr).
Proof.
  intros [_ Hdb] Hsr.
  rewrite (updateServiceRequestStatus_head rt id status user data w Hdb).
  destruct (readServiceRequest (root w) id) as [[x | ] | e] eqn:Hld;
    try (intro H; discriminate H).
  intros _. apply readServiceRequest_Some in Hld.
  unfold storedServiceRequest in Hsr. rewrite Hsr in Hld. injection Hld as ->. reflexivity.
Qed.

Lemma updateServiceRequestStatus_stored rt id status user data w v w' :
  idle w ->
  updateServiceRequestStatus rt id status user data w = (Ok v, w') ->
  exists sr, storedServiceRequest id w = Some sr.
Proof.
  intros [_ Hdb].
  rewrite (updateServiceRequestStatus_head rt id status user data w Hdb).
  destruct (readServiceRequest (root w) id) as [[x | ] | e] eqn:Hld;
    try (intro H; discriminate H).
  intros _. exists x. exact (readServiceRequest_Some _ _ _ Hld).
Qed.

(** The validations never touch the world. *)
Lemma statusValidations_world db sr status data base w r w' :
  statusValidations db sr status data base w = (r, w') -> w' = w.
Proof.
  unfold statusValidations, bind, query, throw, ret.
  destruct status; simpl;
    repeat match goal with
           | |- context [if ?b then _ else _] => destruct b
           | |- context [match ?x with _ => _ end] => destruct x
           end;
    intro H; inversion H; reflexivity.
Qed.

(** On a store where the product of a payment-pending installation is
    missing the read throws, and so does every operation that starts with
    it, before it checks or writes anything. *)
Example missing_product_stops_the_read :
  readServiceRequest productlessDb "srq2" = Throw TypeError
  /\ updateServiceRequestStatus rt0 "srq2" ASSIGNED admin None (world productlessDb)
     = (Throw TypeError, world productlessDb)
  /\ assignServiceAgent rt0 "srq2" "agent2" customer (world productlessDb)
     = (Throw TypeError, world productlessDb)
  /\ scheduleServiceRequest rt0 calendar0 "srq2" 5000 customer (world productlessDb)
     = (Throw TypeError, world productlessDb)
  /\ refreshPaymentStatus paidGateway rt0 "srq2" customer (world productlessDb)
     = (Throw TypeError, world productlessDb).
Proof. repeat split; reflexivity. Qed.

(* ------------------------------------------------------------------ *)
(** ** Rejected transitions *)

(** C1. For a service request that [getServiceRequestById] returns and a
    pair (current status, new status) that is not in the
    allowed-transition table, [updateServiceRequestStatus] throws the
    BadRequest that names the transition and lists the valid targets, and
    the world is the one it started from: no row, no audit entry, no
    statement at all. *)
Theorem invalid_transition_is_rejected :
  forall rt id status user data w sr,
    idle w ->
    readServiceRequest (root w) id = Ok (Some sr) ->
    ~ In (sr_status sr, status) transitionTable ->
    updateServiceRequestStatus rt id status user data w =
    (Throw (BadRequest
       ("Invalid status transition from " ++ name (sr_status sr) ++ " to " ++ name status
        ++ ". Valid transitions are: "
        ++ orString (join ", " (map name (validTransitions (sr_status sr)))) "none")),
     w).
Proof.
  intros rt id status user data w sr [_ Hdb] Hsr Hnot.
  rewrite (updateServiceRequestStatus_found rt id status user data w sr Hdb Hsr).
  rewrite (not_in_table_not_included _ _ Hnot). reflexivity.
Qed.

Lemma invalid_transition_is_rejected_witness :
  idle (world (dbWith (generalRequest false)))
  /\ readServiceRequest (root (world (dbWith (generalRequest false)))) "srq1"
     = Ok (Some (generalRequest false))
  /\ ~ In (sr_status (generalRequest false), ASSIGNED) transitionTable
  /\ updateServiceRequestStatus rt0 "srq1" ASSIGNED customer None
       (world (dbWith (generalRequest false)))
     = (Throw (BadRequest
          "Invalid status transition from IN_PROGRESS to ASSIGNED. Valid transitions are: PAYMENT_PENDING, COMPLETED, CANCELLED"),
        world (dbWith (generalRequest false))).
Proof.
  assert (Hidle : idle (world (dbWith (generalRequest false)))) by (split; reflexivity).
  assert (Hnot : ~ In (sr_status (generalRequest false), ASSIGNED) transitionTable).
  { simpl. intro H.
    repeat (destruct H as [H | H]; [discriminate H | ]). exact H. }
  split; [exact Hidle | ]. split; [reflexivity | ]. split; [exact Hnot | ].
  exact (invalid_transition_is_rejected rt0 "srq1" ASSIGNED customer None
           (world (dbWith (generalRequest false))) (generalRequest false)
           Hidle eq_refl Hnot).
Defined.

(* ------------------------------------------------------------------ *)
(** ** Completion and payment *)

(** C4, counterexample.  A request that requires payment, is in progress
    and is not linked to an installation, completed without images: the
    call is rejected, but for the missing images. *)
Lemma completion_always_names_payment_pending_fails :
  ~ completion_always_names_payment_pending.
Proof.
  intro H.
  specialize (H rt0 "srq1" customer None (world (dbWith (generalRequest true)))
                (generalRequest true)
                (conj eq_refl eq_refl) eq_refl eq_refl eq_refl).
  vm_compute in H. discriminate H.
Qed.

(** C4, amended.  For a request that [getServiceRequestById] returns, with
    the payment flag set and status IN_PROGRESS, a call with target
    COMPLETED throws BadRequest and
    leaves the world as it was (the stored status stays IN_PROGRESS).  The
    message is the PAYMENT_PENDING one when the request is linked to an
    installation or the payload carries a non-empty [afterImages];
    otherwise it is the one that asks for completion images. *)
Theorem completion_requires_payment_pending :
  forall rt id user data w sr,
    idle w ->
    readServiceRequest (root w) id = Ok (Some sr) ->
    sr_requirePayment sr = true ->
    sr_status sr = IN_PROGRESS ->
    updateServiceRequestStatus rt id COMPLETED user data w =
    (Throw (BadRequest
       (if truthy (sr_installationRequestId sr)
           || nonEmptyArray (opt_field data afterImages)
        then mustGoThroughPaymentPending
        else completionImagesRequired)), w)
    /\ option_map sr_status (storedServiceRequest id w) = Some IN_PROGRESS.
Proof.
  intros rt id user data w sr [_ Hdb] Hld Hpay Hst.
  split;
    [ | unfold storedServiceRequest; rewrite (readServiceRequest_Some _ _ _ Hld);
        cbn [option_map]; congruence].
  rewrite (updateServiceRequestStatus_found rt id COMPLETED user data w sr Hdb Hld).
  rewrite Hst. simpl.
  unfold bind, statusValidations. rewrite Hpay, Hst. simpl.
  destruct (truthy (sr_installationRequestId sr));
    destruct (nonEmptyArray (opt_field data afterImages)); reflexivity.
Qed.

Lemma completion_requires_payment_pending_witness :
  idle (world (dbWith (generalRequest true)))
  /\ updateServiceRequestStatus rt0 "srq1" COMPLETED customer (images ["u1"])
       (world (dbWith (generalRequest true)))
     = (Throw (BadRequest mustGoThroughPaymentPending),
        world (dbWith (generalRequest true))).
Proof.
  split; [split; reflexivity | ].
  exact (proj1 (completion_requires_payment_pending rt0 "srq1" customer (images ["u1"])
                  (world (dbWith (generalRequest true))) (generalRequest true)
                  (conj eq_refl eq_refl) eq_refl eq_refl eq_refl)).
Defined.

(** C5. A transition to PAYMENT_PENDING succeeds only if the stored
    request has its payment flag set and the payload carries a non-empty
    list of completion images ([afterImages]); when the flag is off, or the
    images are absent or empty, the call throws BadRequest and the world
    is unchanged.  The request is one that [getServiceRequestById]
    returns. *)
Theorem payment_pending_requires_flag_and_images :
  forall rt id user data w sr,
    idle w ->
    readServiceRequest (root w) id = Ok (Some sr) ->
    (sr_requirePayment sr = false \/ nonEmptyArray (opt_field data afterImages) = false ->
     exists msg,
       updateServiceRequestStatus rt id PAYMENT_PENDING user data w =
       (Throw (BadRequest msg), w))
    /\ (forall v w',
          updateServiceRequestStatus rt id PAYMENT_PENDING user data w = (Ok v, w') ->
          sr_requirePayment sr = true
          /\ nonEmptyArray (opt_field data afterImages) = true).
Proof.
  intros rt id user data w sr [_ Hdb] Hsr.
  rewrite (updateServiceRequestStatus_found rt id PAYMENT_PENDING user data w sr Hdb Hsr).
  destruct (negb (includes (validTransitions (sr_status sr)) PAYMENT_PENDING)).
  - split; [intros _; eexists; reflexivity | intros v w' H; discriminate H].
  - unfold bind, statusValidations.
    destruct (sr_requirePayment sr); simpl.
    + destruct (nonEmptyArray (opt_field data afterImages)); simpl.
      * split; [intros [H | H]; discriminate H | intros; split; reflexivity].
      * split; [intros _; eexists; reflexivity | intros v w' H; discriminate H].
    + split; [intros _; eexists; reflexivity | intros v w' H; discriminate H].
Qed.

Lemma payment_pending_requires_flag_and_images_witness :
  idle (world (dbWith (generalRequest false)))
  /\ exists msg,
       updateServiceRequestStatus rt0 "srq1" PAYMENT_PENDING customer (images ["u1"])
         (world (dbWith (generalRequest false)))
       = (Throw (BadRequest msg), world (dbWith (generalRequest false))).
Proof.
  split; [split; reflexivity | ].
  exact (proj1 (payment_pending_requires_flag_and_images rt0 "srq1" customer
                  (images ["u1"]) (world (dbWith (generalRequest false)))
                  (generalRequest false) (conj eq_refl eq_refl) eq_refl)
               (or_introl eq_refl)).
Defined.

(** A request with the payment flag, in progress, sent to PAYMENT_PENDING
    with its completion images: the transition goes through. *)
Example payment_pending_reached :
  let run := updateServiceRequestStatus rt0 "srq1" PAYMENT_PENDING customer (images ["u1"])
               (world (dbWith (generalRequest true))) in
  option_map (fun r => (sr_status r, sr_afterImages r))
             (storedServiceRequest "srq1" (snd run))
  = Some (PAYMENT_PENDING, Some (JSON_stringify ["u1"])).
Proof. vm_compute. reflexivity. Qed.

(* ------------------------------------------------------------------ *)
(** ** Statements inside a transaction *)

(** One statement through [tx]. *)
Lemma execute_tx_run t f r d n flt tr :
  execute TxHandle t f (mkWorld r (Some d) RootDb n flt tr) =
  if flt n
  then (Throw StorageFailure, mkWorld r (Some d) RootDb (S n) flt (tr ++ [EvWrite t]))
  else (Ok tt, mkWorld r (Some (f d)) RootDb (S n) flt (tr ++ [EvWrite t])).
Proof. reflexivity. Qed.

(** An audit entry written with [fastify.db] pointed at [tx]: the entry
    lands in the working copy and the reference is restored. *)
Lemma logActionHistoryInTransaction_run rt a r d n flt tr :
  logActionHistoryInTransaction rt TxHandle a (mkWorld r (Some d) RootDb n flt tr) =
  if hasOwner a then
    if flt n
    then (Throw StorageFailure,
          mkWorld r (Some d) RootDb (S n) flt (tr ++ [EvWrite T_actionHistory]))
    else (Ok tt,
          mkWorld r (Some (onActionHistory
                             (insertRow (mkActionHistoryEntry a (now rt))) d))
                  RootDb (S n) flt (tr ++ [EvWrite T_actionHistory]))
  else (Throw (badRequest "Action history entry needs an entity reference"),
        mkWorld r (Some d) RootDb n flt tr).
Proof.
  unfold logActionHistoryInTransaction, logActionHistory, try_finally, bind,
    get_fastify_db, set_fastify_db, execute, throw.
  cbn. destruct (hasOwner a); cbn; [destruct (flt n) | ]; reflexivity.
Qed.

(** The same entry written without the swap would be committed at once,
    outside the transaction. *)
Lemma logActionHistory_outside_transaction rt a r d n flt tr :
  hasOwner a = true -> flt n = false ->
  logActionHistory rt a (mkWorld r (Some d) RootDb n flt tr) =
  (Ok tt,
   mkWorld (onActionHistory (insertRow (mkActionHistoryEntry a (now rt))) r)
           (Some (onActionHistory (insertRow (mkActionHistoryEntry a (now rt))) d))
           RootDb (S n) flt (tr ++ [EvWrite T_actionHistory])).
Proof.
  intros Ha Hf. unfold logActionHistory, bind, get_fastify_db, execute.
  rewrite Ha. cbn. rewrite Hf. reflexivity.
Qed.

Lemma updateWhere_ext {A : Type} (p : A -> bool) (f g : A -> A) (l : list A) :
  (forall x, f x = g x) -> updateWhere p f l = updateWhere p g l.
Proof.
  intro H. unfold updateWhere. apply map_ext. intro x.
  destruct (p x); [apply H | reflexivity].
Qed.

(** The synchronizer, run on a world inside a transaction: nothing for an
    unmapped status; otherwise two statements, the row update and the
    audit entry, both through [tx]. *)
Lemma syncInstallationRequestStatusInTransaction_run rt irid s user r d n flt tr :
  syncInstallationRequestStatusInTransaction rt TxHandle irid s user
    (mkWorld r (Some d) RootDb n flt tr) =
  match installationStatusFor s with
  | None => (Ok tt, mkWorld r (Some d) RootDb n flt tr)
  | Some st =>
      if flt n then
        (Throw StorageFailure,
         mkWorld r (Some d) RootDb (S n) flt (tr ++ [EvWrite T_installationRequests]))
      else if flt (S n) then
        (Throw StorageFailure,
         mkWorld r
           (Some (onInstallationRequests
                    (updateWhere (fun row => String.eqb (ir_id row) irid)
                                 (syncedInstallation s st)) d))
           RootDb (S (S n)) flt
           ((tr ++ [EvWrite T_installationRequests]) ++ [EvWrite T_actionHistory]))
      else
        (Ok tt,
         mkWorld r (Some (syncedDb rt irid s user d)) RootDb (S (S n)) flt
           ((tr ++ [EvWrite T_installationRequests]) ++ [EvWrite T_actionHistory]))
  end.
Proof.
  unfold syncedDb.
  destruct s; cbn -[logActionHistoryInTransaction updateWhere]; try reflexivity;
    unfold bind; rewrite execute_tx_run;
    (destruct (flt n); [reflexivity | ]);
    rewrite logActionHistoryInTransaction_run; cbn -[updateWhere];
    unfold onInstallationRequests;
    match goal with
    | |- context [updateWhere ?p (setIR ?l)] =>
        match goal with
        | |- context [syncedInstallation ?s ?st] =>
            rewrite (updateWhere_ext p (setIR l) (syncedInstallation s st))
              by (intro row; destruct row; reflexivity)
        end
    end;
    (destruct (flt (S n)); reflexivity).
Qed.

(* ------------------------------------------------------------------ *)
(** ** The transaction of the status machine *)

(** Runs a transaction body statement by statement, splitting on every
    statement the storage engine may reject. *)
Ltac tx_run :=
  repeat first
    [ rewrite execute_tx_run
    | rewrite syncInstallationRequestStatusInTransaction_run
    | rewrite logActionHistoryInTransaction_run
    | rewrite getServiceRequestById_in_tx
    | progress cbn [hasOwner entityAction linkedAction entityId serviceRequestId
                    installationRequestId present orb ret throw]
    | match goal with
      | |- context [if ?flt ?k then _ else _] => destruct (flt k) eqn:?
      | |- context [match installationStatusFor ?s with _ => _ end] =>
          destruct (installationStatusFor s) eqn:?
      | |- context [match asTruthy ?x with _ => _ end] => destruct (asTruthy x) eqn:?
      end ].

Ltac tx_done :=
  let H := fresh in
  intro H; inversion H; subst; clear H; cbn [root fastify_db fault txn writes trace].

(** Inside the callback the committed store and the shared reference are
    never touched, whatever the outcome. *)
Lemma statusTransaction_frame rt id status user data sr upd r d n flt tr res w' :
  statusTransaction rt id status user data sr upd TxHandle
    (mkWorld r (Some d) RootDb n flt tr) = (res, w') ->
  root w' = r /\ fastify_db w' = RootDb /\ fault w' = flt.
Proof.
  unfold statusTransaction, bind. tx_run; tx_done; auto.
Qed.

(** A callback that returns leaves the working copy described by
    [statusUpdateDb]. *)
Lemma statusTransaction_ok rt id status user data sr upd r d n flt tr v w' :
  statusTransaction rt id status user data sr upd TxHandle
    (mkWorld r (Some d) RootDb n flt tr) = (Ok v, w') ->
  txn w' = Some (statusUpdateDb rt id status user data sr upd d).
Proof.
  unfold statusTransaction, statusUpdateDb, bind.
  tx_run; tx_done; unfold syncedDb;
    repeat match goal with H : installationStatusFor _ = _ |- _ => rewrite H end;
    reflexivity.
Qed.

(** With a storage engine that accepts every statement, and a row that
    can be read back, the callback returns. *)
Lemma statusTransaction_returns rt id status user data sr upd r d n flt tr v :
  (forall k, flt k = false) ->
  readServiceRequest r id = Ok v ->
  exists w',
    statusTransaction rt id status user data sr upd TxHandle
      (mkWorld r (Some d) RootDb n flt tr) = (Ok v, w').
Proof.
  intros Hflt Hld. unfold statusTransaction, bind.
  tx_run; try (rewrite Hflt in *; discriminate); rewrite Hld; eexists; reflexivity.
Qed.

Lemma statusValidations_ok db sr status data base w upd w' :
  statusValidations db sr status data base w = (Ok upd, w') ->
  upd = base ++ (if ServiceRequestStatus.eqb status CANCELLED
                 then [SR_beforeImages None; SR_afterImages None] else []).
Proof.
  unfold statusValidations, bind, query, throw, ret.
  destruct status; simpl;
    repeat match goal with
           | |- context [if ?b then _ else _] => destruct b
           | |- context [match ?x with _ => _ end] => destruct x
           end;
    intro H; inversion H; rewrite ?app_nil_r; reflexivity.
Qed.

(** A call that returns has committed exactly [statusUpdateDb]. *)
Lemma updateServiceRequestStatus_ok rt id status user data w sr v w' :
  idle w ->
  storedServiceRequest id w = Some sr ->
  updateServiceRequestStatus rt id status user data w = (Ok v, w') ->
  In (sr_status sr, status) transitionTable
  /\ root w' = statusUpdateDb rt id status user data sr
                 (committedUpdateData rt status data) (root w)
  /\ idle w'.
Proof.
  intros Hidle Hsr Hrun.
  pose proof (updateServiceRequestStatus_returned _ _ _ _ _ _ _ _ _ Hidle Hsr Hrun) as Hld.
  destruct Hidle as [Htx Hdb]. revert Hrun.
  rewrite (updateServiceRequestStatus_found rt id status user data w sr Hdb Hld).
  destruct (includes (validTransitions (sr_status sr)) status) eqn:Hinc;
    [ | intro H; discriminate H].
  apply includes_transitionTable in Hinc. cbn [negb].
  unfold bind.
  destruct (statusValidations RootDb sr status data
              [SR_status status; SR_updatedAt (now rt)] w) as [[upd | e] w1] eqn:EV;
    [ | intro H; discriminate H].
  pose proof (statusValidations_world _ _ _ _ _ _ _ _ EV) as Hw; subst w1.
  apply statusValidations_ok in EV; subst upd.
  destruct w as [r o h n flt tr]; cbn in Htx, Hdb; subst o h.
  unfold transaction. cbn [root txn fastify_db writes fault trace].
  destruct (statusTransaction rt id status user data sr _ TxHandle _)
    as [[v1 | e1] w2] eqn:ET; [ | intro H; discriminate H].
  pose proof (statusTransaction_frame _ _ _ _ _ _ _ _ _ _ _ _ _ _ ET) as (Hr & Hh & _).
  apply statusTransaction_ok in ET.
  intro H; inversion H; subst; clear H.
  split; [exact Hinc | ]. unfold idle; cbn [root txn fastify_db].
  unfold view. rewrite ET. auto.
Qed.

(** A call that throws has committed nothing. *)
Lemma updateServiceRequestStatus_throw rt id status user data w e w' :
  idle w ->
  updateServiceRequestStatus rt id status user data w = (Throw e, w') ->
  root w' = root w /\ idle w'.
Proof.
  intros [Htx Hdb].
  rewrite (updateServiceRequestStatus_head rt id status user data w Hdb).
  destruct (readServiceRequest (root w) id) as [[sr | ] | e0] eqn:Hld.
  - destruct (negb (includes (validTransitions (sr_status sr)) status));
      [intro H; inversion H; subst; unfold idle; auto | ].
    unfold bind.
    destruct (statusValidations RootDb sr status data
                [SR_status status; SR_updatedAt (now rt)] w) as [[upd | e0] w1] eqn:EV;
      pose proof (statusValidations_world _ _ _ _ _ _ _ _ EV) as Hw; subst w1;
      [ | intro H; inversion H; subst; unfold idle; auto].
    destruct w as [r o h n flt tr]; cbn in Htx, Hdb; subst o h.
    unfold transaction. cbn [root txn fastify_db writes fault trace].
    destruct (statusTransaction rt id status user data sr _ TxHandle _)
      as [[v1 | e1] w2] eqn:ET; [intro H; discriminate H | ].
    pose proof (statusTransaction_frame _ _ _ _ _ _ _ _ _ _ _ _ _ _ ET) as (Hr & Hh & _).
    intro H; inversion H; subst; clear H.
    unfold idle; cbn [root txn fastify_db]. auto.
  - intro H; inversion H; subst; unfold idle; auto.
  - intro H; inversion H; subst; unfold idle; auto.
Qed.

(* ------------------------------------------------------------------ *)
(** ** The audit trail of a status change *)


Lemma statusUpdateDb_serviceRequests rt id status user data sr upd d :
  serviceRequests (statusUpdateDb rt id status user data sr upd d) =
  updateWhere (fun r => String.eqb (sr_id r) id) (setSR upd) (serviceRequests d).
Proof.
  unfold statusUpdateDb, syncedDb.
  destruct (asTruthy (sr_installationRequestId sr));
    [destruct (installationStatusFor status) | ];
    destruct (asTruthy (sr_subscriptionId sr)); reflexivity.
Qed.

Lemma asTruthy_truthy v : truthy v = match asTruthy v with Some _ => true | None => false end.
Proof. unfold asTruthy. destruct (truthy v) eqn:E; [ | reflexivity]. destruct v; [reflexivity | discriminate E]. Qed.






(** The same call on a storage engine that accepts everything: one entry
    for the service request, one for the subscription. *)
Example audit_entries_of_a_completed_request :
  let w := world (dbWith subscribedRequest) in
  let run := updateServiceRequestStatus rt0 "srq1" COMPLETED customer (images ["u1"]) w in
  map (fun e => (entityType (ah_data e), entityId (ah_data e)))
      (actionHistory (root (snd run)))
  = [(Some service_request, Some "srq1"); (Some subscription, Some "sub1")]
  /\ option_map sr_status (storedServiceRequest "srq1" (snd run)) = Some COMPLETED.
Proof. vm_compute. split; reflexivity. Qed.

(* ------------------------------------------------------------------ *)
(** ** The installation synchronizer *)

(** C8. Run inside the caller's transaction, the synchronizer writes to
    the installation request the status that section 4.2 lists for the
    service-request status (IN_PROGRESS to INSTALLATION_IN_PROGRESS,
    PAYMENT_PENDING to PAYMENT_PENDING, COMPLETED to
    INSTALLATION_COMPLETED, CANCELLED to CANCELLED with the two stored
    payment-link fields cleared, SCHEDULED to INSTALLATION_SCHEDULED) and
    appends one audit entry, both through the transaction it was given;
    for CREATED and ASSIGNED it returns without any write and without an
    audit entry. *)
Theorem synchronizer_maps_status :
  forall rt irid s user w d,
    txn w = Some d ->
    fastify_db w = RootDb ->
    match installationStatusFor s with
    | None =>
        syncInstallationRequestStatusInTransaction rt TxHandle irid s user w = (Ok tt, w)
    | Some st =>
        fault w (writes w) = false ->
        fault w (S (writes w)) = false ->
        exists w' d' e,
          syncInstallationRequestStatusInTransaction rt TxHandle irid s user w = (Ok tt, w')
          /\ txn w' = Some d'
          /\ root w' = root w
          /\ installationRequests d'
             = map (fun row => if String.eqb (ir_id row) irid
                               then syncedInstallation s st row else row)
                   (installationRequests d)
          /\ actionHistory d' = actionHistory d ++ [e]
          /\ installationRequestId (ah_data e) = Some irid
          /\ serviceRequests d' = serviceRequests d
          /\ payments d' = payments d
          /\ subscriptions d' = subscriptions d
          /\ trace w' = trace w ++ [EvWrite T_installationRequests; EvWrite T_actionHistory]
    end.
Proof.
  intros rt irid s user [r o h n flt tr] d Htx Hdb. cbn in Htx, Hdb. subst o h.
  rewrite syncInstallationRequestStatusInTransaction_run.
  destruct (installationStatusFor s) as [st | ] eqn:Hs; [ | reflexivity].
  cbn [fault writes]. intros H0 H1. rewrite H0, H1.
  eexists. exists (syncedDb rt irid s user d).
  exists (syncAuditEntry rt irid s (installationActionFor s) user).
  split; [reflexivity | ].
  unfold syncedDb. rewrite Hs. cbn [txn root trace].
  rewrite <- app_assoc.
  repeat split; reflexivity.
Qed.

Lemma synchronizer_maps_status_witness :
  exists w' d' e,
    syncInstallationRequestStatusInTransaction rt0 TxHandle "ir1" CANCELLED admin
      (worldInTx installationDb) = (Ok tt, w')
    /\ txn w' = Some d'
    /\ root w' = installationDb
    /\ installationRequests d'
       = [mkInstallationRequest "ir1" "u1" "p1" "f1" InstallationRequestStatus.CANCELLED
            (Some "agent1") None None None None "t0"]
    /\ actionHistory d' = [e]
    /\ installationRequestId (ah_data e) = Some "ir1"
    /\ serviceRequests d' = [installationRequest1]
    /\ payments d' = []
    /\ subscriptions d' = []
    /\ trace w' = [EvWrite T_installationRequests; EvWrite T_actionHistory].
Proof.
  exact (synchronizer_maps_status rt0 "ir1" CANCELLED admin (worldInTx installationDb)
           installationDb eq_refl eq_refl eq_refl eq_refl).
Defined.

(* ------------------------------------------------------------------ *)
(** ** The stored row after a status change *)

Lemma sr_id_applySR a r : sr_id (applySR a r) = sr_id r.
Proof. destruct a, r; reflexivity. Qed.

Lemma sr_id_setSR upd r : sr_id (setSR upd r) = sr_id r.
Proof.
  unfold setSR. revert r.
  induction upd as [ | a upd IH]; intro r; [reflexivity | ].
  cbn [fold_left]. rewrite IH. apply sr_id_applySR.
Qed.

Lemma findFirst_updateWhere {A : Type} (p : A -> bool) (f : A -> A) (l : list A) :
  (forall x, p (f x) = p x) ->
  findFirst p (updateWhere p f l) = option_map f (findFirst p l).
Proof.
  intro Hp. unfold findFirst, updateWhere.
  induction l as [ | x l IH]; [reflexivity | ].
  cbn [map find]. destruct (p x) eqn:Hx.
  - rewrite Hp, Hx. reflexivity.
  - rewrite Hx. exact IH.
Qed.

Lemma stored_after_update rt id status user data w sr v w' :
  idle w ->
  storedServiceRequest id w = Some sr ->
  updateServiceRequestStatus rt id status user data w = (Ok v, w') ->
  storedServiceRequest id w' = Some (setSR (committedUpdateData rt status data) sr).
Proof.
  intros Hidle Hsr Hrun.
  destruct (updateServiceRequestStatus_ok _ _ _ _ _ _ _ _ _ Hidle Hsr Hrun)
    as (_ & Hroot & _).
  unfold storedServiceRequest in *.
  rewrite Hroot, statusUpdateDb_serviceRequests.
  rewrite findFirst_updateWhere, Hsr; [reflexivity | ].
  intro x. rewrite sr_id_setSR. reflexivity.
Qed.

(** The two image columns and the status of the updated row. *)
Lemma committed_images rt status data sr :
  let r' := setSR (committedUpdateData rt status data) sr in
  sr_status r' = status
  /\ sr_beforeImages r'
     = (if ServiceRequestStatus.eqb status IN_PROGRESS then
          match payloadImages data with
          | Some xs => Some (JSON_stringify xs)
          | None => sr_beforeImages sr
          end
        else if ServiceRequestStatus.eqb status CANCELLED then None
        else sr_beforeImages sr)
  /\ sr_afterImages r'
     = (if ServiceRequestStatus.eqb status IN_PROGRESS then sr_afterImages sr
        else
          match payloadImages data with
          | Some xs => Some (JSON_stringify xs)
          | None =>
              if ServiceRequestStatus.eqb status CANCELLED then None
              else sr_afterImages sr
          end).
Proof.
  destruct sr.
  destruct data as [[ag co sc bi ai] | ];
    [destruct ag as [[ | ? ?] | ], sc as [[ | ? ?] | ],
              bi as [[ | ? ?] | ], ai as [[ | ? ?] | ] | ];
    destruct status; repeat split; reflexivity.
Qed.

(** With a storage engine that accepts every statement, a cancellation
    that the table allows returns, for a request that can be read. *)
Lemma cancellation_returns rt id user data w sr :
  idle w ->
  readServiceRequest (root w) id = Ok (Some sr) ->
  In (sr_status sr, CANCELLED) transitionTable ->
  (forall k, fault w k = false) ->
  exists v w', updateServiceRequestStatus rt id CANCELLED user data w = (Ok v, w').
Proof.
  intros [Htx Hdb] Hld Hin Hflt.
  rewrite (updateServiceRequestStatus_found rt id CANCELLED user data w sr Hdb Hld).
  apply includes_transitionTable in Hin. rewrite Hin. cbn [negb].
  unfold bind. cbn [statusValidations ret].
  destruct w as [r o h n flt tr]; cbn [root txn fastify_db fault] in Htx, Hdb, Hflt, Hld;
    subst o h.
  unfold transaction. cbn [root txn fastify_db writes fault trace].
  destruct (statusTransaction_returns rt id CANCELLED user data sr
              (statusSpecificData rt CANCELLED data
                 ([SR_status CANCELLED; SR_updatedAt (now rt)]
                  ++ [SR_beforeImages None; SR_afterImages None]))
              r r n flt (tr ++ [EvTxBegin]) _ Hflt Hld) as (w2 & Hrun).
  rewrite Hrun. eexists; eexists; reflexivity.
Qed.

(** C7, counterexample.  Cancelling a request with a payload that carries
    an image array stores that array in [afterImages]. *)
Lemma cancellation_clears_both_images_fails : ~ cancellation_clears_both_images.
Proof.
  intro H.
  destruct (H rt0 "srq1" customer (images ["u1"])
              (world (dbWith (generalRequest false))) (generalRequest false)
              _ _ (conj eq_refl eq_refl) eq_refl eq_refl)
    as (r' & Hr' & _ & Hafter).
  vm_compute in Hr'. inversion Hr'; subst r'. discriminate Hafter.
Qed.

(** C7, amended.  A successful transition to CANCELLED stores [null] in
    [beforeImages], whatever the prior values and the payload; it stores
    [null] in [afterImages] when the payload carries no non-empty image
    array, and otherwise the payload's array ([beforeImages] if non-empty,
    else [afterImages]), serialized. *)
Theorem cancellation_clears_images :
  forall rt id user data w sr v w',
    idle w ->
    storedServiceRequest id w = Some sr ->
    updateServiceRequestStatus rt id CANCELLED user data w = (Ok v, w') ->
    exists r',
      storedServiceRequest id w' = Some r'
      /\ sr_status r' = CANCELLED
      /\ sr_beforeImages r' = None
      /\ sr_afterImages r' = option_map JSON_stringify (payloadImages data).
Proof.
  intros rt id user data w sr v w' Hidle Hsr Hrun.
  exists (setSR (committedUpdateData rt CANCELLED data) sr).
  split; [exact (stored_after_update _ _ _ _ _ _ _ _ _ Hidle Hsr Hrun) | ].
  destruct (committed_images rt CANCELLED data sr) as (Hs & Hb & Ha).
  split; [exact Hs | ]. split; [exact Hb | ].
  rewrite Ha. cbn [ServiceRequestStatus.eqb].
  destruct (payloadImages data); reflexivity.
Qed.

Lemma cancellation_clears_images_witness :
  let w := world (dbWith (generalRequest false)) in
  let run := updateServiceRequestStatus rt0 "srq1" CANCELLED customer None w in
  idle w
  /\ storedServiceRequest "srq1" w = Some (generalRequest false)
  /\ exists r',
       storedServiceRequest "srq1" (snd run) = Some r'
       /\ sr_status r' = CANCELLED
       /\ sr_beforeImages r' = None
       /\ sr_afterImages r' = None.
Proof.
  intros w run.
  split; [split; reflexivity | ]. split; [reflexivity | ].
  exact (cancellation_clears_images rt0 "srq1" customer None w (generalRequest false)
           (Some (generalRequest false)) (snd run)
           (conj eq_refl eq_refl) eq_refl eq_refl).
Defined.

(** C10. In a successful status change the column that receives the
    payload's images is chosen by the target status, not by the name of
    the payload field.  For IN_PROGRESS the array goes to [beforeImages],
    also when it came as [afterImages]; for every other target it goes to
    [afterImages], also when it came as [beforeImages].  When both payload
    fields are non-empty the one applied last, [beforeImages], is the one
    stored. *)
Theorem image_destination_follows_status :
  forall rt id status user data w sr v w',
    idle w ->
    storedServiceRequest id w = Some sr ->
    updateServiceRequestStatus rt id status user data w = (Ok v, w') ->
    exists r',
      storedServiceRequest id w' = Some r'
      /\ (status = IN_PROGRESS ->
          sr_beforeImages r'
          = match payloadImages data with
            | Some xs => Some (JSON_stringify xs)
            | None => sr_beforeImages sr
            end
          /\ sr_afterImages r' = sr_afterImages sr)
      /\ (status <> IN_PROGRESS ->
          sr_afterImages r'
          = match payloadImages data with
            | Some xs => Some (JSON_stringify xs)
            | None => if ServiceRequestStatus.eqb status CANCELLED then None
                      else sr_afterImages sr
            end
          /\ sr_beforeImages r'
             = (if ServiceRequestStatus.eqb status CANCELLED then None
                else sr_beforeImages sr)).
Proof.
  intros rt id status user data w sr v w' Hidle Hsr Hrun.
  exists (setSR (committedUpdateData rt status data) sr).
  split; [exact (stored_after_update _ _ _ _ _ _ _ _ _ Hidle Hsr Hrun) | ].
  destruct (committed_images rt status data sr) as (_ & Hb & Ha).
  split.
  - intros ->. rewrite Hb, Ha. split; reflexivity.
  - intro Hne. rewrite Hb, Ha.
    destruct status; try (split; reflexivity). contradiction Hne; reflexivity.
Qed.

Lemma image_destination_follows_status_witness :
  let w := world (dbWith (generalRequest false)) in
  let data := Some (mkStatusData None None None (Some ["b1"]) (Some ["a1"])) in
  let run := updateServiceRequestStatus rt0 "srq1" COMPLETED customer data w in
  idle w
  /\ exists r',
       storedServiceRequest "srq1" (snd run) = Some r'
       /\ sr_afterImages r' = Some (JSON_stringify ["b1"])
       /\ sr_beforeImages r' = Some "[b0]".
Proof.
  intros w data run.
  split; [split; reflexivity | ].
  destruct (image_destination_follows_status rt0 "srq1" COMPLETED customer data w
              (generalRequest false) (Some (generalRequest false)) (snd run)
              (conj eq_refl eq_refl) eq_refl eq_refl) as (r' & Hr' & _ & Hother).
  exists r'. split; [exact Hr' | ].
  apply Hother. discriminate.
Defined.

(** A scheduled installation request started with the images sent as
    [afterImages]: they are stored as [beforeImages]. *)
Example after_images_stored_as_before_images :
  let started :=
    mkServiceRequest "srq1" None "u1" "p1" None ServiceRequestType.GENERAL "leak" None
      SCHEDULED (Some "agent1") "f1" None None None None None false None "t0" "t0" in
  let run := updateServiceRequestStatus rt0 "srq1" IN_PROGRESS customer (images ["a1"])
               (world (dbWith started)) in
  option_map (fun r => (sr_status r, sr_beforeImages r, sr_afterImages r))
             (storedServiceRequest "srq1" (snd run))
  = Some (IN_PROGRESS, Some (JSON_stringify ["a1"]), None).
Proof. vm_compute. reflexivity. Qed.

(* ------------------------------------------------------------------ *)
(** ** Counting rows *)

Lemma countWhere_insertRow {A : Type} (p : A -> bool) (x : A) (l : list A) :
  countWhere p (insertRow x l) = countWhere p l + (if p x then 1 else 0).
Proof.
  unfold countWhere, insertRow. rewrite filter_app, length_app. cbn [filter].
  destruct (p x); reflexivity.
Qed.

Lemma countWhere_updateWhere {A : Type} (p q : A -> bool) (f : A -> A) (l : list A) :
  (forall x, p (f x) = p x) ->
  countWhere p (updateWhere q f l) = countWhere p l.
Proof.
  intro Hp. unfold countWhere, updateWhere.
  induction l as [ | x l IH]; [reflexivity | ].
  cbn [map filter]. destruct (q x).
  - rewrite Hp. destruct (p x); cbn [List.length]; rewrite IH; reflexivity.
  - destruct (p x); cbn [List.length]; rewrite IH; reflexivity.
Qed.

Lemma findFirst_None_countWhere {A : Type} (p : A -> bool) (l : list A) :
  findFirst p l = None -> countWhere p l = 0.
Proof.
  unfold findFirst, countWhere.
  induction l as [ | x l IH]; [reflexivity | ].
  cbn [find filter]. destruct (p x); [discriminate | exact IH].
Qed.

Lemma length_insertRow {A : Type} (x : A) (l : list A) :
  List.length (insertRow x l) = List.length l + 1.
Proof. unfold insertRow. rewrite length_app. reflexivity. Qed.

Lemma length_updateWhere {A : Type} (q : A -> bool) (f : A -> A) (l : list A) :
  List.length (updateWhere q f l) = List.length l.
Proof. unfold updateWhere. apply length_map. Qed.

Lemma completedPaymentFor_link irid pid s x :
  completedPaymentFor irid pid (setPay [Pay_subscriptionId s] x)
  = completedPaymentFor irid pid x.
Proof. destruct x; reflexivity. Qed.

Lemma completedPaymentFor_relink irid pid s u z x :
  completedPaymentFor irid pid
    (setPay [Pay_subscriptionId s; Pay_updatedAt u; Pay_razorpaySubscriptionId z] x)
  = completedPaymentFor irid pid x.
Proof. destruct x; reflexivity. Qed.

Lemma findFirst_Some_holds {A : Type} (p : A -> bool) (l : list A) (x : A) :
  findFirst p l = Some x -> p x = true.
Proof. unfold findFirst. intro H. apply find_some in H. apply H. Qed.

Lemma new_payment_counts irid spid pid x l :
  pay_razorpayPaymentId x = Some spid ->
  findFirst (completedPaymentFor irid spid) l = None ->
  countWhere (completedPaymentFor irid pid) (insertRow x l)
  <= Nat.max 1 (countWhere (completedPaymentFor irid pid) l).
Proof.
  intros Hpid Hnone. rewrite countWhere_insertRow.
  destruct (completedPaymentFor irid pid x) eqn:E; [ | lia].
  unfold completedPaymentFor in E. rewrite Hpid in E. cbn [optStringEqb] in E.
  apply andb_prop in E. destruct E as [E _].
  apply andb_prop in E. destruct E as [_ E].
  apply String.eqb_eq in E. subst pid.
  rewrite (findFirst_None_countWhere _ _ Hnone). lia.
Qed.

(* ------------------------------------------------------------------ *)
(** ** Payment reconciliation: the two write paths *)

Lemma query_tx_run r d n flt tr :
  query TxHandle (mkWorld r (Some d) RootDb n flt tr)
  = (Ok d, mkWorld r (Some d) RootDb n flt tr).
Proof. reflexivity. Qed.

Ltac rx_run :=
  repeat first
    [ rewrite execute_tx_run
    | rewrite logActionHistoryInTransaction_run
    | rewrite query_tx_run
    | progress cbn [deref ret throw hasOwner linkedAction entityAction entityId
                    serviceRequestId installationRequestId paymentId present orb negb
                    subscriptions onPayments onSubscriptions onInstallationRequests
                    onServiceRequests onActionHistory]
    | match goal with
      | |- context [if ?flt ?k then _ else _] => destruct (flt k) eqn:?
      | |- context [match findFirst ?p ?l with _ => _ end] =>
          destruct (findFirst p l) eqn:?
      | |- context [match findInstallationWithProduct ?d ?i with _ => _ end] =>
          destruct (findInstallationWithProduct d i) as [[? [? | ]] | ] eqn:?
      end ].

(** The events appended by a run are statements only. *)
Ltac writes_only :=
  rewrite <- ?app_assoc; eexists; split; [reflexivity | reflexivity].

Ltac count_payments :=
  intro pid;
  rewrite ?countWhere_updateWhere
    by (intro; first [apply completedPaymentFor_link | apply completedPaymentFor_relink]);
  first [ eapply new_payment_counts; [reflexivity | eassumption] | lia ].

Ltac count_subscriptions :=
  rewrite ?countWhere_insertRow;
  try match goal with
      | H : findFirst (subscriptionFor _) _ = None |- _ =>
          rewrite (findFirst_None_countWhere _ _ H)
      end;
  try match goal with
      | |- context [if ?b then 1 else 0] => destruct b
      end;
  lia.

Ltac count_rows := rewrite ?length_updateWhere, ?length_insertRow; lia.

Ltac status_completed :=
  let sr := fresh "sr" in
  let H := fresh "H" in
  intros sr H;
  rewrite !findFirst_updateWhere by (intro; rewrite sr_id_setSR; reflexivity);
  rewrite H; cbn [option_map]; eexists; split; [reflexivity | destruct sr; reflexivity].

(** Lines 1206-1353 when no COMPLETED payment row matched. *)
Lemma recordPayment_run rt srid irid user sp r d n flt tr res w' :
  findFirst (completedPaymentFor irid (sp_id sp)) (payments d) = None ->
  recordPayment rt TxHandle srid irid user sp None
    (mkWorld r (Some d) RootDb n flt tr) = (res, w') ->
  root w' = r /\ fastify_db w' = RootDb /\ fault w' = flt
  /\ (exists ws, trace w' = tr ++ ws /\ forallb isWrite ws = true)
  /\ (forall v, res = Ok v -> exists d', txn w' = Some d' /\ settled irid srid d d').
Proof.
  intro Hnone. unfold recordPayment, bind.
  rx_run; tx_done;
    (split; [reflexivity | ]); (split; [reflexivity | ]); (split; [reflexivity | ]);
    (split; [writes_only | ]);
    intros v Hv; try discriminate Hv;
    eexists; (split; [reflexivity | ]);
    unfold settled, reconciled;
    cbn [payments subscriptions serviceRequests onPayments onSubscriptions
         onInstallationRequests onServiceRequests onActionHistory];
    (split; [split; [count_payments | split; [count_subscriptions | split; count_rows]]
            | status_completed]).
Qed.

(** Lines 1098-1204 when a COMPLETED payment row matched: either nothing
    is written, or the missing subscription is created and the requests
    are completed. *)
Lemma repairSubscription_run rt srid irid user sp p r d n flt tr res w' :
  repairSubscription rt TxHandle srid irid user sp p
    (mkWorld r (Some d) RootDb n flt tr) = (res, w') ->
  root w' = r /\ fastify_db w' = RootDb /\ fault w' = flt
  /\ (exists ws, trace w' = tr ++ ws /\ forallb isWrite ws = true)
  /\ (forall v, res = Ok v ->
        exists d', txn w' = Some d' /\ (d' = d \/ settled irid srid d d')).
Proof.
  unfold repairSubscription, bind.
  rx_run; tx_done;
    (split; [reflexivity | ]); (split; [reflexivity | ]); (split; [reflexivity | ]);
    (split; [first [writes_only | exists []; rewrite app_nil_r; split; reflexivity] | ]);
    intros v Hv; try discriminate Hv;
    eexists; (split; [reflexivity | ]);
    first
      [ left; reflexivity
      | right; unfold settled, reconciled;
        cbn [payments subscriptions serviceRequests onPayments onSubscriptions
             onInstallationRequests onServiceRequests onActionHistory];
        (split; [split; [count_payments | split; [count_subscriptions | split; count_rows]]
                | status_completed]) ].
Qed.

(** Lines 1057-1082 only talk to the gateway. *)
Lemma fetchSuccessfulPayment_run rzp sr ir r o h n flt tr res w' :
  fetchSuccessfulPayment rzp sr ir (mkWorld r o h n flt tr) = (res, w') ->
  exists gs, w' = mkWorld r o h n flt (tr ++ gs) /\ forallb isGateway gs = true.
Proof.
  unfold fetchSuccessfulPayment, gateway, bind, emit, ret, throw.
  cbn [root txn fastify_db writes fault trace].
  repeat match goal with
         | |- context [match ?x with _ => _ end] =>
             match x with
             | context [mkWorld] => fail 1
             | _ => destruct x
             end
         end;
    intro H; inversion H; subst; clear H;
    rewrite <- ?app_assoc;
    first [ eexists; split; [reflexivity | reflexivity]
          | exists []; rewrite app_nil_r; split; reflexivity ].
Qed.

(* ------------------------------------------------------------------ *)
(** ** One reconciliation *)

Lemma transaction_trace tr gs ws e :
  (((tr ++ [EvTxBegin]) ++ gs) ++ ws) ++ [e] = tr ++ EvTxBegin :: gs ++ ws ++ [e].
Proof. rewrite <- !app_assoc. reflexivity. Qed.

(** A call of [refreshPaymentStatus] on an idle world ends on an idle
    world; its events have the shape of [reconciliationTrace]; and either
    the committed store is untouched, or the request is linked to an
    installation and the store is [settled]. *)
Lemma refreshPaymentStatus_once rzp rt id user w res w' :
  idle w ->
  refreshPaymentStatus rzp rt id user w = (res, w') ->
  idle w'
  /\ (exists new, trace w' = trace w ++ new /\ reconciliationTrace new)
  /\ (root w' = root w
      \/ exists sr irid,
           storedServiceRequest id w = Some sr
           /\ asTruthy (sr_installationRequestId sr) = Some irid
           /\ settled irid id (root w) (root w')).
Proof.
  intros [Htx Hdb]. destruct w as [r o h n flt tr]. cbn in Htx, Hdb. subst o h.
  assert (Hquiet : forall res0,
             (res0, mkWorld r None RootDb n flt tr) = (res, w') ->
             idle w'
             /\ (exists new, trace w' = tr ++ new /\ reconciliationTrace new)
             /\ (root w' = r
                 \/ exists sr irid,
                      storedServiceRequest id (mkWorld r None RootDb n flt tr) = Some sr
                      /\ asTruthy (sr_installationRequestId sr) = Some irid
                      /\ settled irid id r (root w'))).
  { intros res0 H; inversion H; subst; clear H.
    split; [split; reflexivity | ].
    split; [exists []; rewrite app_nil_r; split; [reflexivity | left; reflexivity] | ].
    left; reflexivity. }
  cbn [root trace].
  unfold refreshPaymentStatus.
  unfold bind at 1, get_fastify_db at 1. cbn [fastify_db].
  unfold bind at 1. rewrite getServiceRequestById_in_tx.
  destruct (readServiceRequest r id) as [[sr | ] | e0] eqn:Hld;
    [ | apply Hquiet | apply Hquiet].
  pose proof (readServiceRequest_Some _ _ _ Hld) as Hsr.
  destruct (asTruthy (sr_installationRequestId sr)) as [irid | ] eqn:Hir;
    [ | apply Hquiet].
  destruct (negb (ServiceRequestStatus.eqb (sr_status sr) PAYMENT_PENDING));
    [apply Hquiet | ].
  unfold bind at 1, get_fastify_db at 1. cbn [fastify_db].
  unfold bind at 1, query at 1. cbn [view root txn fastify_db].
  unfold bind at 1.
  destruct (findFirst (fun x => String.eqb (ir_id x) irid) (installationRequests r))
    as [ir_ | ]; cbn [deref ret throw]; [ | apply Hquiet].
  destruct (negb (truthy (ir_razorpaySubscriptionId ir_))); [apply Hquiet | ].
  clear Hquiet.
  unfold transaction, try_catch. cbn [root txn fastify_db writes fault trace].
  unfold bind at 1.
  destruct (fetchSuccessfulPayment rzp sr ir_ _) as [rf wf] eqn:Hf.
  apply fetchSuccessfulPayment_run in Hf. destruct Hf as (gs & -> & Hgs).
  destruct rf as [[sp | ] | e].
  - (* the gateway reports a paid invoice *)
    unfold bind at 1. rewrite query_tx_run.
    destruct (findFirst (completedPaymentFor irid (sp_id sp)) (payments r))
      as [p | ] eqn:Hp.
    + (* a COMPLETED payment row exists *)
      pose proof (findFirst_Some_holds _ _ _ Hp) as Hc.
      unfold completedPaymentFor in Hc. apply andb_prop in Hc. destruct Hc as [_ Hc].
      rewrite Hc.
      destruct (repairSubscription rt TxHandle id irid user sp p _) as [rr wr] eqn:Hr.
      apply repairSubscription_run in Hr.
      destruct Hr as (Hroot & Hh & Hfl & (ws & Htr & Hws) & Hok).
      destruct rr as [v | e]; cbn [throw]; intro H; injection H as <- <-;
        cbn [root txn fastify_db trace].
      * destruct (Hok v eq_refl) as (d' & Hd' & Hset).
        unfold view. rewrite Hd'.
        split; [split; [reflexivity | exact Hh] | ].
        split.
        { rewrite Htr, transaction_trace. eexists; split; [reflexivity | ].
          right. exists gs, ws, EvTxCommit. auto. }
        destruct Hset as [-> | Hset]; [left; reflexivity | ].
        right. exists sr, irid. auto.
      * split; [split; [reflexivity | exact Hh] | ].
        split; [ | left; exact Hroot].
        rewrite Htr, transaction_trace. eexists; split; [reflexivity | ].
        right. exists gs, ws, EvTxRollback. auto.
    + (* no COMPLETED payment row yet *)
      destruct (recordPayment rt TxHandle id irid user sp None _) as [rr wr] eqn:Hr.
      apply (recordPayment_run _ _ _ _ _ _ _ _ _ _ _ _ Hp) in Hr.
      destruct Hr as (Hroot & Hh & Hfl & (ws & Htr & Hws) & Hok).
      destruct rr as [v | e]; cbn [throw]; intro H; injection H as <- <-;
        cbn [root txn fastify_db trace].
      * destruct (Hok v eq_refl) as (d' & Hd' & Hset).
        unfold view. rewrite Hd'.
        split; [split; [reflexivity | exact Hh] | ].
        split.
        { rewrite Htr, transaction_trace. eexists; split; [reflexivity | ].
          right. exists gs, ws, EvTxCommit. auto. }
        right. exists sr, irid. auto.
      * split; [split; [reflexivity | exact Hh] | ].
        split; [ | left; exact Hroot].
        rewrite Htr, transaction_trace. eexists; split; [reflexivity | ].
        right. exists gs, ws, EvTxRollback. auto.
  - (* no paid invoice *)
    cbn [ret]. intro H; injection H as <- <-.
    cbn [root txn fastify_db trace view].
    split; [split; reflexivity | ].
    split; [ | left; reflexivity].
    rewrite <- (app_nil_r ((tr ++ [EvTxBegin]) ++ gs)), transaction_trace.
    eexists; split; [reflexivity | ].
    right. exists gs, [], EvTxCommit. auto.
  - (* the gateway call threw *)
    cbn [throw]. intro H; injection H as <- <-.
    cbn [root txn fastify_db trace view].
    split; [split; reflexivity | ].
    split; [ | left; reflexivity].
    rewrite <- (app_nil_r ((tr ++ [EvTxBegin]) ++ gs)), transaction_trace.
    eexists; split; [reflexivity | ].
    right. exists gs, [], EvTxRollback. auto.
Qed.

(* ------------------------------------------------------------------ *)
(** ** Idempotence of reconciliation *)

Lemma reconciled_refl irid d : reconciled irid d d.
Proof. unfold reconciled. repeat split; intros; lia. Qed.

(** A request that is not waiting for its payment is turned away before
    anything happens. *)
Lemma refreshPaymentStatus_not_pending rzp rt id user w sr res w' :
  idle w ->
  storedServiceRequest id w = Some sr ->
  sr_status sr <> PAYMENT_PENDING ->
  refreshPaymentStatus rzp rt id user w = (res, w') ->
  w' = w /\ exists e, res = Throw e.
Proof.
  intros [_ Hdb] Hsr Hst.
  unfold refreshPaymentStatus.
  unfold bind at 1, get_fastify_db at 1.
  unfold bind at 1. rewrite (getServiceRequestById_root id w Hdb).
  destruct (readServiceRequest (root w) id) as [[x | ] | e0] eqn:Hld;
    try (intro H; injection H as <- <-; split; [reflexivity | eexists; reflexivity]).
  apply readServiceRequest_Some in Hld. unfold storedServiceRequest in Hsr.
  rewrite Hsr in Hld. injection Hld as <-.
  destruct (asTruthy (sr_installationRequestId sr));
    [ | intro H; injection H as <- <-; split; [reflexivity | eexists; reflexivity]].
  destruct (sr_status sr); try contradiction; cbn [ServiceRequestStatus.eqb negb];
    intro H; injection H as <- <-; split; try reflexivity; eexists; reflexivity.
Qed.

(** C3. Two calls of [refreshPaymentStatus] in succession for an
    installation-linked request, against the same gateway: afterwards,
    for every gateway payment id, the COMPLETED payment rows of the
    installation request with that id are at most one (unless there were
    more before the first call), and so are the subscriptions whose
    [requestId] is the installation request; each table has at most one
    row more than before the first call; and at most one of the two calls
    changed the store, so the second call never adds a second payment or
    subscription. *)
Theorem reconciliation_is_idempotent :
  forall rzp rtA rtB userA userB id w0 sr irid resA w1 resB w2,
    idle w0 ->
    storedServiceRequest id w0 = Some sr ->
    asTruthy (sr_installationRequestId sr) = Some irid ->
    refreshPaymentStatus rzp rtA id userA w0 = (resA, w1) ->
    refreshPaymentStatus rzp rtB id userB w1 = (resB, w2) ->
    (forall pid,
       countWhere (completedPaymentFor irid pid) (payments (root w2))
       <= Nat.max 1 (countWhere (completedPaymentFor irid pid) (payments (root w0))))
    /\ countWhere (subscriptionFor irid) (subscriptions (root w2))
       <= Nat.max 1 (countWhere (subscriptionFor irid) (subscriptions (root w0)))
    /\ List.length (payments (root w2)) <= List.length (payments (root w0)) + 1
    /\ List.length (subscriptions (root w2)) <= List.length (subscriptions (root w0)) + 1
    /\ (root w1 = root w0 \/ root w2 = root w1).
Proof.
  intros rzp rtA rtB userA userB id w0 sr irid resA w1 resB w2 Hidle Hsr Hir HA HB.
  change ((forall pid,
       countWhere (completedPaymentFor irid pid) (payments (root w2))
       <= Nat.max 1 (countWhere (completedPaymentFor irid pid) (payments (root w0))))
    /\ countWhere (subscriptionFor irid) (subscriptions (root w2))
       <= Nat.max 1 (countWhere (subscriptionFor irid) (subscriptions (root w0)))
    /\ List.length (payments (root w2)) <= List.length (payments (root w0)) + 1
    /\ List.length (subscriptions (root w2)) <= List.length (subscriptions (root w0)) + 1)
    with (reconciled irid (root w0) (root w2)).
  assert (Hgoal : reconciled irid (root w0) (root w2)
                  /\ (root w1 = root w0 \/ root w2 = root w1)).
  { destruct (refreshPaymentStatus_once _ _ _ _ _ _ _ Hidle HA) as (Hidle1 & _ & HcaseA).
    destruct HcaseA as [Hsame | (sr' & irid' & Hsr' & Hir' & Hrec & Hdone)].
    - (* the first call changed nothing *)
      split; [ | left; exact Hsame].
      destruct (refreshPaymentStatus_once _ _ _ _ _ _ _ Hidle1 HB) as (_ & _ & HcaseB).
      destruct HcaseB as [Hsame2 | (sr2 & irid2 & Hsr2 & Hir2 & Hrec2 & _)].
      + rewrite Hsame2, Hsame. apply reconciled_refl.
      + unfold storedServiceRequest in Hsr2, Hsr. rewrite Hsame, Hsr in Hsr2.
        injection Hsr2 as <-. rewrite Hir in Hir2. injection Hir2 as <-.
        rewrite <- Hsame. exact Hrec2.
    - (* the first call settled the payment: the second is turned away *)
      rewrite Hsr in Hsr'. injection Hsr' as <-.
      rewrite Hir in Hir'. injection Hir' as <-.
      destruct (Hdone sr Hsr) as (srC & HsrC & HstC).
      destruct (refreshPaymentStatus_not_pending rzp rtB id userB w1 srC resB w2
                  Hidle1 HsrC) as [-> _]; [rewrite HstC; discriminate | | ].
      + exact HB.
      + split; [exact Hrec | right; reflexivity]. }
  destruct Hgoal as [Hrec Hone]. unfold reconciled in Hrec.
  destruct Hrec as (H1 & H2 & H3 & H4). repeat split; assumption.
Qed.

Lemma reconciliation_is_idempotent_witness :
  let w0 := world installationDb in
  let runA := refreshPaymentStatus paidGateway rt0 "srq2" customer w0 in
  let runB := refreshPaymentStatus paidGateway rt1 "srq2" customer (snd runA) in
  idle w0
  /\ storedServiceRequest "srq2" w0 = Some installationRequest1
  /\ countWhere (completedPaymentFor "ir1" "pay_rzp_1") (payments (root (snd runB))) <= 1
  /\ countWhere (subscriptionFor "ir1") (subscriptions (root (snd runB))) <= 1
  /\ List.length (payments (root (snd runB))) <= 1
  /\ List.length (subscriptions (root (snd runB))) <= 1.
Proof.
  intros w0 runA runB.
  assert (Hidle : idle w0) by (split; reflexivity).
  assert (Hsr : storedServiceRequest "srq2" w0 = Some installationRequest1) by reflexivity.
  split; [exact Hidle | ]. split; [exact Hsr | ].
  destruct (reconciliation_is_idempotent paidGateway rt0 rt1 customer customer "srq2"
              w0 installationRequest1 "ir1" (fst runA) (snd runA) (fst runB) (snd runB)
              Hidle Hsr eq_refl (surjective_pairing runA) (surjective_pairing runB))
    as (Hpay & Hsub & Hlp & Hls & _).
  split; [exact (Hpay "pay_rzp_1") | ].
  split; [exact Hsub | ].
  split; [exact Hlp | exact Hls].
Defined.

(** The same two calls, by evaluation: the first records the payment and
    creates the subscription, the second is turned away, and the tables
    hold one row each. *)
Example reconciling_twice :
  let w0 := world installationDb in
  let runA := refreshPaymentStatus paidGateway rt0 "srq2" customer w0 in
  let runB := refreshPaymentStatus paidGateway rt1 "srq2" customer (snd runA) in
  option_map paymentStatus
    (match fst runA with Ok v => Some v | Throw _ => None end) = Some "COMPLETED"
  /\ fst runB = Throw (BadRequest "Installation must be in payment pending state")
  /\ countWhere (completedPaymentFor "ir1" "pay_rzp_1") (payments (root (snd runB))) = 1
  /\ map sub_requestId (subscriptions (root (snd runB))) = ["ir1"]
  /\ map sr_status (serviceRequests (root (snd runB))) = [COMPLETED]
  /\ map ir_status (installationRequests (root (snd runB)))
     = [InstallationRequestStatus.INSTALLATION_COMPLETED].
Proof. vm_compute. repeat split; reflexivity. Qed.

(* ------------------------------------------------------------------ *)
(** ** Where the gateway is asked *)

Lemma gateway_prefix gs rest pre c post :
  forallb isGateway gs = true ->
  (forall x, In x rest -> isGateway x = false) ->
  gs ++ rest = pre ++ EvGateway c :: post ->
  forall x, In x pre -> isGateway x = true.
Proof.
  revert pre. induction gs as [ | g gs IH]; intros pre Hgs Hrest Heq x Hx.
  - cbn [app] in Heq.
    assert (Hin : In (EvGateway c) rest)
      by (rewrite Heq; apply in_or_app; right; left; reflexivity).
    apply Hrest in Hin. discriminate Hin.
  - cbn [forallb] in Hgs. apply andb_prop in Hgs. destruct Hgs as [Hg Hgs].
    destruct pre as [ | y pre]; [contradiction Hx | ].
    cbn [app] in Heq. injection Heq as <- Heq.
    destruct Hx as [<- | Hx]; [exact Hg | ].
    exact (IH pre Hgs Hrest Heq x Hx).
Qed.

(** C6, counterexample.  On the sample installation the first gateway call
    comes right after the transaction opened. *)
Lemma gateway_read_precedes_transaction_fails : ~ gateway_read_precedes_transaction.
Proof.
  intro H.
  pose (run := refreshPaymentStatus paidGateway rt0 "srq2" customer (world installationDb)).
  apply (H paidGateway rt0 "srq2" customer (world installationDb) (fst run) (snd run)
           (conj eq_refl eq_refl) eq_refl (surjective_pairing run)
           [EvTxBegin] subscriptions_fetch
           (tl (tl (trace (snd run))))).
  - vm_compute. reflexivity.
  - left. reflexivity.
Qed.

(** C6, amended.  In [refreshPaymentStatus] every call to the payment
    gateway is made inside the transaction callback: after the
    transaction has opened, before it ends, and before the first
    statement of the transaction is issued. *)
Theorem gateway_read_inside_transaction_before_writes :
  forall rzp rt id user w res w',
    idle w ->
    refreshPaymentStatus rzp rt id user w = (res, w') ->
    exists new,
      trace w' = trace w ++ new
      /\ forall pre c post,
           new = pre ++ EvGateway c :: post ->
           In EvTxBegin pre
           /\ (forall t, ~ In (EvWrite t) pre)
           /\ ~ In EvTxCommit pre
           /\ ~ In EvTxRollback pre.
Proof.
  intros rzp rt id user w res w' Hidle Hrun.
  destruct (refreshPaymentStatus_once _ _ _ _ _ _ _ Hidle Hrun)
    as (_ & (new & Htr & Hshape) & _).
  exists new. split; [exact Htr | ].
  intros pre c post Hsplit.
  destruct Hshape as [-> | (gs & ws & e & -> & Hgs & Hws & He)].
  - destruct pre; discriminate Hsplit.
  - destruct pre as [ | y pre]; [discriminate Hsplit | ].
    cbn [app] in Hsplit. injection Hsplit as <- Hsplit.
    assert (Hpre : forall x, In x pre -> isGateway x = true).
    { apply (gateway_prefix gs (ws ++ [e]) pre c post Hgs); [ | exact Hsplit].
      intros x Hx. apply in_app_or in Hx. destruct Hx as [Hx | [<- | []]].
      - rewrite forallb_forall in Hws. apply Hws in Hx. destruct x; try discriminate Hx.
        reflexivity.
      - destruct He as [-> | ->]; reflexivity. }
    split; [left; reflexivity | ].
    split; [intros t [Ht | Ht]; [discriminate Ht | apply Hpre in Ht; discriminate Ht] | ].
    split; intros [Ht | Ht]; try discriminate Ht; apply Hpre in Ht; discriminate Ht.
Qed.

Lemma gateway_read_inside_transaction_before_writes_witness :
  let w := world installationDb in
  let run := refreshPaymentStatus paidGateway rt0 "srq2" customer w in
  idle w
  /\ exists new,
       trace (snd run) = trace w ++ new
       /\ forall pre c post,
            new = pre ++ EvGateway c :: post ->
            In EvTxBegin pre
            /\ (forall t, ~ In (EvWrite t) pre)
            /\ ~ In EvTxCommit pre
            /\ ~ In EvTxRollback pre.
Proof.
  intros w run.
  split; [split; reflexivity | ].
  exact (gateway_read_inside_transaction_before_writes paidGateway rt0 "srq2" customer
           w (fst run) (snd run) (conj eq_refl eq_refl) (surjective_pairing run)).
Defined.

(** The events of that run. *)
Example reconciliation_events :
  trace (snd (refreshPaymentStatus paidGateway rt0 "srq2" customer (world installationDb)))
  = [EvTxBegin; EvGateway subscriptions_fetch; EvGateway invoices_all;
     EvWrite T_payments; EvWrite T_subscriptions; EvWrite T_payments;
     EvWrite T_installationRequests; EvWrite T_serviceRequests;
     EvWrite T_installationRequests; EvWrite T_serviceRequests;
     EvWrite T_actionHistory; EvWrite T_actionHistory; EvTxCommit].
Proof. vm_compute. reflexivity. Qed.

(* ------------------------------------------------------------------ *)
(** ** Operations that keep the assignment invariant *)

Lemma truthy_present v : truthy v = true -> present v = true.
Proof. destruct v; [reflexivity | discriminate]. Qed.

Lemma committed_assignee rt status data sr :
  sr_assignedToId (setSR (committedUpdateData rt status data) sr)
  = (if truthy (opt_field data agentId) then opt_field data agentId
     else sr_assignedToId sr).
Proof.
  destruct sr.
  destruct data as [[ag co sc bi ai] | ];
    [destruct ag as [[ | ? ?] | ], sc as [[ | ? ?] | ],
              bi as [[ | ? ?] | ], ai as [[ | ? ?] | ] | ];
    destruct status; reflexivity.
Qed.

(** What the validations have checked when they let a status through. *)
Lemma statusValidations_assigned db sr status data base w upd w' :
  statusValidations db sr status data base w = (Ok upd, w') ->
  (status = ASSIGNED -> truthy (opt_field data agentId) = true)
  /\ (status = SCHEDULED -> truthy (sr_assignedToId sr) = true).
Proof.
  destruct status;
    try (intros _; split; intro E; discriminate E).
  - (* ASSIGNED *)
    unfold statusValidations.
    destruct (truthy (opt_field data agentId)); cbn [negb throw];
      [intros _; split; [reflexivity | intro E; discriminate E]
      | intro H; discriminate H].
  - (* SCHEDULED *)
    unfold statusValidations.
    destruct (truthy (sr_assignedToId sr)); cbn [negb throw];
      [intros _; split; [intro E; discriminate E | reflexivity]
      | intro H; discriminate H].
Qed.

Lemma updateServiceRequestStatus_validated rt id status user data w sr v w' :
  idle w ->
  storedServiceRequest id w = Some sr ->
  updateServiceRequestStatus rt id status user data w = (Ok v, w') ->
  exists upd,
    statusValidations RootDb sr status data [SR_status status; SR_updatedAt (now rt)] w
    = (Ok upd, w).
Proof.
  intros Hidle Hsr Hrun.
  pose proof (updateServiceRequestStatus_returned _ _ _ _ _ _ _ _ _ Hidle Hsr Hrun) as Hld.
  destruct Hidle as [Htx Hdb]. revert Hrun.
  rewrite (updateServiceRequestStatus_found rt id status user data w sr Hdb Hld).
  destruct (negb (includes (validTransitions (sr_status sr)) status));
    [intro H; discriminate H | ].
  unfold bind.
  destruct (statusValidations RootDb sr status data
              [SR_status status; SR_updatedAt (now rt)] w) as [[upd | e] w1] eqn:EV;
    [ | intro H; discriminate H].
  pose proof (statusValidations_world _ _ _ _ _ _ _ _ EV) as Hw; subst w1.
  intros _. exists upd. reflexivity.
Qed.

(** The row a valid, validated status change writes is assigned. *)
Lemma committed_row_assigned rt status data sr :
  In (sr_status sr, status) transitionTable ->
  (status = ASSIGNED -> truthy (opt_field data agentId) = true) ->
  (status = SCHEDULED -> truthy (sr_assignedToId sr) = true) ->
  assignedOk sr = true ->
  assignedOk (setSR (committedUpdateData rt status data) sr) = true.
Proof.
  intros Hin Hagent Hsched Hok.
  apply includes_transitionTable in Hin.
  unfold assignedOk in *.
  destruct (committed_images rt status data sr) as (Hst & _ & _).
  rewrite Hst, committed_assignee.
  destruct status; try reflexivity.
  - (* ASSIGNED *)
    rewrite (Hagent eq_refl). apply truthy_present, Hagent. reflexivity.
  - (* SCHEDULED *)
    destruct (truthy (opt_field data agentId)) eqn:E;
      [apply truthy_present, E | apply truthy_present, Hsched; reflexivity].
  - (* IN_PROGRESS *)
    destruct (truthy (opt_field data agentId)) eqn:E; [apply truthy_present, E | ].
    destruct (sr_status sr); try discriminate Hin; exact Hok.
  - (* PAYMENT_PENDING *)
    destruct (truthy (opt_field data agentId)) eqn:E; [apply truthy_present, E | ].
    destruct (sr_status sr); try discriminate Hin; exact Hok.
  - (* COMPLETED *)
    destruct (truthy (opt_field data agentId)) eqn:E; [apply truthy_present, E | ].
    destruct (sr_status sr); try discriminate Hin; exact Hok.
Qed.

Lemma Forall_updateWhere {A : Type} (P : A -> Prop) (q : A -> bool) (f : A -> A)
    (l : list A) :
  Forall P l ->
  (forall x, In x l -> q x = true -> P (f x)) ->
  Forall P (updateWhere q f l).
Proof.
  intros Hl Hf. unfold updateWhere. rewrite Forall_forall in *.
  intros y Hy. apply in_map_iff in Hy. destruct Hy as (x & <- & Hx).
  destruct (q x) eqn:Hq; [apply Hf; assumption | apply Hl; assumption].
Qed.

Lemma unique_row (l : list ServiceRequest) (x y : ServiceRequest) :
  NoDup (map sr_id l) -> In x l -> In y l -> sr_id x = sr_id y -> x = y.
Proof.
  induction l as [ | z l IH]; intros Hnd Hx Hy Hid; [contradiction Hx | ].
  cbn [map] in Hnd. inversion Hnd as [ | ? ? Hz Hnd']; subst.
  destruct Hx as [-> | Hx], Hy as [-> | Hy].
  - reflexivity.
  - exfalso. apply Hz. rewrite Hid. apply in_map. exact Hy.
  - exfalso. apply Hz. rewrite <- Hid. apply in_map. exact Hx.
  - exact (IH Hnd' Hx Hy Hid).
Qed.

(** X1. [updateServiceRequestStatus] keeps the assignment invariant: if
    every stored request that is neither CREATED nor CANCELLED has an agent
    before the call, so it is after it, whatever the outcome. *)
Lemma updateServiceRequestStatus_keeps_assignment rt id status user data w res w' :
  idle w ->
  uniqueServiceRequestIds (root w) ->
  assignmentInvariant (root w) ->
  updateServiceRequestStatus rt id status user data w = (res, w') ->
  assignmentInvariant (root w').
Proof.
  intros Hidle Huniq Hinv Hrun.
  destruct res as [v | e];
    [ | destruct (updateServiceRequestStatus_throw _ _ _ _ _ _ _ _ Hidle Hrun) as [-> _];
        exact Hinv].
  destruct (storedServiceRequest id w) as [sr | ] eqn:Hsr.
  - destruct (updateServiceRequestStatus_ok _ _ _ _ _ _ _ _ _ Hidle Hsr Hrun)
      as (Hin & Hroot & _).
    destruct (updateServiceRequestStatus_validated _ _ _ _ _ _ _ _ _ Hidle Hsr Hrun)
      as (upd & Hval).
    destruct (statusValidations_assigned _ _ _ _ _ _ _ _ Hval) as [Hagent Hsched].
    unfold assignmentInvariant in *.
    rewrite Hroot, statusUpdateDb_serviceRequests.
    apply Forall_updateWhere; [exact Hinv | ].
    intros x Hx Hid. apply String.eqb_eq in Hid.
    unfold storedServiceRequest, findFirst in Hsr. apply find_some in Hsr.
    destruct Hsr as [Hsrin Hsrid]. apply String.eqb_eq in Hsrid.
    assert (x = sr) as -> by (apply (unique_row _ _ _ Huniq Hx Hsrin); congruence).
    apply committed_row_assigned; try assumption.
    rewrite Forall_forall in Hinv. exact (Hinv sr Hsrin).
  - exfalso.
    destruct (updateServiceRequestStatus_stored _ _ _ _ _ _ _ _ Hidle Hrun) as [sr Hsr'].
    rewrite Hsr in Hsr'. discriminate Hsr'.
Qed.

Lemma updateServiceRequestStatus_keeps_assignment_witness :
  let w := world (dbWith (generalRequest false)) in
  idle w
  /\ uniqueServiceRequestIds (root w)
  /\ assignmentInvariant (root w)
  /\ assignmentInvariant
       (root (snd (updateServiceRequestStatus rt0 "srq1" COMPLETED customer
                     (images ["u1"]) w))).
Proof.
  intro w.
  assert (Hidle : idle w) by (split; reflexivity).
  assert (Huniq : uniqueServiceRequestIds (root w)).
  { unfold uniqueServiceRequestIds. cbn. constructor; [intros [] | constructor]. }
  assert (Hinv : assignmentInvariant (root w)) by (repeat constructor).
  split; [exact Hidle | ]. split; [exact Huniq | ]. split; [exact Hinv | ].
  exact (updateServiceRequestStatus_keeps_assignment rt0 "srq1" COMPLETED customer
           (images ["u1"]) w _ _ Hidle Huniq Hinv
           (surjective_pairing (updateServiceRequestStatus rt0 "srq1" COMPLETED customer
                                  (images ["u1"]) w))).
Defined.

Lemma assigned_row_ok a t r :
  assignedOk (setSR [SR_assignedToId (Some a); SR_status ASSIGNED; SR_updatedAt t] r) = true.
Proof. destruct r; reflexivity. Qed.

(** Steps through an operation that writes through the application's own
    connection, and shows that every store it can leave keeps the
    invariant. *)
Ltac root_run Hinv :=
  root_steps;
  let H := fresh in
  intro H; injection H as <- <-; cbn [root];
  unfold assignmentInvariant in *;
  cbn [serviceRequests onServiceRequests onActionHistory];
  first [ exact Hinv
        | apply Forall_updateWhere; [exact Hinv | intros; apply assigned_row_ok] ].

(** X2. [assignServiceAgent] keeps the assignment invariant, whatever the
    outcome of the call. *)
Lemma assignServiceAgent_keeps_assignment rt id assignedToId user w res w' :
  idle w ->
  assignmentInvariant (root w) ->
  assignServiceAgent rt id assignedToId user w = (res, w') ->
  assignmentInvariant (root w').
Proof.
  intros [Htx Hdb] Hinv. destruct w as [r o h n flt tr]. cbn in Htx, Hdb, Hinv. subst o h.
  unfold assignServiceAgent, getFranchiseById, logActionHistory,
    bind, get_fastify_db, query, execute, ret, throw.
  cbn [root txn fastify_db writes fault trace view hasOwner linkedAction
       serviceRequestId present orb option_map].
  root_run Hinv.
Qed.

Lemma assignServiceAgent_keeps_assignment_witness :
  let w := world completedDb in
  idle w
  /\ assignmentInvariant (root w)
  /\ assignmentInvariant (root (snd (assignServiceAgent rt0 "srq9" "agent2" admin w))).
Proof.
  intro w.
  assert (Hidle : idle w) by (split; reflexivity).
  assert (Hinv : assignmentInvariant (root w)) by (repeat constructor).
  split; [exact Hidle | ]. split; [exact Hinv | ].
  exact (assignServiceAgent_keeps_assignment rt0 "srq9" "agent2" admin w _ _ Hidle Hinv
           (surjective_pairing (assignServiceAgent rt0 "srq9" "agent2" admin w))).
Defined.

(** X3. [assignServiceRequestToSelf] keeps the assignment invariant,
    whatever the outcome of the call. *)
Lemma assignServiceRequestToSelf_keeps_assignment rt id user w res w' :
  idle w ->
  assignmentInvariant (root w) ->
  assignServiceRequestToSelf rt id user w = (res, w') ->
  assignmentInvariant (root w').
Proof.
  intros [Htx Hdb] Hinv. destruct w as [r o h n flt tr]. cbn in Htx, Hdb, Hinv. subst o h.
  unfold assignServiceRequestToSelf, sendServiceRequestNotifications,
    logActionHistory, bind, get_fastify_db, query, execute, ret, throw.
  cbn [root txn fastify_db writes fault trace view hasOwner linkedAction
       serviceRequestId present orb option_map].
  root_run Hinv.
Qed.

Lemma assignServiceRequestToSelf_keeps_assignment_witness :
  let w := world openDb in
  idle w
  /\ assignmentInvariant (root w)
  /\ assignmentInvariant (root (snd (assignServiceRequestToSelf rt0 "srq7" agentActor w))).
Proof.
  intro w.
  assert (Hidle : idle w) by (split; reflexivity).
  assert (Hinv : assignmentInvariant (root w)) by (repeat constructor).
  split; [exact Hidle | ]. split; [exact Hinv | ].
  exact (assignServiceRequestToSelf_keeps_assignment rt0 "srq7" agentActor w _ _ Hidle Hinv
           (surjective_pairing (assignServiceRequestToSelf rt0 "srq7" agentActor w))).
Defined.

Lemma scheduled_row_ok a r :
  assignedOk (setSR [SR_status SCHEDULED; SR_assignedToId (Some a)] r) = true.
Proof. destruct r; reflexivity. Qed.

Lemma Forall_insertRow {A : Type} (P : A -> Prop) (x : A) (l : list A) :
  Forall P l -> P x -> Forall P (insertRow x l).
Proof.
  intros Hl Hx. unfold insertRow. apply Forall_app. split; [exact Hl | ].
  constructor; [exact Hx | constructor].
Qed.

(** X4. [createInstallationServiceRequest] keeps the assignment invariant
    when the caller names an agent, whatever the outcome of the call. *)
Lemma createInstallationServiceRequest_keeps_assignment rt data user w res w' :
  idle w ->
  present (isr_assignedToId data) = true ->
  assignmentInvariant (root w) ->
  createInstallationServiceRequest rt data user w = (res, w') ->
  assignmentInvariant (root w').
Proof.
  intros [Htx Hdb] Hagent Hinv. destruct w as [r o h n flt tr].
  cbn in Htx, Hdb, Hinv. subst o h.
  destruct data as [irid [a | ] sched descr]; [clear Hagent | discriminate Hagent].
  destruct a as [ | c a];
  unfold createInstallationServiceRequest, getFranchiseById,
    logActionHistory, bind, get_fastify_db, query, execute, ret, throw;
  cbn [isr_installationRequestId isr_assignedToId isr_scheduledDate isr_description
       whenDefined hasOwner linkedAction serviceRequestId installationRequestId
       present orb asTruthy truthy];
  root_steps;
    (let H := fresh in intro H; injection H as <- <-); cbn [root];
    unfold assignmentInvariant in *;
    cbn [serviceRequests onServiceRequests onInstallationRequests onActionHistory];
    first [ exact Hinv
          | apply Forall_updateWhere; [exact Hinv | intros; apply scheduled_row_ok]
          | apply Forall_insertRow; [exact Hinv | reflexivity] ].
Qed.

Lemma createInstallationServiceRequest_keeps_assignment_witness :
  let w := world staffedInstallationDb in
  let run := createInstallationServiceRequest rt0 assignedInstall admin w in
  idle w
  /\ present (isr_assignedToId assignedInstall) = true
  /\ assignmentInvariant (root w)
  /\ option_map (fun r => (sr_status r, sr_assignedToId r))
                (storedServiceRequest "srq_1" (snd run)) = Some (SCHEDULED, Some "agent2")
  /\ assignmentInvariant (root (snd run)).
Proof.
  intros w run.
  assert (Hidle : idle w) by (split; reflexivity).
  assert (Hinv : assignmentInvariant (root w)) by constructor.
  split; [exact Hidle | ]. split; [reflexivity | ]. split; [exact Hinv | ].
  split; [reflexivity | ].
  exact (createInstallationServiceRequest_keeps_assignment rt0 assignedInstall admin w
           _ _ Hidle eq_refl Hinv (surjective_pairing run)).
Defined.

(* ------------------------------------------------------------------ *)
(** ** Statements outside a transaction *)

Lemma length_insertRow_S {A : Type} (x : A) (l : list A) :
  List.length (insertRow x l) = S (List.length l).
Proof. unfold insertRow. rewrite length_app. cbn. lia. Qed.

Lemma ir_id_applyIR a r : ir_id (applyIR a r) = ir_id r.
Proof. destruct a, r; reflexivity. Qed.

Lemma ir_id_setIR upd r : ir_id (setIR upd r) = ir_id r.
Proof.
  unfold setIR. revert r.
  induction upd as [ | a upd IH]; intro r; [reflexivity | ].
  cbn [fold_left]. rewrite IH. apply ir_id_applyIR.
Qed.

Lemma execute_root_run t f r n flt tr :
  execute RootDb t f (mkWorld r None RootDb n flt tr) =
  if flt n
  then (Throw StorageFailure, mkWorld r None RootDb (S n) flt (tr ++ [EvWrite t]))
  else (Ok tt, mkWorld (f r) None RootDb (S n) flt (tr ++ [EvWrite t])).
Proof. unfold execute. cbn. destruct (flt n); reflexivity. Qed.

Lemma logActionHistory_root_run rt a r n flt tr :
  hasOwner a = true ->
  logActionHistory rt a (mkWorld r None RootDb n flt tr) =
  if flt n
  then (Throw StorageFailure,
        mkWorld r None RootDb (S n) flt (tr ++ [EvWrite T_actionHistory]))
  else (Ok tt,
        mkWorld (onActionHistory (insertRow (mkActionHistoryEntry a (now rt))) r)
                None RootDb (S n) flt (tr ++ [EvWrite T_actionHistory])).
Proof.
  intro Ha. unfold logActionHistory. rewrite Ha.
  unfold bind, get_fastify_db. cbn [fastify_db]. apply execute_root_run.
Qed.

Lemma getFranchiseById_run fid r o n flt tr :
  getFranchiseById fid (mkWorld r o RootDb n flt tr) =
  (Ok (findFirst (fun f => String.eqb (fr_id f) fid) (franchises r)),
   mkWorld r o RootDb n flt tr).
Proof. reflexivity. Qed.

Lemma stored_after_set id upd l sr :
  findFirst (fun r => String.eqb (sr_id r) id) l = Some sr ->
  findFirst (fun r => String.eqb (sr_id r) id)
            (updateWhere (fun r => String.eqb (sr_id r) id) (setSR upd) l)
  = Some (setSR upd sr).
Proof.
  intro H. rewrite findFirst_updateWhere, H; [reflexivity | ].
  intro x. rewrite sr_id_setSR. reflexivity.
Qed.

(** An update of the row changes the answer of the read accordingly: no
    assignment touches the type or the installation request of a row. *)
Lemma read_after_set r id upd f sr :
  readServiceRequest r id = Ok (Some sr) ->
  readServiceRequest
    (onActionHistory f
       (onServiceRequests (updateWhere (fun x => String.eqb (sr_id x) id) (setSR upd)) r))
    id
  = Ok (Some (setSR upd sr)).
Proof.
  intro Hld. pose proof (readServiceRequest_Some _ _ _ Hld) as Hsr.
  rewrite readServiceRequest_eq in Hld |- *.
  cbn [serviceRequests onActionHistory onServiceRequests].
  rewrite (stored_after_set _ _ _ _ Hsr). rewrite Hsr in Hld.
  destruct (sr_link_setSR upd sr) as [-> ->].
  unfold findInstallationWithProduct in *.
  cbn [installationRequests products onActionHistory onServiceRequests].
  revert Hld. split_cases; intro H; first [discriminate H | reflexivity].
Qed.

(** A call on a request that cannot be read, or is not stored, passes the
    error of the read on, or throws NotFound; it changes nothing. *)
Lemma assignServiceAgent_unread rt id a user r n flt tr :
  match readServiceRequest r id with
  | Ok (Some _) => True
  | Ok None =>
      assignServiceAgent rt id a user (mkWorld r None RootDb n flt tr)
      = (Throw (NotFound "Service Request"), mkWorld r None RootDb n flt tr)
  | Throw e =>
      assignServiceAgent rt id a user (mkWorld r None RootDb n flt tr)
      = (Throw e, mkWorld r None RootDb n flt tr)
  end.
Proof.
  destruct (readServiceRequest r id) as [[sr | ] | e] eqn:Hld; [exact I | | ];
    unfold assignServiceAgent; unfold bind at 1; rewrite getServiceRequestById_in_tx, Hld;
    reflexivity.
Qed.

(** The head of [assignServiceAgent]: the three checks, then the two
    statements. *)
Lemma assignServiceAgent_run rt id a user r n flt tr sr :
  readServiceRequest r id = Ok (Some sr) ->
  assignServiceAgent rt id a user (mkWorld r None RootDb n flt tr) =
  if negb (mayAssign r user sr) then
    (Throw (Forbidden
       (if UserRole.eqb (role user) UserRole.FRANCHISE_OWNER
        then "Service request is not in your franchise area"
        else "You do not have permission to assign service agents")),
     mkWorld r None RootDb n flt tr)
  else if negb (isServiceAgent r a) then
    (Throw (BadRequest "Invalid service agent"), mkWorld r None RootDb n flt tr)
  else if flt n then
    (Throw StorageFailure,
     mkWorld r None RootDb (S n) flt (tr ++ [EvWrite T_serviceRequests]))
  else
    let r1 := onServiceRequests
                (updateWhere (fun x => String.eqb (sr_id x) id)
                   (setSR [SR_assignedToId (Some a); SR_status ASSIGNED;
                           SR_updatedAt (now rt)])) r in
    if flt (S n) then
      (Throw StorageFailure,
       mkWorld r1 None RootDb (S (S n)) flt
         ((tr ++ [EvWrite T_serviceRequests]) ++ [EvWrite T_actionHistory]))
    else
      (Ok (Some (setSR [SR_assignedToId (Some a); SR_status ASSIGNED;
                        SR_updatedAt (now rt)] sr)),
       mkWorld
         (onActionHistory
            (insertRow
               (mkActionHistoryEntry
                  (linkedAction (Some id) None None
                     (Typed ActionType.SERVICE_REQUEST_ASSIGNED)
                     (Some (SRStatus (sr_status sr))) (Some (SRStatus ASSIGNED)) user
                     (match findFirst (fun u => String.eqb (usr_id u) a) (users r) with
                      | Some agent =>
                          agentAssignedComment "null" (usr_name agent) (usr_phone agent)
                      | None => EmptyString
                      end)
                     (match findFirst (fun u => String.eqb (usr_id u) a) (users r) with
                      | Some agent =>
                          [("assignedToId", MString (Some a));
                           ("agentName", MString (usr_name agent));
                           ("agentPhone", MString (usr_phone agent))]
                      | None => []
                      end))
                  (now rt))) r1)
         None RootDb (S (S n)) flt
         ((tr ++ [EvWrite T_serviceRequests]) ++ [EvWrite T_actionHistory])).
Proof.
  intro Hld. unfold assignServiceAgent.
  unfold bind at 1. rewrite getServiceRequestById_in_tx, Hld.
  unfold mayAssign, ownsFranchise, isServiceAgent.
  destruct (role user); cbn [UserRole.eqb orb andb negb];
    try reflexivity.
  - (* ADMIN *)
    unfold bind at 1. cbn [ret].
    unfold bind at 1, get_fastify_db at 1. cbn [fastify_db].
    unfold bind at 1, query at 1. cbn [view root txn].
    destruct (findFirst (fun u => String.eqb (usr_id u) a) (users r)) as [agent | ];
      [ | reflexivity].
    destruct (UserRole.eqb (usr_role agent) UserRole.SERVICE_AGENT); cbn [negb];
      [ | reflexivity].
    unfold bind at 1. rewrite execute_root_run.
    destruct (flt n); [reflexivity | ].
    unfold bind at 1. rewrite logActionHistory_root_run by reflexivity.
    cbv zeta. destruct (flt (S n)); [reflexivity | ].
    rewrite getServiceRequestById_in_tx.
    rewrite (read_after_set _ _ _ _ _ Hld). reflexivity.
  - (* FRANCHISE_OWNER *)
    unfold bind at 1. unfold bind at 1. rewrite getFranchiseById_run.
    destruct (findFirst (fun f => String.eqb (fr_id f) (sr_franchiseId sr)) (franchises r))
      as [f | ]; [ | reflexivity].
    destruct (optStringEqb (fr_ownerId f) (userId user)); cbn [negb ret throw];
      [ | reflexivity].
    unfold bind at 1, get_fastify_db at 1. cbn [fastify_db].
    unfold bind at 1, query at 1. cbn [view root txn].
    destruct (findFirst (fun u => String.eqb (usr_id u) a) (users r)) as [agent | ];
      [ | reflexivity].
    destruct (UserRole.eqb (usr_role agent) UserRole.SERVICE_AGENT); cbn [negb];
      [ | reflexivity].
    unfold bind at 1. rewrite execute_root_run.
    destruct (flt n); [reflexivity | ].
    unfold bind at 1. rewrite logActionHistory_root_run by reflexivity.
    cbv zeta. destruct (flt (S n)); [reflexivity | ].
    rewrite getServiceRequestById_in_tx.
    rewrite (read_after_set _ _ _ _ _ Hld). reflexivity.
Qed.

(* ------------------------------------------------------------------ *)
(** ** Assigning an agent *)

(** X7. [assignServiceAgent] does not consult the transition table: for a
    request that [getServiceRequestById] returns, when the caller is an
    admin or owns the franchise of the request, and the named user is a
    service agent, the request becomes ASSIGNED to that agent whatever its
    status was -- also from COMPLETED, which the status machine never
    leaves -- and one audit entry is appended. *)
Theorem assignment_ignores_the_transition_table :
  forall rt id a user w sr,
    idle w ->
    readServiceRequest (root w) id = Ok (Some sr) ->
    mayAssign (root w) user sr = true ->
    isServiceAgent (root w) a = true ->
    fault w (writes w) = false ->
    fault w (S (writes w)) = false ->
    exists r' w',
      assignServiceAgent rt id a user w = (Ok (Some r'), w')
      /\ storedServiceRequest id w' = Some r'
      /\ sr_status r' = ASSIGNED
      /\ sr_assignedToId r' = Some a
      /\ List.length (actionHistory (root w')) = S (List.length (actionHistory (root w))).
Proof.
  intros rt id a user [r o h n flt tr] sr [Htx Hdb] Hld Hmay Hagent Hf0 Hf1.
  cbn in Htx, Hdb, Hmay, Hagent, Hf0, Hf1. subst o h. cbn [root] in Hld.
  pose proof (readServiceRequest_Some _ _ _ Hld) as Hsr.
  rewrite (assignServiceAgent_run rt id a user r n flt tr sr Hld).
  rewrite Hmay, Hagent, Hf0. cbn [negb]. cbv zeta. rewrite Hf1.
  eexists; eexists. split; [reflexivity | ].
  unfold storedServiceRequest.
  cbn [root serviceRequests onActionHistory onServiceRequests actionHistory].
  split; [exact (stored_after_set _ _ _ _ Hsr) | ].
  split; [destruct sr; reflexivity | ].
  split; [destruct sr; reflexivity | ].
  apply length_insertRow_S.
Qed.

Lemma assignment_ignores_the_transition_table_witness :
  let w := world completedDb in
  includes (validTransitions (sr_status completedRequest)) ASSIGNED = false
  /\ exists r' w',
       assignServiceAgent rt0 "srq9" "agent2" admin w = (Ok (Some r'), w')
       /\ storedServiceRequest "srq9" w' = Some r'
       /\ sr_status r' = ASSIGNED
       /\ sr_assignedToId r' = Some "agent2"
       /\ List.length (actionHistory (root w')) = S (List.length (actionHistory (root w))).
Proof.
  intro w. split; [reflexivity | ].
  exact (assignment_ignores_the_transition_table rt0 "srq9" "agent2" admin w
           completedRequest (conj eq_refl eq_refl) eq_refl eq_refl eq_refl
           eq_refl eq_refl).
Defined.

(** X8. A call of [assignServiceAgent] that is turned away writes nothing.
    A request that [getServiceRequestById] fails to read gives the error
    of the read; an unknown id gives NotFound; a caller who is neither an
    admin nor the owner of the request's franchise gives Forbidden; a named
    user who does not exist or is not a service agent gives BadRequest; in
    each case the world is the one the call started from. *)
Theorem assignment_refusals_write_nothing :
  forall rt id a user w res w',
    idle w ->
    assignServiceAgent rt id a user w = (res, w') ->
    match readServiceRequest (root w) id with
    | Throw e => res = Throw e /\ w' = w
    | Ok None => res = Throw (NotFound "Service Request") /\ w' = w
    | Ok (Some sr) =>
        (mayAssign (root w) user sr = false ->
         (exists m, res = Throw (Forbidden m)) /\ w' = w)
        /\ (mayAssign (root w) user sr = true ->
            isServiceAgent (root w) a = false ->
            res = Throw (BadRequest "Invalid service agent") /\ w' = w)
    end.
Proof.
  intros rt id a user [r o h n flt tr] res w' [Htx Hdb].
  cbn in Htx, Hdb. subst o h. cbn [root].
  pose proof (assignServiceAgent_unread rt id a user r n flt tr) as Hun.
  destruct (readServiceRequest r id) as [[sr | ] | e] eqn:Hld.
  - rewrite (assignServiceAgent_run rt id a user r n flt tr sr Hld).
    intro H. split.
    + intro Hmay. rewrite Hmay in H. cbn [negb] in H.
      injection H as <- <-. split; [eexists; reflexivity | reflexivity].
    + intros Hmay Hagent. rewrite Hmay, Hagent in H. cbn [negb] in H.
      injection H as <- <-. split; reflexivity.
  - rewrite Hun. intro H. injection H as <- <-. split; reflexivity.
  - rewrite Hun. intro H. injection H as <- <-. split; reflexivity.
Qed.

Lemma assignment_refusals_write_nothing_witness :
  let w := world completedDb in
  let run := assignServiceAgent rt0 "srq9" "agent2" customer w in
  idle w
  /\ (exists m, fst run = Throw (Forbidden m))
  /\ snd run = w.
Proof.
  intros w run.
  assert (Hidle : idle w) by (split; reflexivity).
  split; [exact Hidle | ].
  pose proof (assignment_refusals_write_nothing rt0 "srq9" "agent2" customer w
                (fst run) (snd run) Hidle (surjective_pairing run)) as H.
  change (readServiceRequest (root w) "srq9") with (Ok (Some completedRequest)) in H.
  destruct H as [H _]. apply H. reflexivity.
Defined.

(** X9. The update of [assignServiceAgent] and its audit entry are two
    statements on the application's own connection, not a transaction:
    for a request that [getServiceRequestById] returns, when the storage
    engine rejects the audit entry the call throws, the row stays ASSIGNED
    to the new agent, and the history has no entry for it. *)
Theorem assignment_survives_a_failed_audit_entry :
  forall rt id a user w sr,
    idle w ->
    readServiceRequest (root w) id = Ok (Some sr) ->
    mayAssign (root w) user sr = true ->
    isServiceAgent (root w) a = true ->
    fault w (writes w) = false ->
    fault w (S (writes w)) = true ->
    exists r' w',
      assignServiceAgent rt id a user w = (Throw StorageFailure, w')
      /\ storedServiceRequest id w' = Some r'
      /\ sr_status r' = ASSIGNED
      /\ sr_assignedToId r' = Some a
      /\ actionHistory (root w') = actionHistory (root w).
Proof.
  intros rt id a user [r o h n flt tr] sr [Htx Hdb] Hld Hmay Hagent Hf0 Hf1.
  cbn in Htx, Hdb, Hmay, Hagent, Hf0, Hf1. subst o h. cbn [root] in Hld.
  pose proof (readServiceRequest_Some _ _ _ Hld) as Hsr.
  rewrite (assignServiceAgent_run rt id a user r n flt tr sr Hld).
  rewrite Hmay, Hagent, Hf0. cbn [negb]. cbv zeta. rewrite Hf1.
  eexists; eexists. split; [reflexivity | ].
  unfold storedServiceRequest.
  cbn [root serviceRequests onServiceRequests actionHistory].
  split; [exact (stored_after_set _ _ _ _ Hsr) | ].
  split; [destruct sr; reflexivity | ].
  split; [destruct sr; reflexivity | reflexivity].
Qed.

Lemma assignment_survives_a_failed_audit_entry_witness :
  let w := faultyWorld completedDb 1 in
  exists r' w',
    assignServiceAgent rt0 "srq9" "agent2" admin w = (Throw StorageFailure, w')
    /\ storedServiceRequest "srq9" w' = Some r'
    /\ sr_status r' = ASSIGNED
    /\ sr_assignedToId r' = Some "agent2"
    /\ actionHistory (root w') = actionHistory (root w).
Proof.
  intro w.
  exact (assignment_survives_a_failed_audit_entry rt0 "srq9" "agent2" admin w
           completedRequest (conj eq_refl eq_refl) eq_refl eq_refl eq_refl
           eq_refl eq_refl).
Defined.

(* ------------------------------------------------------------------ *)
(** ** Self-assignment *)

Lemma assignServiceRequestToSelf_unread rt id user r n flt tr :
  match readServiceRequest r id with
  | Ok (Some _) => True
  | Ok None =>
      assignServiceRequestToSelf rt id user (mkWorld r None RootDb n flt tr)
      = (Throw (NotFound "Service Request"), mkWorld r None RootDb n flt tr)
  | Throw e =>
      assignServiceRequestToSelf rt id user (mkWorld r None RootDb n flt tr)
      = (Throw e, mkWorld r None RootDb n flt tr)
  end.
Proof.
  destruct (readServiceRequest r id) as [[sr | ] | e] eqn:Hld; [exact I | | ];
    unfold assignServiceRequestToSelf; unfold bind at 1; rewrite getServiceRequestById_in_tx, Hld;
    reflexivity.
Qed.

(** The head of [assignServiceRequestToSelf]: the three checks, then the
    two statements. *)
Lemma assignServiceRequestToSelf_run rt id user r n flt tr sr :
  readServiceRequest r id = Ok (Some sr) ->
  assignServiceRequestToSelf rt id user (mkWorld r None RootDb n flt tr) =
  if truthy (sr_assignedToId sr) then
    (Throw (BadRequest "Service request is already assigned"),
     mkWorld r None RootDb n flt tr)
  else if truthy (sr_installationRequestId sr) then
    (Throw (BadRequest "Installation service requests cannot be self-assigned"),
     mkWorld r None RootDb n flt tr)
  else if UserRole.eqb (role user) UserRole.SERVICE_AGENT
          && negb (worksIn r user (sr_franchiseId sr)) then
    (Throw (Forbidden "You are not authorized to work in this franchise area"),
     mkWorld r None RootDb n flt tr)
  else if flt n then
    (Throw StorageFailure,
     mkWorld r None RootDb (S n) flt (tr ++ [EvWrite T_serviceRequests]))
  else
    let r1 := onServiceRequests
                (updateWhere (fun x => String.eqb (sr_id x) id)
                   (setSR [SR_assignedToId (Some (userId user)); SR_status ASSIGNED;
                           SR_updatedAt (now rt)])) r in
    if flt (S n) then
      (Throw StorageFailure,
       mkWorld r1 None RootDb (S (S n)) flt
         ((tr ++ [EvWrite T_serviceRequests]) ++ [EvWrite T_actionHistory]))
    else
      (Ok (Some (setSR [SR_assignedToId (Some (userId user)); SR_status ASSIGNED;
                        SR_updatedAt (now rt)] sr)),
       mkWorld
         (onActionHistory
            (insertRow
               (mkActionHistoryEntry
                  (linkedAction (Some id) None None
                     (Typed ActionType.SERVICE_REQUEST_ASSIGNED)
                     (Some (SRStatus (sr_status sr))) (Some (SRStatus ASSIGNED)) user
                     "Service agent self-assigned"
                     [("assignedToId", MString (Some (userId user)));
                      ("selfAssigned", MBool true)])
                  (now rt))) r1)
         None RootDb (S (S n)) flt
         ((tr ++ [EvWrite T_serviceRequests]) ++ [EvWrite T_actionHistory])).
Proof.
  intro Hld. unfold assignServiceRequestToSelf.
  unfold bind at 1. rewrite getServiceRequestById_in_tx, Hld.
  destruct (truthy (sr_assignedToId sr)); [reflexivity | ].
  destruct (truthy (sr_installationRequestId sr)); [reflexivity | ].
  unfold bind at 1, get_fastify_db at 1. cbn [fastify_db].
  unfold worksIn.
  assert (Hrest :
    bind (execute RootDb T_serviceRequests
            (onServiceRequests
               (updateWhere (fun x => String.eqb (sr_id x) id)
                  (setSR [SR_assignedToId (Some (userId user)); SR_status ASSIGNED;
                          SR_updatedAt (now rt)]))))
         (fun _ =>
            bind (logActionHistory rt
                    (linkedAction (Some id) None None
                       (Typed ActionType.SERVICE_REQUEST_ASSIGNED)
                       (Some (SRStatus (sr_status sr))) (Some (SRStatus ASSIGNED)) user
                       "Service agent self-assigned"
                       [("assignedToId", MString (Some (userId user)));
                        ("selfAssigned", MBool true)]))
                 (fun _ => bind sendServiceRequestNotifications
                             (fun _ => getServiceRequestById id)))
         (mkWorld r None RootDb n flt tr)
    = if flt n then
        (Throw StorageFailure,
         mkWorld r None RootDb (S n) flt (tr ++ [EvWrite T_serviceRequests]))
      else
        let r1 := onServiceRequests
                    (updateWhere (fun x => String.eqb (sr_id x) id)
                       (setSR [SR_assignedToId (Some (userId user)); SR_status ASSIGNED;
                               SR_updatedAt (now rt)])) r in
        if flt (S n) then
          (Throw StorageFailure,
           mkWorld r1 None RootDb (S (S n)) flt
             ((tr ++ [EvWrite T_serviceRequests]) ++ [EvWrite T_actionHistory]))
        else
          (Ok (Some (setSR [SR_assignedToId (Some (userId user)); SR_status ASSIGNED;
                            SR_updatedAt (now rt)] sr)),
           mkWorld
             (onActionHistory
                (insertRow
                   (mkActionHistoryEntry
                      (linkedAction (Some id) None None
                         (Typed ActionType.SERVICE_REQUEST_ASSIGNED)
                         (Some (SRStatus (sr_status sr))) (Some (SRStatus ASSIGNED)) user
                         "Service agent self-assigned"
                         [("assignedToId", MString (Some (userId user)));
                          ("selfAssigned", MBool true)])
                      (now rt))) r1)
             None RootDb (S (S n)) flt
             ((tr ++ [EvWrite T_serviceRequests]) ++ [EvWrite T_actionHistory]))).
  { unfold bind at 1. rewrite execute_root_run.
    destruct (flt n); [reflexivity | ].
    unfold bind at 1. rewrite logActionHistory_root_run by reflexivity.
    cbv zeta. destruct (flt (S n)); [reflexivity | ].
    unfold bind at 1, sendServiceRequestNotifications, ret.
    rewrite getServiceRequestById_in_tx.
    rewrite (read_after_set _ _ _ _ _ Hld). reflexivity. }
  destruct (UserRole.eqb (role user) UserRole.SERVICE_AGENT); cbn [andb].
  - unfold bind at 1. unfold bind at 1, query at 1. cbn [view root txn].
    destruct (findFirst _ (franchiseAgents r)); cbn [negb ret throw];
      [exact Hrest | reflexivity].
  - unfold bind at 1. cbn [ret]. exact Hrest.
Qed.

(** X10. What [assignServiceRequestToSelf] decides on, and what it does
    not, for a request that [getServiceRequestById] returns.  A request
    that has an agent, or is linked to an installation, is
    refused; a caller whose role is SERVICE_AGENT needs an active link to
    the franchise of the request; every other call assigns the request to
    the caller and sets ASSIGNED.  Neither the caller's role (a caller who
    is not a service agent passes without a franchise check) nor the
    current status of the request is looked at.  A refused call leaves the
    world as it was. *)
Theorem self_assignment_outcome :
  forall rt id user w sr res w',
    idle w ->
    readServiceRequest (root w) id = Ok (Some sr) ->
    fault w (writes w) = false ->
    fault w (S (writes w)) = false ->
    assignServiceRequestToSelf rt id user w = (res, w') ->
    if truthy (sr_assignedToId sr) then
      res = Throw (BadRequest "Service request is already assigned") /\ w' = w
    else if truthy (sr_installationRequestId sr) then
      res = Throw (BadRequest "Installation service requests cannot be self-assigned")
      /\ w' = w
    else if UserRole.eqb (role user) UserRole.SERVICE_AGENT
            && negb (worksIn (root w) user (sr_franchiseId sr)) then
      res = Throw (Forbidden "You are not authorized to work in this franchise area")
      /\ w' = w
    else
      exists r',
        res = Ok (Some r')
        /\ storedServiceRequest id w' = Some r'
        /\ sr_status r' = ASSIGNED
        /\ sr_assignedToId r' = Some (userId user).
Proof.
  intros rt id user [r o h n flt tr] sr res w' [Htx Hdb] Hld Hf0 Hf1.
  cbn in Htx, Hdb, Hf0, Hf1. subst o h. cbn [root] in Hld.
  pose proof (readServiceRequest_Some _ _ _ Hld) as Hsr.
  rewrite (assignServiceRequestToSelf_run rt id user r n flt tr sr Hld).
  cbn [root].
  destruct (truthy (sr_assignedToId sr));
    [intro H; injection H as <- <-; split; reflexivity | ].
  destruct (truthy (sr_installationRequestId sr));
    [intro H; injection H as <- <-; split; reflexivity | ].
  destruct (UserRole.eqb (role user) UserRole.SERVICE_AGENT
            && negb (worksIn r user (sr_franchiseId sr)));
    [intro H; injection H as <- <-; split; reflexivity | ].
  rewrite Hf0. cbv zeta. rewrite Hf1.
  intro H; injection H as <- <-.
  eexists. split; [reflexivity | ].
  unfold storedServiceRequest.
  cbn [root serviceRequests onActionHistory onServiceRequests].
  split; [exact (stored_after_set _ _ _ _ Hsr) | ].
  split; destruct sr; reflexivity.
Qed.

Lemma self_assignment_outcome_witness :
  let w := world openDb in
  let run := assignServiceRequestToSelf rt0 "srq7" customer w in
  idle w
  /\ readServiceRequest (root w) "srq7" = Ok (Some openRequest)
  /\ exists r',
       fst run = Ok (Some r')
       /\ storedServiceRequest "srq7" (snd run) = Some r'
       /\ sr_status r' = ASSIGNED
       /\ sr_assignedToId r' = Some "u1".
Proof.
  intros w run.
  assert (Hidle : idle w) by (split; reflexivity).
  split; [exact Hidle | ]. split; [reflexivity | ].
  exact (self_assignment_outcome rt0 "srq7" customer w openRequest (fst run) (snd run)
           Hidle eq_refl eq_refl eq_refl (surjective_pairing run)).
Defined.

(* ------------------------------------------------------------------ *)
(** ** The lists of service requests *)

Lemma In_insertDesc {A : Type} (key : A -> string) (x y : A) (l : list A) :
  In x (insertDesc key y l) <-> x = y \/ In x l.
Proof.
  induction l as [ | z l IH]; cbn [insertDesc].
  - cbn. intuition congruence.
  - destruct (String.ltb (key y) (key z)).
    + cbn [In]. rewrite IH. intuition congruence.
    + cbn [In]. intuition congruence.
Qed.

Lemma In_orderByDesc {A : Type} (key : A -> string) (x : A) (l : list A) :
  In x (orderByDesc key l) <-> In x l.
Proof.
  unfold orderByDesc. induction l as [ | y l IH]; cbn [fold_right].
  - reflexivity.
  - rewrite In_insertDesc, IH. cbn [In]. intuition congruence.
Qed.

Lemma In_selected {A : Type} (key : A -> string) (conds : list (A -> bool))
    (x : A) (l : list A) :
  In x (orderByDesc key (findMany (allOf conds) l))
  <-> In x l /\ forall c, In c conds -> c x = true.
Proof.
  rewrite In_orderByDesc. unfold findMany, allOf.
  rewrite filter_In, forallb_forall. reflexivity.
Qed.

Lemma findFirst_unique (l : list ServiceRequest) (x : ServiceRequest) :
  NoDup (map sr_id l) -> In x l ->
  findFirst (fun r => String.eqb (sr_id r) (sr_id x)) l = Some x.
Proof.
  intros Hnd Hx.
  destruct (findFirst (fun r => String.eqb (sr_id r) (sr_id x)) l) as [y | ] eqn:E.
  - unfold findFirst in E. apply find_some in E. destruct E as [Hy Hid].
    apply String.eqb_eq in Hid.
    f_equal. exact (unique_row l y x Hnd Hy Hx Hid).
  - unfold findFirst in E. apply (find_none _ _ E) in Hx.
    rewrite String.eqb_refl in Hx. discriminate Hx.
Qed.

(** Every answer of [getAllUnassignedServiceRequests] shows a stored row
    that has no agent and no installation request. *)
Lemma unassigned_answers usr_city user r n flt tr :
  exists items,
    getAllUnassignedServiceRequests usr_city user (mkWorld r None RootDb n flt tr)
    = (Ok items, mkWorld r None RootDb n flt tr)
    /\ forall id, In id (map ur_id items) ->
         exists row,
           In row (serviceRequests r) /\ sr_id row = id
           /\ sr_assignedToId row = None
           /\ sr_installationRequestId row = None.
Proof.
  assert (Hsel : forall extra,
    forall id,
      In id (map ur_id
               (map (unassignedView usr_city r)
                  (orderByDesc sr_createdAt
                     (findMany
                        (allOf ([ (fun x => negb (present (sr_assignedToId x)));
                                  (fun x => negb (present (sr_installationRequestId x)));
                                  (fun x => includes [CREATED; ASSIGNED] (sr_status x)) ]
                                ++ extra))
                        (serviceRequests r))))) ->
      exists row,
        In row (serviceRequests r) /\ sr_id row = id
        /\ sr_assignedToId row = None
        /\ sr_installationRequestId row = None).
  { intros extra id Hid.
    rewrite map_map in Hid. apply in_map_iff in Hid.
    destruct Hid as (row & Hrow & Hin). cbn [unassignedView ur_id] in Hrow.
    apply In_selected in Hin. destruct Hin as [Hin Hc].
    exists row. split; [exact Hin | ]. split; [exact Hrow | ].
    split.
    - assert (H := Hc (fun x => negb (present (sr_assignedToId x)))
                      (or_introl eq_refl)).
      cbn beta in H. destruct (sr_assignedToId row); [discriminate H | reflexivity].
    - assert (H := Hc (fun x => negb (present (sr_installationRequestId x)))
                      (or_intror (or_introl eq_refl))).
      cbn beta in H. destruct (sr_installationRequestId row);
        [discriminate H | reflexivity]. }
  unfold getAllUnassignedServiceRequests.
  unfold bind at 1, get_fastify_db at 1. cbn [fastify_db].
  unfold bind at 1.
  destruct (UserRole.eqb (role user) UserRole.SERVICE_AGENT).
  - unfold bind at 1, query at 1. cbn [view root txn].
    destruct (findMany (fun fa => String.eqb (fa_agentId fa) (userId user))
                (franchiseAgents r)) as [ | fa fas]; cbn [ret].
    + exists []. split; [reflexivity | intros id []].
    + unfold bind, query. cbn [view root txn].
      eexists. split; [reflexivity | apply Hsel].
  - destruct (UserRole.eqb (role user) UserRole.FRANCHISE_OWNER).
    + unfold bind at 1, query at 1. cbn [view root txn].
      destruct (findFirst _ (franchises r)); cbn [ret].
      * unfold bind, query. cbn [view root txn].
        eexists. split; [reflexivity | apply Hsel].
      * exists []. split; [reflexivity | intros id []].
    + cbn [ret]. unfold bind, query. cbn [view root txn].
      eexists. split; [reflexivity | apply Hsel].
Qed.

(** A service agent's own list has every stored row assigned to the
    agent. *)
Lemma agent_sees_assigned user r n flt tr row :
  role user = UserRole.SERVICE_AGENT ->
  In row (serviceRequests r) ->
  sr_assignedToId row = Some (userId user) ->
  exists mine,
    getAllServiceRequests noFilters user (mkWorld r None RootDb n flt tr)
    = (Ok mine, mkWorld r None RootDb n flt tr)
    /\ In row mine.
Proof.
  intros Hrole Hin Has.
  unfold getAllServiceRequests.
  unfold bind at 1, get_fastify_db at 1. cbn [fastify_db].
  rewrite Hrole. cbn [UserRole.eqb].
  unfold bind, query, ret. cbn [view root txn].
  eexists. split; [reflexivity | ].
  apply In_selected. split; [exact Hin | ].
  cbn [noFilters filterConditions f_status f_type f_franchiseId f_customerId
       f_subscriptionId whenDefined asTruthy truthy app].
  intros c [<- | []]. rewrite Has. cbn [optStringEqb]. apply String.eqb_refl.
Qed.

(** X11. From the list of unassigned requests to the agent's own list.  For
    a service agent, every request that [getAllUnassignedServiceRequests]
    shows is a stored request; if the agent has an active link to its
    franchise, [assignServiceRequestToSelf] on it returns the request
    assigned to the agent, after which the list of unassigned requests no
    longer shows it and [getAllServiceRequests] (no filter) shows it to
    the agent; if the agent has no active link (the list also goes by
    inactive ones), the same call is refused with Forbidden and changes
    nothing. *)
Theorem self_assignment_moves_a_listed_request :
  forall usr_city rt user w items id,
    idle w ->
    uniqueServiceRequestIds (root w) ->
    role user = UserRole.SERVICE_AGENT ->
    fst (getAllUnassignedServiceRequests usr_city user w) = Ok items ->
    In id (map ur_id items) ->
    fault w (writes w) = false ->
    fault w (S (writes w)) = false ->
    exists sr,
      storedServiceRequest id w = Some sr
      /\ if worksIn (root w) user (sr_franchiseId sr) then
           exists r' w',
             assignServiceRequestToSelf rt id user w = (Ok (Some r'), w')
             /\ sr_status r' = ASSIGNED
             /\ sr_assignedToId r' = Some (userId user)
             /\ (exists items',
                   fst (getAllUnassignedServiceRequests usr_city user w') = Ok items'
                   /\ ~ In id (map ur_id items'))
             /\ (exists mine,
                   fst (getAllServiceRequests noFilters user w') = Ok mine
                   /\ In r' mine)
         else
           assignServiceRequestToSelf rt id user w
           = (Throw (Forbidden "You are not authorized to work in this franchise area"), w).
Proof.
  intros usr_city rt user [r o h n flt tr] items id [Htx Hdb] Huniq Hrole Hlist Hid Hf0 Hf1.
  cbn in Htx, Hdb, Huniq, Hf0, Hf1. subst o h.
  destruct (unassigned_answers usr_city user r n flt tr) as (items0 & Hrun & Hshown).
  rewrite Hrun in Hlist. cbn [fst] in Hlist. injection Hlist as ->.
  destruct (Hshown id Hid) as (sr & Hin & Hsrid & Hnoagent & Hnoinst).
  assert (Hsr : findFirst (fun x => String.eqb (sr_id x) id) (serviceRequests r) = Some sr).
  { rewrite <- Hsrid. apply findFirst_unique; assumption. }
  exists sr. split; [exact Hsr | ].
  assert (Hld : readServiceRequest r id = Ok (Some sr))
    by (apply readServiceRequest_unlinked; [exact Hsr | rewrite Hnoinst; reflexivity]).
  rewrite (assignServiceRequestToSelf_run rt id user r n flt tr sr Hld).
  rewrite Hnoagent, Hnoinst, Hrole. cbn [truthy UserRole.eqb andb root].
  destruct (worksIn r user (sr_franchiseId sr)); cbn [negb]; [ | reflexivity].
  rewrite Hf0. cbv zeta. rewrite Hf1.
  eexists; eexists. split; [reflexivity | ].
  split; [destruct sr; reflexivity | ].
  split; [destruct sr; reflexivity | ].
  split.
  - (* no longer among the unassigned *)
    match goal with
    | |- context [getAllUnassignedServiceRequests _ _ (mkWorld ?r1 None RootDb ?n1 ?f1 ?t1)] =>
        destruct (unassigned_answers usr_city user r1 n1 f1 t1) as (items' & Hrun' & Hshown')
    end.
    exists items'. rewrite Hrun'. split; [reflexivity | ].
    intro Hid'. destruct (Hshown' id Hid') as (row & Hrow & Hrid & Hrnone & _).
    cbn [serviceRequests onActionHistory onServiceRequests] in Hrow.
    unfold updateWhere in Hrow. apply in_map_iff in Hrow.
    destruct Hrow as (x & Hx & _).
    destruct (String.eqb (sr_id x) id) eqn:Ex.
    + subst row. destruct x; discriminate Hrnone.
    + subst row. apply String.eqb_neq in Ex. contradiction.
  - (* in the agent's own list *)
    match goal with
    | |- context [getAllServiceRequests _ _ (mkWorld ?r1 None RootDb ?n1 ?f1 ?t1)] =>
        destruct (agent_sees_assigned user r1 n1 f1 t1
                    (setSR [SR_assignedToId (Some (userId user)); SR_status ASSIGNED;
                            SR_updatedAt (now rt)] sr) Hrole)
          as (mine & Hmine & Hrow)
    end.
    + cbn [serviceRequests onActionHistory onServiceRequests].
      unfold updateWhere. apply in_map_iff. exists sr.
      rewrite Hsrid, String.eqb_refl. split; [reflexivity | exact Hin].
    + destruct sr; reflexivity.
    + exists mine. rewrite Hmine. split; [reflexivity | exact Hrow].
Qed.

Lemma self_assignment_moves_a_listed_request_witness :
  let w := world openDb in
  idle w
  /\ uniqueServiceRequestIds (root w)
  /\ exists sr,
       storedServiceRequest "srq7" w = Some sr
       /\ if worksIn (root w) agentActor (sr_franchiseId sr) then
            exists r' w',
              assignServiceRequestToSelf rt0 "srq7" agentActor w = (Ok (Some r'), w')
              /\ sr_status r' = ASSIGNED
              /\ sr_assignedToId r' = Some (userId agentActor)
              /\ (exists items',
                    fst (getAllUnassignedServiceRequests usr_name agentActor w') = Ok items'
                    /\ ~ In "srq7" (map ur_id items'))
              /\ (exists mine,
                    fst (getAllServiceRequests noFilters agentActor w') = Ok mine
                    /\ In r' mine)
          else
            assignServiceRequestToSelf rt0 "srq7" agentActor w
            = (Throw (Forbidden "You are not authorized to work in this franchise area"), w).
Proof.
  intro w.
  assert (Hidle : idle w) by (split; reflexivity).
  assert (Huniq : uniqueServiceRequestIds (root w)).
  { unfold uniqueServiceRequestIds. cbn. constructor; [intros [] | constructor]. }
  split; [exact Hidle | ]. split; [exact Huniq | ].
  exact (self_assignment_moves_a_listed_request usr_name rt0 agentActor w
           [unassignedView usr_name openDb openRequest] "srq7"
           Hidle Huniq eq_refl eq_refl (or_introl eq_refl) eq_refl eq_refl).
Defined.

(** X12. [getAllServiceRequests] never shows a row outside the caller's
    scope and leaves the world as it is: every row of the answer is a
    stored row that meets every filter that is set; for a customer it is
    one of the customer's own requests, for a service agent one assigned
    to the agent, for a franchise owner one of the franchise found for the
    owner (the first franchise with that owner; none gives the empty
    list).  An admin gets every stored row that meets the filters. *)
Theorem listing_is_confined_to_the_caller :
  forall filters user w,
    idle w ->
    exists rows,
      getAllServiceRequests filters user w = (Ok rows, w)
      /\ (forall r, In r rows ->
            In r (serviceRequests (root w))
            /\ allOf (filterConditions filters) r = true
            /\ (role user = UserRole.CUSTOMER -> sr_customerId r = userId user)
            /\ (role user = UserRole.SERVICE_AGENT ->
                sr_assignedToId r = Some (userId user))
            /\ (role user = UserRole.FRANCHISE_OWNER ->
                exists f,
                  findFirst (fun f => optStringEqb (fr_ownerId f) (userId user))
                            (franchises (root w)) = Some f
                  /\ sr_franchiseId r = fr_id f))
      /\ (role user = UserRole.ADMIN ->
          forall r, In r (serviceRequests (root w)) ->
                    allOf (filterConditions filters) r = true -> In r rows).
Proof.
  intros filters user [r o h n flt tr] [Htx Hdb]. cbn in Htx, Hdb. subst o h.
  cbn [root].
  unfold getAllServiceRequests.
  unfold bind at 1, get_fastify_db at 1. cbn [fastify_db].
  unfold bind at 1.
  destruct (role user) eqn:Hrole; cbn [UserRole.eqb].
  - (* ADMIN *)
    cbn [ret]. unfold bind, query, ret. cbn [view root txn].
    eexists. split; [reflexivity | ]. split.
    + intros x Hx. apply In_selected in Hx. destruct Hx as [Hin Hc].
      split; [exact Hin | ].
      split; [unfold allOf; apply forallb_forall; intros c Hcin; apply Hc; exact Hcin | ].
      repeat split; intro E; discriminate E.
    + intros _ x Hin Hall. apply In_selected. split; [exact Hin | ].
      unfold allOf in Hall. rewrite forallb_forall in Hall. exact Hall.
  - (* FRANCHISE_OWNER *)
    unfold bind at 1. unfold getUserById at 1.
    unfold bind at 1, get_fastify_db at 1. cbn [fastify_db].
    unfold bind at 1, query at 1. cbn [view root txn ret].
    unfold bind at 1, query at 1. cbn [view root txn].
    destruct (findFirst (fun f => optStringEqb (fr_ownerId f) (userId user)) (franchises r))
      as [f | ] eqn:Hf; cbn [ret].
    + unfold bind, query, ret. cbn [view root txn].
      eexists. split; [reflexivity | ]. split; [ | intro E; discriminate E].
      intros x Hx. apply In_selected in Hx. destruct Hx as [Hin Hc].
      split; [exact Hin | ].
      split; [unfold allOf; apply forallb_forall; intros c Hcin; apply Hc;
              apply in_or_app; right; exact Hcin | ].
      split; [intro E; discriminate E | ].
      split; [intro E; discriminate E | ].
      intros _. exists f. split; [reflexivity | ].
      apply String.eqb_eq.
      exact (Hc (fun x0 => String.eqb (sr_franchiseId x0) (fr_id f)) (or_introl eq_refl)).
    + exists []. split; [reflexivity | ]. split; [intros x [] | intro E; discriminate E].
  - (* SERVICE_AGENT *)
    cbn [ret]. unfold bind, query, ret. cbn [view root txn].
    eexists. split; [reflexivity | ]. split; [ | intro E; discriminate E].
    intros x Hx. apply In_selected in Hx. destruct Hx as [Hin Hc].
    split; [exact Hin | ].
    split; [unfold allOf; apply forallb_forall; intros c Hcin; apply Hc;
            apply in_or_app; right; exact Hcin | ].
    split; [intro E; discriminate E | ].
    split; [ | intro E; discriminate E].
    intros _.
    assert (H := Hc (fun x0 => optStringEqb (sr_assignedToId x0) (userId user))
                    (or_introl eq_refl)).
    cbn beta in H. destruct (sr_assignedToId x) as [a | ]; [ | discriminate H].
    cbn [optStringEqb] in H. apply String.eqb_eq in H. rewrite H. reflexivity.
  - (* CUSTOMER *)
    cbn [ret]. unfold bind, query, ret. cbn [view root txn].
    eexists. split; [reflexivity | ]. split; [ | intro E; discriminate E].
    intros x Hx. apply In_selected in Hx. destruct Hx as [Hin Hc].
    split; [exact Hin | ].
    split; [unfold allOf; apply forallb_forall; intros c Hcin; apply Hc;
            apply in_or_app; right; exact Hcin | ].
    split; [intros _ | split; intro E; discriminate E].
    apply String.eqb_eq.
    exact (Hc (fun x0 => String.eqb (sr_customerId x0) (userId user)) (or_introl eq_refl)).
Qed.

Lemma listing_is_confined_to_the_caller_witness :
  exists rows,
    getAllServiceRequests noFilters customer (world openDb) = (Ok rows, world openDb)
    /\ (forall r, In r rows ->
          In r (serviceRequests openDb)
          /\ allOf (filterConditions noFilters) r = true
          /\ (role customer = UserRole.CUSTOMER -> sr_customerId r = userId customer)
          /\ (role customer = UserRole.SERVICE_AGENT ->
              sr_assignedToId r = Some (userId customer))
          /\ (role customer = UserRole.FRANCHISE_OWNER ->
              exists f,
                findFirst (fun f => optStringEqb (fr_ownerId f) (userId customer))
                          (franchises openDb) = Some f
                /\ sr_franchiseId r = fr_id f))
    /\ (role customer = UserRole.ADMIN ->
        forall r, In r (serviceRequests openDb) ->
                  allOf (filterConditions noFilters) r = true -> In r rows).
Proof.
  exact (listing_is_confined_to_the_caller noFilters customer (world openDb)
           (conj eq_refl eq_refl)).
Defined.

(* ------------------------------------------------------------------ *)
(** ** Changing the scheduled date *)

Lemma scheduleServiceRequest_unread rt cal id t user r n flt tr :
  match readServiceRequest r id with
  | Ok (Some _) => True
  | Ok None =>
      scheduleServiceRequest rt cal id t user (mkWorld r None RootDb n flt tr)
      = (Throw (NotFound "Service Request"), mkWorld r None RootDb n flt tr)
  | Throw e =>
      scheduleServiceRequest rt cal id t user (mkWorld r None RootDb n flt tr)
      = (Throw e, mkWorld r None RootDb n flt tr)
  end.
Proof.
  destruct (readServiceRequest r id) as [[sr | ] | e] eqn:Hld; [exact I | | ];
    unfold scheduleServiceRequest; unfold bind at 1; rewrite getServiceRequestById_in_tx, Hld;
    reflexivity.
Qed.

(** The head of [scheduleServiceRequest]: the two checks, then the two
    statements. *)
Lemma scheduleServiceRequest_run rt cal id t user r n flt tr sr :
  readServiceRequest r id = Ok (Some sr) ->
  scheduleServiceRequest rt cal id t user (mkWorld r None RootDb n flt tr) =
  if negb (maySchedule r user sr) then
    (Throw (Forbidden "You do not have permission to schedule this service request"),
     mkWorld r None RootDb n flt tr)
  else if Z.leb t (currentTime cal) then
    (Throw (BadRequest "Scheduled date must be in the future"),
     mkWorld r None RootDb n flt tr)
  else if flt n then
    (Throw StorageFailure,
     mkWorld r None RootDb (S n) flt (tr ++ [EvWrite T_serviceRequests]))
  else
    let r1 := onServiceRequests
                (updateWhere (fun x => String.eqb (sr_id x) id)
                   (setSR [SR_scheduledDate (Some (epochToISOString rt t));
                           SR_updatedAt (now rt)])) r in
    if flt (S n) then
      (Throw StorageFailure,
       mkWorld r1 None RootDb (S (S n)) flt
         ((tr ++ [EvWrite T_serviceRequests]) ++ [EvWrite T_actionHistory]))
    else
      (Ok (Some (setSR [SR_scheduledDate (Some (epochToISOString rt t));
                        SR_updatedAt (now rt)] sr)),
       mkWorld
         (onActionHistory
            (insertRow
               (mkActionHistoryEntry
                  (linkedAction (Some id) None None
                     (Typed ActionType.SERVICE_REQUEST_SCHEDULED)
                     (Some (SRStatus (sr_status sr))) (Some (SRStatus SCHEDULED)) user
                     ("Service scheduled for " ++ toLocaleDateString cal t)
                     [("scheduledDate", MString (Some (epochToISOString rt t)))])
                  (now rt))) r1)
         None RootDb (S (S n)) flt
         ((tr ++ [EvWrite T_serviceRequests]) ++ [EvWrite T_actionHistory])).
Proof.
  intro Hld. unfold scheduleServiceRequest.
  unfold bind at 1. rewrite getServiceRequestById_in_tx, Hld.
  unfold bind at 1.
  assert (Hperm :
    (if UserRole.eqb (role user) UserRole.ADMIN then ret true
     else if UserRole.eqb (role user) UserRole.SERVICE_AGENT
             && optStringEqb (sr_assignedToId sr) (userId user) then ret true
     else if UserRole.eqb (role user) UserRole.FRANCHISE_OWNER then
       bind (getFranchiseById (sr_franchiseId sr))
            (fun franchise =>
               ret (match franchise with
                    | Some f => optStringEqb (fr_ownerId f) (userId user)
                    | None => false
                    end))
     else ret false) (mkWorld r None RootDb n flt tr)
    = (Ok (maySchedule r user sr), mkWorld r None RootDb n flt tr)).
  { unfold maySchedule, ownsFranchise.
    destruct (role user); cbn [UserRole.eqb orb andb ret]; try reflexivity.
    destruct (optStringEqb (sr_assignedToId sr) (userId user)); reflexivity. }
  rewrite Hperm.
  destruct (maySchedule r user sr); cbn [negb]; [ | reflexivity].
  destruct (Z.leb t (currentTime cal)); [reflexivity | ].
  unfold bind at 1, get_fastify_db at 1. cbn [fastify_db].
  unfold bind at 1. rewrite execute_root_run.
  destruct (flt n); [reflexivity | ].
  unfold bind at 1. rewrite logActionHistory_root_run by reflexivity.
  cbv zeta. destruct (flt (S n)); [reflexivity | ].
  unfold bind at 1, sendServiceRequestNotifications, ret.
  rewrite getServiceRequestById_in_tx.
  rewrite (read_after_set _ _ _ _ _ Hld). reflexivity.
Qed.

(** X13. [scheduleServiceRequest] changes the scheduled date and nothing
    else.  A call that returns was made by an admin, by the agent the
    request is assigned to or by the owner of its franchise, with a date
    later than now; the stored row has the new date and the time of the
    update, and the status and the agent it had; and the one audit entry
    the call appends names SCHEDULED as the new status all the same. *)
Theorem scheduling_changes_the_date_only :
  forall rt cal id t user w sr v w',
    idle w ->
    storedServiceRequest id w = Some sr ->
    scheduleServiceRequest rt cal id t user w = (Ok v, w') ->
    maySchedule (root w) user sr = true
    /\ (currentTime cal < t)%Z
    /\ v = Some (setSR [SR_scheduledDate (Some (epochToISOString rt t));
                        SR_updatedAt (now rt)] sr)
    /\ storedServiceRequest id w' = v
    /\ (exists r',
          v = Some r'
          /\ sr_status r' = sr_status sr
          /\ sr_assignedToId r' = sr_assignedToId sr
          /\ sr_scheduledDate r' = Some (epochToISOString rt t))
    /\ exists e,
         actionHistory (root w') = actionHistory (root w) ++ [e]
         /\ serviceRequestId (ah_data e) = Some id
         /\ fromStatus (ah_data e) = Some (SRStatus (sr_status sr))
         /\ toStatus (ah_data e) = Some (SRStatus SCHEDULED).
Proof.
  intros rt cal id t user [r o h n flt tr] sr v w' [Htx Hdb] Hsr.
  cbn in Htx, Hdb. subst o h.
  unfold storedServiceRequest in Hsr. cbn [root] in Hsr. cbn [root].
  pose proof (scheduleServiceRequest_unread rt cal id t user r n flt tr) as Hun.
  destruct (readServiceRequest r id) as [[x | ] | e0] eqn:Hld;
    [ | rewrite Hun; intro H; discriminate H | rewrite Hun; intro H; discriminate H].
  clear Hun. pose proof (readServiceRequest_Some _ _ _ Hld) as Hx.
  rewrite Hsr in Hx. injection Hx as <-.
  rewrite (scheduleServiceRequest_run rt cal id t user r n flt tr sr Hld).
  destruct (maySchedule r user sr); cbn [negb]; [ | intro H; discriminate H].
  destruct (Z.leb t (currentTime cal)) eqn:Ht; [intro H; discriminate H | ].
  destruct (flt n); [intro H; discriminate H | ].
  cbv zeta. destruct (flt (S n)); [intro H; discriminate H | ].
  intro H; injection H as <- <-.
  split; [reflexivity | ].
  split; [apply Z.leb_gt in Ht; exact Ht | ].
  split; [reflexivity | ].
  unfold storedServiceRequest.
  cbn [root serviceRequests actionHistory onActionHistory onServiceRequests].
  split; [exact (stored_after_set _ _ _ _ Hsr) | ].
  split; [eexists; split; [reflexivity | destruct sr; repeat split; reflexivity] | ].
  eexists. split; [reflexivity | ]. repeat split; reflexivity.
Qed.

Lemma scheduling_changes_the_date_only_witness :
  let w := world completedDb in
  let run := scheduleServiceRequest rt0 calendar0 "srq9" 5000 admin w in
  (exists v, fst run = Ok v)
  /\ exists r',
       storedServiceRequest "srq9" (snd run) = Some r'
       /\ sr_status r' = COMPLETED
       /\ sr_scheduledDate r' = Some "2025-01-05T00:00:00.000Z".
Proof.
  intros w run.
  assert (Hok : exists v, fst run = Ok v) by (vm_compute; eexists; reflexivity).
  split; [exact Hok | ].
  destruct Hok as [v Hv].
  destruct (scheduling_changes_the_date_only rt0 calendar0 "srq9" 5000%Z admin w
              completedRequest v (snd run) (conj eq_refl eq_refl) eq_refl)
    as (_ & _ & _ & Hstored & (r' & Hr' & Hst & _ & Hdate) & _).
  - rewrite <- Hv. apply surjective_pairing.
  - exists r'. rewrite Hstored. split; [exact Hr' | ]. split; [exact Hst | exact Hdate].
Defined.

(** X14. A call of [scheduleServiceRequest] that is turned away writes
    nothing: a request that [getServiceRequestById] fails to read gives the
    error of the read; an unknown id gives NotFound; a caller who is not an admin,
    not the agent of the request and not the owner of its franchise gives
    Forbidden; a date that is not later than now gives BadRequest; in each
    case the world is the one the call started from. *)
Theorem scheduling_refusals_write_nothing :
  forall rt cal id t user w res w',
    idle w ->
    scheduleServiceRequest rt cal id t user w = (res, w') ->
    match readServiceRequest (root w) id with
    | Throw e => res = Throw e /\ w' = w
    | Ok None => res = Throw (NotFound "Service Request") /\ w' = w
    | Ok (Some sr) =>
        (maySchedule (root w) user sr = false ->
         res = Throw (Forbidden "You do not have permission to schedule this service request")
         /\ w' = w)
        /\ (maySchedule (root w) user sr = true ->
            (t <= currentTime cal)%Z ->
            res = Throw (BadRequest "Scheduled date must be in the future") /\ w' = w)
    end.
Proof.
  intros rt cal id t user [r o h n flt tr] res w' [Htx Hdb].
  cbn in Htx, Hdb. subst o h. cbn [root].
  pose proof (scheduleServiceRequest_unread rt cal id t user r n flt tr) as Hun.
  destruct (readServiceRequest r id) as [[sr | ] | e] eqn:Hld.
  - rewrite (scheduleServiceRequest_run rt cal id t user r n flt tr sr Hld).
    intro H. split.
    + intro Hmay. rewrite Hmay in H. cbn [negb] in H.
      injection H as <- <-. split; reflexivity.
    + intros Hmay Ht. rewrite Hmay in H. cbn [negb] in H.
      apply Z.leb_le in Ht. rewrite Ht in H.
      injection H as <- <-. split; reflexivity.
  - rewrite Hun. intro H. injection H as <- <-. split; reflexivity.
  - rewrite Hun. intro H. injection H as <- <-. split; reflexivity.
Qed.

Lemma scheduling_refusals_write_nothing_witness :
  let w := world completedDb in
  let run := scheduleServiceRequest rt0 calendar0 "srq9" 5000 customer w in
  idle w
  /\ fst run
     = Throw (Forbidden "You do not have permission to schedule this service request")
  /\ snd run = w.
Proof.
  intros w run.
  assert (Hidle : idle w) by (split; reflexivity).
  split; [exact Hidle | ].
  pose proof (scheduling_refusals_write_nothing rt0 calendar0 "srq9" 5000%Z customer w
                (fst run) (snd run) Hidle (surjective_pairing run)) as H.
  change (readServiceRequest (root w) "srq9") with (Ok (Some completedRequest)) in H.
  destruct H as [H _]. apply H. reflexivity.
Defined.

(* ------------------------------------------------------------------ *)
(** ** Completing a request that requires payment *)

(** X15. What the status machine asks before it completes a request whose
    payment flag is set.  A call with target COMPLETED returns only if the
    request was in PAYMENT_PENDING and, when it is linked to an
    installation request, the first stored payment of that installation
    request is COMPLETED; when it is not linked, the payload carries
    completion images. *)
Theorem completion_needs_the_payment :
  forall rt id user data w sr v w',
    idle w ->
    storedServiceRequest id w = Some sr ->
    sr_requirePayment sr = true ->
    updateServiceRequestStatus rt id COMPLETED user data w = (Ok v, w') ->
    sr_status sr = PAYMENT_PENDING
    /\ match asTruthy (sr_installationRequestId sr) with
       | Some irid =>
           exists p,
             findFirst (fun p => optStringEqb (pay_installationRequestId p) irid)
                       (payments (root w)) = Some p
             /\ pay_status p = PaymentStatus.COMPLETED
       | None => nonEmptyArray (opt_field data afterImages) = true
       end.
Proof.
  intros rt id user data w sr v w' Hidle Hsr Hpay Hrun.
  destruct (updateServiceRequestStatus_ok _ _ _ _ _ _ _ _ _ Hidle Hsr Hrun) as (Hin & _).
  destruct (updateServiceRequestStatus_validated _ _ _ _ _ _ _ _ _ Hidle Hsr Hrun)
    as (upd & Hval).
  destruct Hidle as [Htx Hdb].
  unfold statusValidations in Hval. rewrite Hpay in Hval. cbn [andb] in Hval.
  rewrite (asTruthy_truthy (sr_installationRequestId sr)) in Hval.
  apply includes_transitionTable in Hin.
  destruct (sr_status sr); try discriminate Hin; cbn [ServiceRequestStatus.eqb] in Hval.
  - (* IN_PROGRESS *)
    exfalso.
    destruct (asTruthy (sr_installationRequestId sr)); cbn [negb andb] in Hval;
      [discriminate Hval | ].
    destruct (nonEmptyArray (opt_field data afterImages)); discriminate Hval.
  - (* PAYMENT_PENDING *)
    split; [reflexivity | ].
    destruct (asTruthy (sr_installationRequestId sr)) as [irid | ]; cbn [negb andb] in Hval.
    + unfold bind, query in Hval. cbn [view] in Hval.
      destruct (findFirst (fun p => optStringEqb (pay_installationRequestId p) irid)
                  (payments (root w))) as [p | ]; [ | discriminate Hval].
      exists p. split; [reflexivity | ].
      destruct (pay_status p); try reflexivity; discriminate Hval.
    + destruct (nonEmptyArray (opt_field data afterImages));
        [reflexivity | discriminate Hval].
Qed.

Lemma completion_needs_the_payment_witness :
  let w := world recordedDb in
  let run := updateServiceRequestStatus rt0 "srq2" COMPLETED admin None w in
  (exists v, fst run = Ok v)
  /\ sr_status installationRequest1 = PAYMENT_PENDING
  /\ exists p,
       findFirst (fun p => optStringEqb (pay_installationRequestId p) "ir1")
                 (payments (root w)) = Some p
       /\ pay_status p = PaymentStatus.COMPLETED.
Proof.
  intros w run.
  assert (Hok : exists v, fst run = Ok v) by (vm_compute; eexists; reflexivity).
  split; [exact Hok | ].
  destruct Hok as [v Hv].
  apply (completion_needs_the_payment rt0 "srq2" admin None w installationRequest1
           v (snd run) (conj eq_refl eq_refl) eq_refl eq_refl).
  rewrite <- Hv. apply surjective_pairing.
Defined.


(* ------------------------------------------------------------------ *)
(** ** Installation service requests *)

Lemma installationRequestOf_rescheduled irid a x :
  installationRequestOf irid
    (setSR (SR_status SCHEDULED :: whenDefined a (fun v => SR_assignedToId (Some v))) x)
  = installationRequestOf irid x.
Proof. destruct a, x; reflexivity. Qed.

(** X16. [createInstallationServiceRequest] never gives an installation
    request a second installation service request: if no installation
    request has more than one before the call, none has after it,
    whatever the outcome of the call. *)
Theorem createInstallationServiceRequest_never_duplicates :
  forall rt data user w res w',
    idle w ->
    oneServiceRequestPerInstallation (root w) ->
    createInstallationServiceRequest rt data user w = (res, w') ->
    oneServiceRequestPerInstallation (root w').
Proof.
  intros rt data user [r o h n flt tr] res w' [Htx Hdb] Hinv.
  cbn in Htx, Hdb, Hinv. subst o h.
  unfold createInstallationServiceRequest.
  unfold bind at 1, get_fastify_db at 1. cbn [fastify_db].
  unfold bind at 1, query at 1. cbn [view root txn].
  destruct (findFirst (fun x => String.eqb (ir_id x) (isr_installationRequestId data))
              (installationRequests r)) as [ir_ | ];
    [ | intro H; injection H as <- <-; exact Hinv].
  change (fun r0 : ServiceRequest =>
            optStringEqb (sr_installationRequestId r0) (isr_installationRequestId data)
            && ServiceRequestType.isInstallation (sr_type r0))
    with (installationRequestOf (isr_installationRequestId data)).
  destruct (findFirst (installationRequestOf (isr_installationRequestId data))
              (serviceRequests r)) as [existing | ] eqn:Hex.
  - (* an installation service request exists: rows are updated in place *)
    unfold logActionHistory, bind, get_fastify_db, query,
      execute, ret, throw.
    cbn [hasOwner linkedAction entityId serviceRequestId installationRequestId
         present orb].
    root_steps;
      (let H := fresh in intro H; injection H as <- <-); cbn [root];
      unfold oneServiceRequestPerInstallation in *;
      cbn [serviceRequests onServiceRequests onInstallationRequests onActionHistory];
      intro irid;
      rewrite ?countWhere_updateWhere
        by (intro; apply installationRequestOf_rescheduled);
      apply Hinv.
  - (* none exists: at most one row is added, for this installation request *)
    assert (Hnew : forall l0,
              (l0 = serviceRequests r
               \/ exists row,
                    sr_installationRequestId row = Some (isr_installationRequestId data)
                    /\ l0 = insertRow row (serviceRequests r)) ->
              forall irid, countWhere (installationRequestOf irid) l0 <= 1).
    { intros l0 [-> | (row & Hrow & ->)] irid; [apply Hinv | ].
      rewrite countWhere_insertRow.
      destruct (installationRequestOf irid row) eqn:E; [ | rewrite Nat.add_0_r; apply Hinv].
      unfold installationRequestOf in E. rewrite Hrow in E. cbn [optStringEqb] in E.
      apply andb_prop in E. destruct E as [E _]. apply String.eqb_eq in E. subst irid.
      rewrite (findFirst_None_countWhere _ _ Hex). lia. }
    unfold getFranchiseById, logActionHistory, bind,
      get_fastify_db, query, execute, ret, throw.
    cbn [hasOwner linkedAction entityId serviceRequestId installationRequestId
         present orb].
    root_steps;
      (let H := fresh in intro H; injection H as <- <-); cbn [root];
      unfold oneServiceRequestPerInstallation;
      cbn [serviceRequests onServiceRequests onInstallationRequests onActionHistory];
      apply Hnew;
      first [ left; reflexivity
            | right; eexists; split; [ | reflexivity]; reflexivity ].
Qed.

Lemma createInstallationServiceRequest_never_duplicates_witness :
  let w0 := world freshInstallationDb in
  let w1 := snd (createInstallationServiceRequest rt0 unassignedInstall admin w0) in
  idle w0
  /\ oneServiceRequestPerInstallation (root w0)
  /\ oneServiceRequestPerInstallation (root w1).
Proof.
  intros w0 w1.
  assert (Hidle : idle w0) by (split; reflexivity).
  assert (Hone : oneServiceRequestPerInstallation (root w0))
    by (intro irid; cbn; lia).
  split; [exact Hidle | ]. split; [exact Hone | ].
  exact (createInstallationServiceRequest_never_duplicates rt0 unassignedInstall admin
           w0 _ w1 Hidle Hone
           (surjective_pairing (createInstallationServiceRequest rt0 unassignedInstall
                                  admin w0))).
Defined.

(** The installation service request that was rescheduled is read back
    with its installation request INSTALLATION_SCHEDULED, so that no
    payment status is computed. *)
Lemma read_after_rescheduling r irid ir_ existing upd f :
  findFirst (fun x => String.eqb (ir_id x) irid) (installationRequests r) = Some ir_ ->
  findFirst (fun y => String.eqb (sr_id y) (sr_id existing)) (serviceRequests r)
  = Some existing ->
  installationRequestOf irid existing = true ->
  readServiceRequest
    (onActionHistory f
       (onInstallationRequests
          (updateWhere (fun x => String.eqb (ir_id x) (ir_id ir_))
             (setIR [IR_status InstallationRequestStatus.INSTALLATION_SCHEDULED]))
          (onServiceRequests
             (updateWhere (fun y => String.eqb (sr_id y) (sr_id existing)) (setSR upd))
             r)))
    (sr_id existing)
  = Ok (Some (setSR upd existing)).
Proof.
  intros Hirq Hx Hof.
  assert (Hid : ir_id ir_ = irid).
  { apply findFirst_Some_holds in Hirq. apply String.eqb_eq in Hirq. exact Hirq. }
  rewrite readServiceRequest_eq.
  cbn [serviceRequests onActionHistory onInstallationRequests onServiceRequests].
  rewrite (stored_after_set _ _ _ _ Hx).
  destruct (sr_link_setSR upd existing) as [-> ->].
  unfold installationRequestOf in Hof. apply andb_prop in Hof. destruct Hof as [Hlink Hty].
  rewrite Hty.
  destruct (sr_installationRequestId existing) as [i | ]; [ | discriminate Hlink].
  cbn [optStringEqb] in Hlink. apply String.eqb_eq in Hlink. subst i.
  unfold asTruthy. destruct (truthy (Some irid)); [ | reflexivity].
  unfold findInstallationWithProduct.
  cbn [installationRequests products onActionHistory onInstallationRequests
       onServiceRequests].
  rewrite Hid. rewrite findFirst_updateWhere by (intro; rewrite ir_id_setIR; reflexivity).
  rewrite Hirq. cbn [option_map].
  destruct ir_. cbn [setIR fold_left applyIR ir_status ir_productId].
  destruct (findFirst _ (products r)); reflexivity.
Qed.

(** X17. The checks of [createInstallationServiceRequest] are made only
    when it creates.  When the installation request has no installation
    service request yet, a franchise owner who does not own its franchise
    is refused, and so is a named agent who does not exist or is not a
    service agent; nothing is written.  When one exists, neither the
    caller nor the named agent is checked: with a storage engine that
    accepts every statement the call returns the existing request
    SCHEDULED, assigned to the named user if one is named, and the
    installation request INSTALLATION_SCHEDULED.  Ids are a primary key of
    the service-request table, so that the request read back at the end is
    the one that was rescheduled. *)
Theorem installation_checks_are_made_only_on_creation :
  forall rt data user w ir_,
    idle w ->
    uniqueServiceRequestIds (root w) ->
    findFirst (fun x => String.eqb (ir_id x) (isr_installationRequestId data))
              (installationRequests (root w)) = Some ir_ ->
    (forall k, fault w k = false) ->
    match findFirst (installationRequestOf (isr_installationRequestId data))
                    (serviceRequests (root w)) with
    | Some existing =>
        exists r' w' ir',
          createInstallationServiceRequest rt data user w = (Ok (Some r'), w')
          /\ storedServiceRequest (sr_id existing) w' = Some r'
          /\ sr_status r' = SCHEDULED
          /\ (forall a, isr_assignedToId data = Some a -> sr_assignedToId r' = Some a)
          /\ findFirst (fun x => String.eqb (ir_id x) (isr_installationRequestId data))
                       (installationRequests (root w')) = Some ir'
          /\ ir_status ir' = InstallationRequestStatus.INSTALLATION_SCHEDULED
    | None =>
        (role user = UserRole.FRANCHISE_OWNER ->
         ownsFranchise (root w) user (ir_franchiseId ir_) = false ->
         createInstallationServiceRequest rt data user w
         = (Throw (Forbidden "Installation request is not in your franchise area"), w))
        /\ ((role user = UserRole.FRANCHISE_OWNER ->
             ownsFranchise (root w) user (ir_franchiseId ir_) = true) ->
            forall a,
              asTruthy (isr_assignedToId data) = Some a ->
              isServiceAgent (root w) a = false ->
              createInstallationServiceRequest rt data user w
              = (Throw (BadRequest "Invalid service agent"), w))
    end.
Proof.
  intros rt data user [r o h n flt tr] ir_ [Htx Hdb] Huniq Hirq Hflt.
  cbn in Htx, Hdb, Huniq, Hirq, Hflt. subst o h. cbn [root].
  assert (Hid : ir_id ir_ = isr_installationRequestId data).
  { apply findFirst_Some_holds in Hirq. apply String.eqb_eq in Hirq. exact Hirq. }
  destruct (findFirst (installationRequestOf (isr_installationRequestId data))
              (serviceRequests r)) as [existing | ] eqn:Hex.
  - (* rescheduling *)
    assert (Hx : findFirst (fun y => String.eqb (sr_id y) (sr_id existing))
                   (serviceRequests r) = Some existing).
    { apply findFirst_unique; [exact Huniq | ].
      unfold findFirst in Hex. apply find_some in Hex. apply Hex. }
    pose proof (findFirst_Some_holds _ _ _ Hex) as Hof.
    unfold createInstallationServiceRequest.
    unfold bind at 1, get_fastify_db at 1. cbn [fastify_db].
    unfold bind at 1, query at 1. cbn [view root txn].
    rewrite Hirq.
    change (fun r0 : ServiceRequest =>
              optStringEqb (sr_installationRequestId r0) (isr_installationRequestId data)
              && ServiceRequestType.isInstallation (sr_type r0))
      with (installationRequestOf (isr_installationRequestId data)).
    rewrite Hex.
    unfold bind at 1. unfold bind at 1. unfold bind at 1.
    rewrite execute_root_run, Hflt.
    rewrite execute_root_run, Hflt.
    rewrite logActionHistory_root_run by reflexivity. rewrite Hflt.
    rewrite getServiceRequestById_in_tx.
    rewrite (read_after_rescheduling r _ ir_ existing _ _ Hirq Hx Hof).
    eexists; eexists; eexists. split; [reflexivity | ].
    unfold storedServiceRequest.
    cbn [root serviceRequests installationRequests onServiceRequests
         onInstallationRequests onActionHistory].
    split; [exact (stored_after_set _ _ _ _ Hx) | ].
    split; [destruct (isr_assignedToId data), existing; reflexivity | ].
    split; [intros a ->; destruct existing; reflexivity | ].
    rewrite Hid.
    rewrite findFirst_updateWhere by (intro; rewrite ir_id_setIR; reflexivity).
    rewrite Hirq. cbn [option_map].
    split; [reflexivity | destruct ir_; reflexivity].
  - (* creating *)
    split.
    + intros Hrole Hown.
      unfold createInstallationServiceRequest.
      unfold bind at 1, get_fastify_db at 1. cbn [fastify_db].
      unfold bind at 1, query at 1. cbn [view root txn].
      rewrite Hirq.
      change (fun r0 : ServiceRequest =>
                optStringEqb (sr_installationRequestId r0) (isr_installationRequestId data)
                && ServiceRequestType.isInstallation (sr_type r0))
        with (installationRequestOf (isr_installationRequestId data)).
      rewrite Hex, Hrole. cbn [UserRole.eqb].
      unfold ownsFranchise in Hown.
      unfold bind at 1. unfold bind at 1. unfold bind at 1.
      rewrite getFranchiseById_run.
      destruct (findFirst (fun f => String.eqb (fr_id f) (ir_franchiseId ir_))
                  (franchises r)) as [f | ]; [rewrite Hown | ]; reflexivity.
    + intros Hown a Ha Hagent.
      unfold createInstallationServiceRequest.
      unfold bind at 1, get_fastify_db at 1. cbn [fastify_db].
      unfold bind at 1, query at 1. cbn [view root txn].
      rewrite Hirq.
      change (fun r0 : ServiceRequest =>
                optStringEqb (sr_installationRequestId r0) (isr_installationRequestId data)
                && ServiceRequestType.isInstallation (sr_type r0))
        with (installationRequestOf (isr_installationRequestId data)).
      rewrite Hex, Ha.
      unfold isServiceAgent in Hagent. unfold ownsFranchise in Hown.
      assert (Hagentcheck :
        bind (query RootDb)
          (fun d =>
             match findFirst (fun u => String.eqb (usr_id u) a) (users d) with
             | Some agent =>
                 if UserRole.eqb (usr_role agent) UserRole.SERVICE_AGENT then ret tt
                 else throw (badRequest "Invalid service agent")
             | None => throw (badRequest "Invalid service agent")
             end) (mkWorld r None RootDb n flt tr)
        = (Throw (BadRequest "Invalid service agent"), mkWorld r None RootDb n flt tr)).
      { unfold bind, query. cbn [view root txn].
        destruct (findFirst (fun u => String.eqb (usr_id u) a) (users r)) as [agent | ];
          [rewrite Hagent | ]; reflexivity. }
      unfold bind at 1. unfold bind at 1.
      destruct (role user) eqn:Hrole; cbn [UserRole.eqb].
      * cbn [ret]. unfold bind at 1. rewrite Hagentcheck. reflexivity.
      * unfold bind at 1. rewrite getFranchiseById_run.
        specialize (Hown eq_refl).
        destruct (findFirst (fun f => String.eqb (fr_id f) (ir_franchiseId ir_))
                    (franchises r)) as [f | ]; [ | discriminate Hown].
        rewrite Hown. cbn [ret]. unfold bind at 1. rewrite Hagentcheck. reflexivity.
      * cbn [ret]. unfold bind at 1. rewrite Hagentcheck. reflexivity.
      * cbn [ret]. unfold bind at 1. rewrite Hagentcheck. reflexivity.
Qed.

Lemma installation_checks_are_made_only_on_creation_witness :
  let w := world installationDb in
  uniqueServiceRequestIds (root w)
  /\ ownsFranchise (root w) otherOwner (ir_franchiseId installation1) = false
  /\ isServiceAgent (root w) "nobody" = false
  /\ exists r' w' ir',
       createInstallationServiceRequest rt0 strangerInstall otherOwner w
       = (Ok (Some r'), w')
       /\ storedServiceRequest "srq2" w' = Some r'
       /\ sr_status r' = SCHEDULED
       /\ (forall a, isr_assignedToId strangerInstall = Some a ->
                     sr_assignedToId r' = Some a)
       /\ findFirst (fun x => String.eqb (ir_id x) "ir1") (installationRequests (root w'))
          = Some ir'
       /\ ir_status ir' = InstallationRequestStatus.INSTALLATION_SCHEDULED.
Proof.
  intro w.
  assert (Huniq : uniqueServiceRequestIds (root w)).
  { unfold uniqueServiceRequestIds. cbn. constructor; [intros [] | constructor]. }
  split; [exact Huniq | ]. split; [reflexivity | ]. split; [reflexivity | ].
  exact (installation_checks_are_made_only_on_creation rt0 strangerInstall otherOwner w
           installation1 (conj eq_refl eq_refl) Huniq eq_refl (fun _ => eq_refl)).
Defined.

(* ------------------------------------------------------------------ *)
(** ** Payment reconciliation, case by case *)

Lemma fetchSuccessfulPayment_verdict rzp sr ir_ r o h n flt tr :
  exists gs,
    fetchSuccessfulPayment rzp sr ir_ (mkWorld r o h n flt tr)
    = (gatewayVerdict rzp sr ir_, mkWorld r o h n flt (tr ++ gs))
    /\ forallb isGateway gs = true.
Proof.
  unfold gatewayVerdict, fetchSuccessfulPayment, gateway, bind, emit, ret, throw.
  cbn [root txn fastify_db writes fault trace fst].
  repeat match goal with
         | |- context [match ?x with _ => _ end] =>
             lazymatch x with
             | context [mkWorld] => fail
             | _ => destruct x
             end
         end;
    cbn [root txn fastify_db writes fault trace fst app]; rewrite <- ?app_assoc;
    first [ eexists; split; [reflexivity | reflexivity]
          | exists []; rewrite app_nil_r; split; reflexivity ].
Qed.

(** The checks before the transaction, one by one. *)
Lemma refreshPaymentStatus_checks rzp rt id user r n flt tr :
  (exists e,
     refreshPaymentStatus rzp rt id user (mkWorld r None RootDb n flt tr)
     = (Throw e, mkWorld r None RootDb n flt tr)
     /\ (e = NotFound "Service Request"
         \/ e = BadRequest "This service request is not linked to an installation"
         \/ e = BadRequest "Installation must be in payment pending state"
         \/ e = TypeError
         \/ e = BadRequest "No payment subscription found for this request"))
  \/ (exists sr irid ir_,
        readServiceRequest r id = Ok (Some sr) /\ awaitingPayment r id irid sr ir_).
Proof.
  unfold awaitingPayment, refreshPaymentStatus.
  unfold bind at 1, get_fastify_db at 1. cbn [fastify_db].
  unfold bind at 1. rewrite getServiceRequestById_in_tx.
  destruct (readServiceRequest r id) as [[sr | ] | e0] eqn:Hld;
    [ | left; eexists; split; [reflexivity | tauto]
      | left; eexists; split;
        [reflexivity | destruct (readServiceRequest_Throw _ _ _ Hld) as [-> _]; tauto]].
  pose proof (readServiceRequest_Some _ _ _ Hld) as Hsr.
  destruct (asTruthy (sr_installationRequestId sr)) as [irid | ] eqn:Hir;
    [ | left; eexists; split; [reflexivity | tauto]].
  destruct (ServiceRequestStatus.eqb (sr_status sr) PAYMENT_PENDING) eqn:Hst;
    cbn [negb]; [ | left; eexists; split; [reflexivity | tauto]].
  unfold bind at 1, get_fastify_db at 1. cbn [fastify_db].
  unfold bind at 1, query at 1. cbn [view root txn fastify_db].
  unfold bind at 1.
  destruct (findFirst (fun x => String.eqb (ir_id x) irid) (installationRequests r))
    as [ir_ | ] eqn:Hirq; cbn [deref ret throw];
    [ | left; eexists; split; [reflexivity | tauto]].
  destruct (truthy (ir_razorpaySubscriptionId ir_)) eqn:Hrz; cbn [negb];
    [ | left; eexists; split; [reflexivity | tauto]].
  right. exists sr, irid, ir_. repeat split; try assumption.
  destruct (sr_status sr); try discriminate Hst; reflexivity.
Qed.

(** Past the checks the call is the transaction. *)
Lemma refreshPaymentStatus_transaction rzp rt id user r n flt tr sr irid ir_ :
  readServiceRequest r id = Ok (Some sr) ->
  awaitingPayment r id irid sr ir_ ->
  refreshPaymentStatus rzp rt id user (mkWorld r None RootDb n flt tr) =
  transaction (fun tx =>
    try_catch
      (bind (fetchSuccessfulPayment rzp sr ir_)
         (fun successfulPayment =>
            match successfulPayment with
            | Some successfulPayment =>
                bind (query tx) (fun d =>
                  let existingPayment :=
                    findFirst (completedPaymentFor irid (sp_id successfulPayment))
                              (payments d) in
                  match existingPayment with
                  | Some p =>
                      if PaymentStatus.eqb (pay_status p) PaymentStatus.COMPLETED then
                        repairSubscription rt tx id irid user successfulPayment p
                      else
                        recordPayment rt tx id irid user successfulPayment existingPayment
                  | None =>
                      recordPayment rt tx id irid user successfulPayment existingPayment
                  end)
            | None => ret (mkRefreshResult "Payment not yet received" "PENDING" None)
            end))
      (fun _ => throw (badRequest "Failed to refresh payment status from Razorpay")))
    (mkWorld r None RootDb n flt tr).
Proof.
  intros Hld (Hsr & Hir & Hst & Hirq & Hrz).
  unfold refreshPaymentStatus.
  unfold bind at 1, get_fastify_db at 1. cbn [fastify_db].
  unfold bind at 1. rewrite getServiceRequestById_in_tx, Hld, Hir, Hst.
  cbn [ServiceRequestStatus.eqb negb].
  unfold bind at 1, get_fastify_db at 1. cbn [fastify_db].
  unfold bind at 1, query at 1. cbn [view root txn fastify_db].
  unfold bind at 1. rewrite Hirq. cbn [deref ret]. rewrite Hrz. cbn [negb].
  reflexivity.
Qed.

(** The transaction of [refreshPaymentStatus], by what the gateway says. *)
Lemma refreshPaymentStatus_outcome rzp rt id user r n flt tr sr irid ir_ res w' :
  readServiceRequest r id = Ok (Some sr) ->
  awaitingPayment r id irid sr ir_ ->
  refreshPaymentStatus rzp rt id user (mkWorld r None RootDb n flt tr) = (res, w') ->
  exists gs,
    forallb isGateway gs = true
    /\ match gatewayVerdict rzp sr ir_ with
       | Throw _ =>
           res = Throw (BadRequest "Failed to refresh payment status from Razorpay")
           /\ w' = mkWorld r None RootDb n flt (tr ++ EvTxBegin :: gs ++ [EvTxRollback])
       | Ok None =>
           res = Ok (mkRefreshResult "Payment not yet received" "PENDING" None)
           /\ w' = mkWorld r None RootDb n flt (tr ++ EvTxBegin :: gs ++ [EvTxCommit])
       | Ok (Some sp) =>
           match
             match findFirst (completedPaymentFor irid (sp_id sp)) (payments r) with
             | Some p => repairSubscription rt TxHandle id irid user sp p
             | None => recordPayment rt TxHandle id irid user sp None
             end (mkWorld r (Some r) RootDb n flt (tr ++ EvTxBegin :: gs))
           with
           | (Ok v, wr) =>
               res = Ok v
               /\ w' = mkWorld (view TxHandle wr) None (fastify_db wr) (writes wr)
                         (fault wr) (trace wr ++ [EvTxCommit])
           | (Throw _, wr) =>
               res = Throw (BadRequest "Failed to refresh payment status from Razorpay")
               /\ w' = mkWorld (root wr) None (fastify_db wr) (writes wr)
                         (fault wr) (trace wr ++ [EvTxRollback])
           end
       end.
Proof.
  intros Hld Hwait.
  rewrite (refreshPaymentStatus_transaction rzp rt id user r n flt tr sr irid ir_
             Hld Hwait).
  unfold transaction, try_catch. cbn [root txn fastify_db writes fault trace].
  unfold bind at 1.
  destruct (fetchSuccessfulPayment_verdict rzp sr ir_ r (Some r) RootDb n flt
              (tr ++ [EvTxBegin])) as (gs & Hfetch & Hgs).
  rewrite Hfetch. intro Hrun. exists gs. split; [exact Hgs | ].
  replace (tr ++ EvTxBegin :: gs) with ((tr ++ [EvTxBegin]) ++ gs)
    by (rewrite <- app_assoc; reflexivity).
  revert Hrun.
  destruct (gatewayVerdict rzp sr ir_) as [[sp | ] | e]; cbv beta iota.
  - unfold bind at 1. rewrite query_tx_run. cbv zeta.
    destruct (findFirst (completedPaymentFor irid (sp_id sp)) (payments r))
      as [p | ] eqn:Hp.
    + pose proof (findFirst_Some_holds _ _ _ Hp) as Hc.
      unfold completedPaymentFor in Hc. apply andb_prop in Hc. destruct Hc as [_ Hc].
      rewrite Hc.
      destruct (repairSubscription rt TxHandle id irid user sp p _) as [[v | e] wr];
        cbn [throw]; intro H; injection H as <- <-; split; reflexivity.
    + destruct (recordPayment rt TxHandle id irid user sp None _) as [[v | e] wr];
        cbn [throw]; intro H; injection H as <- <-; split; reflexivity.
  - cbn [ret]. intro H; injection H as <- <-.
    cbn [root txn fastify_db writes fault trace view].
    rewrite <- !app_assoc. split; reflexivity.
  - cbn [throw]. intro H; injection H as <- <-.
    cbn [root txn fastify_db writes fault trace view].
    rewrite <- !app_assoc. split; reflexivity.
Qed.

(* ------------------------------------------------------------------ *)
(** ** What reconciliation does to the payment rows *)







(** A property of the committed store that holds when nothing is written
    and is established by each of the two write paths holds after
    [refreshPaymentStatus]. *)
Lemma refreshPaymentStatus_lift (P : Db -> Db -> Prop) rzp rt id user w res w' :
  idle w ->
  P (root w) (root w) ->
  (forall sr irid ir_ sp n tr v wr d',
     awaitingPayment (root w) id irid sr ir_ ->
     findFirst (completedPaymentFor irid (sp_id sp)) (payments (root w)) = None ->
     recordPayment rt TxHandle id irid user sp None
       (mkWorld (root w) (Some (root w)) RootDb n (fault w) tr) = (Ok v, wr) ->
     txn wr = Some d' -> P (root w) d') ->
  (forall sr irid ir_ sp p n tr v wr d',
     awaitingPayment (root w) id irid sr ir_ ->
     findFirst (completedPaymentFor irid (sp_id sp)) (payments (root w)) = Some p ->
     repairSubscription rt TxHandle id irid user sp p
       (mkWorld (root w) (Some (root w)) RootDb n (fault w) tr) = (Ok v, wr) ->
     txn wr = Some d' -> P (root w) d') ->
  refreshPaymentStatus rzp rt id user w = (res, w') ->
  P (root w) (root w').
Proof.
  intros [Htx Hdb]. destruct w as [r o h n flt tr]. cbn in Htx, Hdb. subst o h.
  cbn [root fault]. intros Hrefl Hrecord Hrepair Hrun.
  destruct (refreshPaymentStatus_checks rzp rt id user r n flt tr)
    as [(e & He & _) | (sr & irid & ir_ & Hld & Hwait)].
  - rewrite He in Hrun. injection Hrun as <- <-. exact Hrefl.
  - destruct (refreshPaymentStatus_outcome _ _ _ _ _ _ _ _ _ _ _ _ _ Hld Hwait Hrun)
      as (gs & _ & Hcase).
    destruct (gatewayVerdict rzp sr ir_) as [[sp | ] | e].
    + destruct (findFirst (completedPaymentFor irid (sp_id sp)) (payments r))
        as [p | ] eqn:Hp.
      * destruct (repairSubscription rt TxHandle id irid user sp p _)
          as [[v | e] wr] eqn:Hr; destruct Hcase as [_ ->]; cbn [root].
        -- pose proof (repairSubscription_run _ _ _ _ _ _ _ _ _ _ _ _ _ Hr)
             as (_ & _ & _ & _ & Hok).
           destruct (Hok v eq_refl) as (d' & Hd' & _).
           unfold view. rewrite Hd'.
           exact (Hrepair sr irid ir_ sp p _ _ v wr d' Hwait Hp Hr Hd').
        -- pose proof (repairSubscription_run _ _ _ _ _ _ _ _ _ _ _ _ _ Hr)
             as (-> & _).
           exact Hrefl.
      * destruct (recordPayment rt TxHandle id irid user sp None _)
          as [[v | e] wr] eqn:Hr; destruct Hcase as [_ ->]; cbn [root].
        -- pose proof (recordPayment_run _ _ _ _ _ _ _ _ _ _ _ _ Hp Hr)
             as (_ & _ & _ & _ & Hok).
           destruct (Hok v eq_refl) as (d' & Hd' & _).
           unfold view. rewrite Hd'.
           exact (Hrecord sr irid ir_ sp _ _ v wr d' Hwait Hp Hr Hd').
        -- pose proof (recordPayment_run _ _ _ _ _ _ _ _ _ _ _ _ Hp Hr)
             as (-> & _).
           exact Hrefl.
    + destruct Hcase as [_ ->]. exact Hrefl.
    + destruct Hcase as [_ ->]. exact Hrefl.
Qed.



(** On that store the paid invoice is recorded as a second row; the
    PENDING one stays. *)
Example pending_payment_stays_pending :
  map (fun p => (pay_id p, pay_status p))
      (payments (root (snd (refreshPaymentStatus paidGateway rt0 "srq2" customer
                              (world pendingPaymentDb)))))
  = [("pay0", PaymentStatus.PENDING); ("payment_1", PaymentStatus.COMPLETED)].
Proof. vm_compute. reflexivity. Qed.

(* ------------------------------------------------------------------ *)
(** ** Failures of reconciliation *)

(** X19. A call of [refreshPaymentStatus] that throws commits nothing.
    Before the transaction opens it throws what its checks say (NotFound,
    one of three BadRequests, or the TypeError of reading a missing
    installation request or the price of a missing product) and no event
    happens.  Once the transaction has
    opened, every failure -- a gateway call that throws, a statement the
    storage engine rejects, a product that is missing -- is reported as the
    one BadRequest [Failed to refresh payment status from Razorpay], and
    the transaction is rolled back. *)
Theorem reconciliation_failures_are_masked_and_rolled_back :
  forall rzp rt id user w e w',
    idle w ->
    refreshPaymentStatus rzp rt id user w = (Throw e, w') ->
    root w' = root w
    /\ idle w'
    /\ exists new,
         trace w' = trace w ++ new
         /\ match new with
            | [] =>
                e = NotFound "Service Request"
                \/ e = BadRequest "This service request is not linked to an installation"
                \/ e = BadRequest "Installation must be in payment pending state"
                \/ e = TypeError
                \/ e = BadRequest "No payment subscription found for this request"
            | first :: _ =>
                first = EvTxBegin
                /\ last new EvTxBegin = EvTxRollback
                /\ e = BadRequest "Failed to refresh payment status from Razorpay"
            end.
Proof.
  intros rzp rt id user [r o h n flt tr] e w' [Htx Hdb] Hrun.
  cbn in Htx, Hdb. subst o h. cbn [root trace].
  destruct (refreshPaymentStatus_checks rzp rt id user r n flt tr)
    as [(e0 & He & Hkind) | (sr & irid & ir_ & Hld & Hwait)].
  - rewrite He in Hrun. injection Hrun as <- <-.
    split; [reflexivity | ]. split; [split; reflexivity | ].
    exists []. rewrite app_nil_r. split; [reflexivity | exact Hkind].
  - destruct (refreshPaymentStatus_outcome _ _ _ _ _ _ _ _ _ _ _ _ _ Hld Hwait Hrun)
      as (gs & _ & Hcase).
    assert (Hlast : forall (xs : list Event) x, last (EvTxBegin :: xs ++ [x]) EvTxBegin = x).
    { intros xs x. change (EvTxBegin :: xs ++ [x]) with ((EvTxBegin :: xs) ++ [x]).
      apply last_last. }
    destruct (gatewayVerdict rzp sr ir_) as [[sp | ] | e1].
    + destruct (findFirst (completedPaymentFor irid (sp_id sp)) (payments r))
        as [p | ] eqn:Hp.
      * destruct (repairSubscription rt TxHandle id irid user sp p _)
          as [[v | e1] wr] eqn:Hr; destruct Hcase as [He ->]; [discriminate He | ].
        injection He as ->.
        pose proof (repairSubscription_run _ _ _ _ _ _ _ _ _ _ _ _ _ Hr)
          as (-> & -> & _ & (ws & -> & _) & _).
        cbn [root trace]. split; [reflexivity | ]. split; [split; reflexivity | ].
        exists (EvTxBegin :: (gs ++ ws) ++ [EvTxRollback]).
        split; [rewrite <- !app_assoc; reflexivity | ].
        split; [reflexivity | ]. split; [apply Hlast | reflexivity].
      * destruct (recordPayment rt TxHandle id irid user sp None _)
          as [[v | e1] wr] eqn:Hr; destruct Hcase as [He ->]; [discriminate He | ].
        injection He as ->.
        pose proof (recordPayment_run _ _ _ _ _ _ _ _ _ _ _ _ Hp Hr)
          as (-> & -> & _ & (ws & -> & _) & _).
        cbn [root trace]. split; [reflexivity | ]. split; [split; reflexivity | ].
        exists (EvTxBegin :: (gs ++ ws) ++ [EvTxRollback]).
        split; [rewrite <- !app_assoc; reflexivity | ].
        split; [reflexivity | ]. split; [apply Hlast | reflexivity].
    + destruct Hcase as [He _]. discriminate He.
    + destruct Hcase as [He ->]. injection He as ->.
      cbn [root trace]. split; [reflexivity | ]. split; [split; reflexivity | ].
      exists (EvTxBegin :: gs ++ [EvTxRollback]).
      split; [reflexivity | ].
      split; [reflexivity | ]. split; [apply Hlast | reflexivity].
Qed.

Lemma reconciliation_failures_are_masked_and_rolled_back_witness :
  let w := world installationDb in
  refreshPaymentStatus deadGateway rt0 "srq2" customer w
  = (Throw (BadRequest "Failed to refresh payment status from Razorpay"),
     mkWorld installationDb None RootDb 0 (fun _ => false)
       [EvTxBegin; EvGateway subscriptions_fetch; EvTxRollback])
  /\ root (mkWorld installationDb None RootDb 0 (fun _ => false)
             [EvTxBegin; EvGateway subscriptions_fetch; EvTxRollback]) = root w.
Proof.
  intro w.
  assert (Hrun : refreshPaymentStatus deadGateway rt0 "srq2" customer w
                 = (Throw (BadRequest "Failed to refresh payment status from Razorpay"),
                    mkWorld installationDb None RootDb 0 (fun _ => false)
                      [EvTxBegin; EvGateway subscriptions_fetch; EvTxRollback]))
    by reflexivity.
  split; [exact Hrun | ].
  exact (proj1 (reconciliation_failures_are_masked_and_rolled_back deadGateway rt0
                  "srq2" customer w _ _ (conj eq_refl eq_refl) Hrun)).
Defined.

(* ------------------------------------------------------------------ *)
(** ** The three answers of reconciliation *)

(** When the gateway reports a paid first invoice. *)
Lemma gatewayVerdict_paid rzp sr ir_ sid s first rest :
  asTruthy (ir_razorpaySubscriptionId ir_) = Some sid ->
  fetchSubscription rzp sid = Some s ->
  rzp_status s = "active" \/ rzp_status s = "authenticated" ->
  allInvoices rzp (sr_razorpaySubscriptionId sr) 1 = Some (first :: rest) ->
  inv_status first = "paid" ->
  gatewayVerdict rzp sr ir_
  = Ok (Some (mkSuccessfulPayment (inv_payment_id first) (inv_amount first)
                "SUBSCRIPTION" (sr_razorpaySubscriptionId sr) s)).
Proof.
  intros Hsid Hs Hst Hinv Hpaid.
  unfold gatewayVerdict, fetchSuccessfulPayment. rewrite Hsid.
  unfold gateway, bind, emit, ret. cbn [root txn fastify_db writes fault trace].
  rewrite Hs. cbn [root txn fastify_db writes fault trace].
  destruct Hst as [-> | ->]; cbn [String.eqb Ascii.eqb Bool.eqb orb];
    rewrite Hinv; cbn [root txn fastify_db writes fault trace];
    rewrite Hpaid; reflexivity.
Qed.

(** X20. No paid invoice, no change.  For a request that
    [getServiceRequestById] returns and that waits for its payment, when
    the gateway answers and does not report a paid first
    invoice, [refreshPaymentStatus] returns [Payment not yet received]
    with status PENDING; it issues no statement and the store is the one
    before the call. *)
Theorem reconciliation_waits_for_a_paid_invoice :
  forall rzp rt id user w sr irid ir_,
    idle w ->
    readServiceRequest (root w) id = Ok (Some sr) ->
    awaitingPayment (root w) id irid sr ir_ ->
    gatewayVerdict rzp sr ir_ = Ok None ->
    exists w',
      refreshPaymentStatus rzp rt id user w
      = (Ok (mkRefreshResult "Payment not yet received" "PENDING" None), w')
      /\ root w' = root w
      /\ writes w' = writes w
      /\ idle w'.
Proof.
  intros rzp rt id user [r o h n flt tr] sr irid ir_ [Htx Hdb] Hld Hwait Hverdict.
  cbn in Htx, Hdb, Hwait. subst o h. cbn [root] in Hld.
  destruct (refreshPaymentStatus rzp rt id user (mkWorld r None RootDb n flt tr))
    as [res w'] eqn:Hrun.
  destruct (refreshPaymentStatus_outcome _ _ _ _ _ _ _ _ _ _ _ _ _ Hld Hwait Hrun)
    as (gs & _ & Hcase).
  rewrite Hverdict in Hcase. destruct Hcase as [-> ->].
  eexists. split; [reflexivity | ].
  repeat split; reflexivity.
Qed.

Lemma reconciliation_waits_for_a_paid_invoice_witness :
  let w := world installationDb in
  exists w',
    refreshPaymentStatus unpaidGateway rt0 "srq2" customer w
    = (Ok (mkRefreshResult "Payment not yet received" "PENDING" None), w')
    /\ root w' = root w
    /\ writes w' = writes w
    /\ idle w'.
Proof.
  intro w.
  apply (reconciliation_waits_for_a_paid_invoice unpaidGateway rt0 "srq2" customer w
           installationRequest1 "ir1" installation1 (conj eq_refl eq_refl)).
  - reflexivity.
  - repeat split; reflexivity.
  - reflexivity.
Defined.

(** X21. A payment that is already recorded is reported, not repaired.
    For a request that [getServiceRequestById] returns, when the gateway
    reports a paid invoice for which a COMPLETED payment
    row is stored, and the installation request already has its
    subscription, [refreshPaymentStatus] answers [Payment already
    completed] with the stored payment's details and issues no statement:
    the service request stays in PAYMENT_PENDING. *)
Theorem recorded_payment_is_reported_not_repaired :
  forall rzp rt id user w sr irid ir_ sp p s,
    idle w ->
    readServiceRequest (root w) id = Ok (Some sr) ->
    awaitingPayment (root w) id irid sr ir_ ->
    gatewayVerdict rzp sr ir_ = Ok (Some sp) ->
    findFirst (completedPaymentFor irid (sp_id sp)) (payments (root w)) = Some p ->
    findFirst (subscriptionFor irid) (subscriptions (root w)) = Some s ->
    exists w',
      refreshPaymentStatus rzp rt id user w
      = (Ok (mkRefreshResult "Payment already completed" "COMPLETED"
               (Some (mkPaymentDetails (pay_paymentMethod p) (div100 (pay_amount p))
                        (pay_razorpayPaymentId p)))), w')
      /\ root w' = root w
      /\ writes w' = writes w
      /\ option_map sr_status (storedServiceRequest id w') = Some PAYMENT_PENDING.
Proof.
  intros rzp rt id user [r o h n flt tr] sr irid ir_ sp p s [Htx Hdb] Hld Hwait
         Hverdict Hp Hs.
  cbn in Htx, Hdb, Hwait, Hp, Hs. subst o h. cbn [root] in Hld.
  destruct (refreshPaymentStatus rzp rt id user (mkWorld r None RootDb n flt tr))
    as [res w'] eqn:Hrun.
  destruct (refreshPaymentStatus_outcome _ _ _ _ _ _ _ _ _ _ _ _ _ Hld Hwait Hrun)
    as (gs & _ & Hcase).
  rewrite Hverdict, Hp in Hcase.
  unfold repairSubscription in Hcase. unfold bind at 1 in Hcase.
  rewrite query_tx_run in Hcase. rewrite Hs in Hcase.
  unfold bind at 1 in Hcase. cbn [ret] in Hcase.
  destruct Hcase as [-> ->].
  eexists. split; [reflexivity | ].
  cbn [root writes view txn]. split; [reflexivity | ]. split; [reflexivity | ].
  destruct Hwait as (Hsr & _ & Hst & _).
  unfold storedServiceRequest. cbn [root]. rewrite Hsr. cbn [option_map].
  rewrite Hst. reflexivity.
Qed.

Lemma recorded_payment_is_reported_not_repaired_witness :
  let w := world recordedDb in
  exists w',
    refreshPaymentStatus paidGateway rt0 "srq2" customer w
    = (Ok (mkRefreshResult "Payment already completed" "COMPLETED"
             (Some (mkPaymentDetails "SUBSCRIPTION" (div100 1500) (Some "pay_rzp_1")))), w')
    /\ root w' = root w
    /\ writes w' = writes w
    /\ option_map sr_status (storedServiceRequest "srq2" w') = Some PAYMENT_PENDING.
Proof.
  intro w.
  apply (recorded_payment_is_reported_not_repaired paidGateway rt0 "srq2" customer w
           installationRequest1 "ir1" installation1
           (mkSuccessfulPayment "pay_rzp_1" 150000 "SUBSCRIPTION" (Some "rzp_sub_1")
              (mkRazorpaySubscription "rzp_sub_1" "active"
                 (Some 1735689600%Z) (Some 1738368000%Z)))
           recordedPayment subscription1 (conj eq_refl eq_refl)).
  - reflexivity.
  - repeat split; reflexivity.
  - reflexivity.
  - reflexivity.
  - reflexivity.
Defined.

(** X22. A paid invoice settles everything in one call.  For a request
    that waits for its payment, when the gateway reports a paid first
    invoice for which no COMPLETED payment row is stored, the installation
    request has no subscription yet, its product is stored and the storage
    engine accepts every statement, [refreshPaymentStatus] answers
    [Payment verified and installation completed] with the invoice amount
    divided by 100, and commits: one new COMPLETED payment row holding
    that amount and linked to the new subscription; the new subscription
    appended to the table; the service request COMPLETED and linked to the
    subscription; the installation request INSTALLATION_COMPLETED with a
    connect id; and two audit entries. *)
Theorem paid_invoice_settles_the_installation :
  forall rzp rt id user w sr irid ir_ sp product,
    idle w ->
    awaitingPayment (root w) id irid sr ir_ ->
    gatewayVerdict rzp sr ir_ = Ok (Some sp) ->
    findFirst (completedPaymentFor irid (sp_id sp)) (payments (root w)) = None ->
    findFirst (subscriptionFor irid) (subscriptions (root w)) = None ->
    findFirst (fun p => String.eqb (prod_id p) (ir_productId ir_)) (products (root w))
    = Some product ->
    (forall k, fault w k = false) ->
    exists w',
      refreshPaymentStatus rzp rt id user w
      = (Ok (mkRefreshResult "Payment verified and installation completed" "COMPLETED"
               (Some (mkPaymentDetails (sp_method sp) (div100 (inject_Z (sp_amount sp)))
                        (Some (sp_id sp))))), w')
      /\ idle w'
      /\ (exists pay,
            In pay (payments (root w'))
            /\ List.length (payments (root w')) = S (List.length (payments (root w)))
            /\ pay_status pay = PaymentStatus.COMPLETED
            /\ pay_installationRequestId pay = Some irid
            /\ pay_razorpayPaymentId pay = Some (sp_id sp)
            /\ pay_amount pay = div100 (inject_Z (sp_amount sp))
            /\ pay_subscriptionId pay = Some (generateId rt "sub"))
      /\ subscriptions (root w')
         = subscriptions (root w) ++ [newSubscription rt ir_ product sp]
      /\ (exists sr',
            storedServiceRequest id w' = Some sr'
            /\ sr_status sr' = COMPLETED
            /\ sr_subscriptionId sr' = Some (generateId rt "sub")
            /\ sr_completedAt sr' = Some (now rt))
      /\ (exists ir',
            findFirst (fun x => String.eqb (ir_id x) irid) (installationRequests (root w'))
            = Some ir'
            /\ ir_status ir' = InstallationRequestStatus.INSTALLATION_COMPLETED
            /\ ir_connectId ir' = Some (generateConnectId rt)
            /\ ir_completedDate ir' = Some (now rt))
      /\ List.length (actionHistory (root w'))
         = S (S (List.length (actionHistory (root w)))).
Proof.
  intros rzp rt id user [r o h n flt tr] sr irid ir_ sp product [Htx Hdb]
         Hwait Hverdict Hnopay Hnosub Hprod Hflt.
  cbn in Htx, Hdb, Hwait, Hnopay, Hnosub, Hprod, Hflt. subst o h.
  destruct (refreshPaymentStatus rzp rt id user (mkWorld r None RootDb n flt tr))
    as [res w'] eqn:Hrun.
  assert (Hld : readServiceRequest r id = Ok (Some sr)).
  { destruct Hwait as (Hsr & Hir & _ & Hirq & _).
    exact (readServiceRequest_with_product _ _ _ _ _ _ Hsr Hir Hirq Hprod). }
  destruct (refreshPaymentStatus_outcome _ _ _ _ _ _ _ _ _ _ _ _ _ Hld Hwait Hrun)
    as (gs & _ & Hcase).
  rewrite Hverdict, Hnopay in Hcase.
  destruct Hwait as (Hsr & Hir & Hst & Hirq & Hrz).
  assert (Hirid : ir_id ir_ = irid).
  { apply findFirst_Some_holds in Hirq. apply String.eqb_eq in Hirq. exact Hirq. }
  unfold recordPayment, bind in Hcase.
  repeat first
    [ rewrite execute_tx_run in Hcase
    | rewrite logActionHistoryInTransaction_run in Hcase
    | rewrite query_tx_run in Hcase
    | rewrite Hflt in Hcase
    | rewrite Hnosub in Hcase
    | rewrite Hirq in Hcase
    | rewrite Hprod in Hcase
    | progress unfold findInstallationWithProduct in Hcase
    | progress cbn [deref ret throw hasOwner linkedAction entityAction entityId
                    serviceRequestId installationRequestId paymentId present orb negb
                    subscriptions installationRequests products
                    onPayments onSubscriptions onInstallationRequests
                    onServiceRequests onActionHistory] in Hcase ].
  destruct Hcase as [-> ->].
  eexists. split; [reflexivity | ].
  cbn [root view txn fastify_db].
  split; [split; reflexivity | ].
  cbn [payments subscriptions serviceRequests installationRequests actionHistory
       onPayments onSubscriptions onInstallationRequests onServiceRequests
       onActionHistory].
  split.
  { eexists. split.
    - unfold updateWhere. apply in_map_iff. eexists. split; [reflexivity | ].
      unfold insertRow. apply in_or_app. right. left. reflexivity.
    - cbn [pay_id]. rewrite String.eqb_refl.
      split; [rewrite length_updateWhere; apply length_insertRow_S | ].
      repeat split; reflexivity. }
  split; [unfold newSubscription; rewrite Hirid; reflexivity | ].
  split.
  { unfold storedServiceRequest.
    cbn [root serviceRequests onPayments onSubscriptions onInstallationRequests
         onServiceRequests onActionHistory].
    rewrite !findFirst_updateWhere by (intro; rewrite sr_id_setSR; reflexivity).
    rewrite Hsr. cbn [option_map].
    eexists. split; [reflexivity | ].
    destruct sr; repeat split; reflexivity. }
  split.
  { rewrite !findFirst_updateWhere by (intro; rewrite ir_id_setIR; reflexivity).
    rewrite Hirq. cbn [option_map].
    eexists. split; [reflexivity | ].
    destruct ir_; repeat split; reflexivity. }
  rewrite !length_insertRow_S. reflexivity.
Qed.

Lemma paid_invoice_settles_the_installation_witness :
  let w := world installationDb in
  exists w',
    refreshPaymentStatus paidGateway rt0 "srq2" customer w
    = (Ok (mkRefreshResult "Payment verified and installation completed" "COMPLETED"
             (Some (mkPaymentDetails "SUBSCRIPTION" (div100 (inject_Z 150000))
                      (Some "pay_rzp_1")))), w')
    /\ (exists sr',
          storedServiceRequest "srq2" w' = Some sr'
          /\ sr_status sr' = COMPLETED
          /\ sr_subscriptionId sr' = Some "sub_1"
          /\ sr_completedAt sr' = Some "2025-01-01T00:00:00.000Z").
Proof.
  intro w.
  destruct (paid_invoice_settles_the_installation paidGateway rt0 "srq2" customer w
              installationRequest1 "ir1" installation1
              (mkSuccessfulPayment "pay_rzp_1" 150000 "SUBSCRIPTION" (Some "rzp_sub_1")
                 (mkRazorpaySubscription "rzp_sub_1" "active"
                    (Some 1735689600%Z) (Some 1738368000%Z)))
              product1 (conj eq_refl eq_refl)
              (conj eq_refl (conj eq_refl (conj eq_refl (conj eq_refl eq_refl))))
              eq_refl eq_refl eq_refl eq_refl (fun _ => eq_refl))
    as (w' & Hrun & _ & _ & _ & Hsr & _).
  exists w'. split; [exact Hrun | exact Hsr].
Defined.


(* ------------------------------------------------------------------ *)
(** ** More operations that keep the assignment invariant *)

Lemma Forall_updateWhere_step {A : Type} (P : A -> Prop) (q : A -> bool) (f : A -> A)
    (l : list A) :
  Forall P l ->
  (forall x, P x -> q x = true -> P (f x)) ->
  Forall P (updateWhere q f l).
Proof.
  intros Hl Hf. apply Forall_updateWhere; [exact Hl | ].
  intros x Hx Hq. rewrite Forall_forall in Hl. exact (Hf x (Hl x Hx) Hq).
Qed.

Lemma rescheduled_row_ok d u r :
  assignedOk (setSR [SR_scheduledDate d; SR_updatedAt u] r) = assignedOk r.
Proof. destruct r; reflexivity. Qed.

(** X5. [scheduleServiceRequest] keeps the assignment invariant. *)
Theorem scheduleServiceRequest_keeps_assignment :
  forall rt cal id t user w res w',
    idle w ->
    assignmentInvariant (root w) ->
    scheduleServiceRequest rt cal id t user w = (res, w') ->
    assignmentInvariant (root w').
Proof.
  intros rt cal id t user [r o h n flt tr] res w' [Htx Hdb] Hinv.
  cbn in Htx, Hdb, Hinv. subst o h.
  pose proof (scheduleServiceRequest_unread rt cal id t user r n flt tr) as Hun.
  destruct (readServiceRequest r id) as [[sr | ] | e0] eqn:Hld;
    [ | rewrite Hun; intro H; injection H as <- <-; exact Hinv
      | rewrite Hun; intro H; injection H as <- <-; exact Hinv].
  - rewrite (scheduleServiceRequest_run rt cal id t user r n flt tr sr Hld).
    assert (Hupd : assignmentInvariant
                     (onServiceRequests
                        (updateWhere (fun x => String.eqb (sr_id x) id)
                           (setSR [SR_scheduledDate (Some (epochToISOString rt t));
                                   SR_updatedAt (now rt)])) r)).
    { unfold assignmentInvariant in *. cbn [serviceRequests onServiceRequests].
      apply Forall_updateWhere_step; [exact Hinv | ].
      intros x Hx _. rewrite rescheduled_row_ok. exact Hx. }
    destruct (negb (maySchedule r user sr));
      [intro H; injection H as <- <-; exact Hinv | ].
    destruct (Z.leb t (currentTime cal));
      [intro H; injection H as <- <-; exact Hinv | ].
    destruct (flt n); [intro H; injection H as <- <-; exact Hinv | ].
    cbv zeta. destruct (flt (S n)); intro H; injection H as <- <-; exact Hupd.
Qed.

Lemma scheduleServiceRequest_keeps_assignment_witness :
  let w := world completedDb in
  idle w
  /\ assignmentInvariant (root w)
  /\ assignmentInvariant
       (root (snd (scheduleServiceRequest rt0 calendar0 "srq9" 5000 admin w))).
Proof.
  intro w.
  assert (Hidle : idle w) by (split; reflexivity).
  assert (Hinv : assignmentInvariant (root w)) by (repeat constructor).
  split; [exact Hidle | ]. split; [exact Hinv | ].
  exact (scheduleServiceRequest_keeps_assignment rt0 calendar0 "srq9" 5000%Z admin w
           _ _ Hidle Hinv
           (surjective_pairing (scheduleServiceRequest rt0 calendar0 "srq9" 5000 admin w))).
Defined.

Lemma assignedOk_present r : present (sr_assignedToId r) = true -> assignedOk r = true.
Proof. unfold assignedOk. intro H. destruct (sr_status r); try reflexivity; exact H. Qed.

Lemma setSR_keeps_assignee upd r :
  Forall (fun a => match a with SR_assignedToId _ => False | _ => True end) upd ->
  sr_assignedToId (setSR upd r) = sr_assignedToId r.
Proof.
  unfold setSR. revert r.
  induction upd as [ | a upd IH]; intros r Hupd; [reflexivity | ].
  inversion Hupd as [ | ? ? Ha Hrest]; subst.
  cbn [fold_left]. rewrite (IH _ Hrest).
  destruct a, r; try reflexivity; contradiction Ha.
Qed.

(** A row with an agent keeps it, and stays within the invariant, under
    an update that does not assign. *)
Lemma unassigning_free_update srid upd x :
  Forall (fun a => match a with SR_assignedToId _ => False | _ => True end) upd ->
  assignedOk x = true
  /\ (String.eqb (sr_id x) srid = true -> present (sr_assignedToId x) = true) ->
  String.eqb (sr_id x) srid = true ->
  assignedOk (setSR upd x) = true
  /\ (String.eqb (sr_id (setSR upd x)) srid = true ->
      present (sr_assignedToId (setSR upd x)) = true).
Proof.
  intros Hupd [_ Hagent] Hq.
  assert (H : present (sr_assignedToId (setSR upd x)) = true)
    by (rewrite (setSR_keeps_assignee _ _ Hupd); exact (Hagent Hq)).
  split; [apply assignedOk_present; exact H | intros _; exact H].
Qed.

Ltac completed_rows Hrows :=
  cbn [serviceRequests onPayments onSubscriptions onInstallationRequests
       onServiceRequests onActionHistory];
  match type of Hrows with
  | Forall ?Q _ => apply (@Forall_impl _ Q _ (fun x Hx => proj1 Hx))
  end;
  repeat (apply Forall_updateWhere_step;
          [ | let x := fresh "x" in
              let Hx := fresh "Hx" in
              let Hq := fresh "Hq" in
              intros x Hx Hq;
              apply unassigning_free_update;
                [ repeat (apply Forall_cons; [exact I | ]); apply Forall_nil
                | exact Hx | exact Hq ] ]);
  exact Hrows.

Lemma recordPayment_keeps_assigned rt srid irid user sp r d n flt tr v w' :
  Forall (fun x => assignedOk x = true
                   /\ (String.eqb (sr_id x) srid = true ->
                       present (sr_assignedToId x) = true))
         (serviceRequests d) ->
  recordPayment rt TxHandle srid irid user sp None
    (mkWorld r (Some d) RootDb n flt tr) = (Ok v, w') ->
  exists d', txn w' = Some d' /\ assignmentInvariant d'.
Proof.
  intro Hrows. unfold recordPayment, bind, assignmentInvariant.
  rx_run; tx_done; eexists; (split; [reflexivity | ]); completed_rows Hrows.
Qed.

Lemma repairSubscription_keeps_assigned rt srid irid user sp p r d n flt tr v w' :
  Forall (fun x => assignedOk x = true
                   /\ (String.eqb (sr_id x) srid = true ->
                       present (sr_assignedToId x) = true))
         (serviceRequests d) ->
  repairSubscription rt TxHandle srid irid user sp p
    (mkWorld r (Some d) RootDb n flt tr) = (Ok v, w') ->
  exists d', txn w' = Some d' /\ assignmentInvariant d'.
Proof.
  intro Hrows. unfold repairSubscription, bind, assignmentInvariant.
  rx_run; tx_done; eexists; (split; [reflexivity | ]); completed_rows Hrows.
Qed.

(** X6. [refreshPaymentStatus] keeps the assignment invariant: the request
    it completes was waiting for its payment, so it has its agent. *)
Theorem refreshPaymentStatus_keeps_assignment :
  forall rzp rt id user w res w',
    idle w ->
    uniqueServiceRequestIds (root w) ->
    assignmentInvariant (root w) ->
    refreshPaymentStatus rzp rt id user w = (res, w') ->
    assignmentInvariant (root w').
Proof.
  intros rzp rt id user w res w' Hidle Huniq Hinv Hrun.
  assert (Hrows : forall sr irid ir_,
            awaitingPayment (root w) id irid sr ir_ ->
            Forall (fun x => assignedOk x = true
                             /\ (String.eqb (sr_id x) id = true ->
                                 present (sr_assignedToId x) = true))
                   (serviceRequests (root w))).
  { intros sr irid ir_ (Hsr & _ & Hst & _).
    unfold assignmentInvariant in Hinv. rewrite Forall_forall in *.
    intros x Hx. split; [exact (Hinv x Hx) | ].
    intro Hid. apply String.eqb_eq in Hid.
    unfold findFirst in Hsr. apply find_some in Hsr. destruct Hsr as [Hin Hsid].
    apply String.eqb_eq in Hsid.
    assert (x = sr) as -> by (apply (unique_row _ _ _ Huniq Hx Hin); congruence).
    specialize (Hinv sr Hin). unfold assignedOk in Hinv. rewrite Hst in Hinv.
    exact Hinv. }
  apply (refreshPaymentStatus_lift (fun _ d' => assignmentInvariant d')
           rzp rt id user w res w' Hidle Hinv); [ | | exact Hrun].
  - intros sr irid ir_ sp n tr v wr d' Hwait _ Hr Hd'.
    destruct (recordPayment_keeps_assigned _ _ _ _ _ _ _ _ _ _ _ _
                (Hrows sr irid ir_ Hwait) Hr) as (d0 & Hd0 & Hk).
    rewrite Hd' in Hd0. injection Hd0 as <-. exact Hk.
  - intros sr irid ir_ sp p n tr v wr d' Hwait _ Hr Hd'.
    destruct (repairSubscription_keeps_assigned _ _ _ _ _ _ _ _ _ _ _ _ _
                (Hrows sr irid ir_ Hwait) Hr) as (d0 & Hd0 & Hk).
    rewrite Hd' in Hd0. injection Hd0 as <-. exact Hk.
Qed.

Lemma refreshPaymentStatus_keeps_assignment_witness :
  let w := world installationDb in
  idle w
  /\ uniqueServiceRequestIds (root w)
  /\ assignmentInvariant (root w)
  /\ assignmentInvariant
       (root (snd (refreshPaymentStatus paidGateway rt0 "srq2" customer w))).
Proof.
  intro w.
  assert (Hidle : idle w) by (split; reflexivity).
  assert (Huniq : uniqueServiceRequestIds (root w)).
  { unfold uniqueServiceRequestIds. cbn. constructor; [intros [] | constructor]. }
  assert (Hinv : assignmentInvariant (root w)) by (repeat constructor).
  split; [exact Hidle | ]. split; [exact Huniq | ]. split; [exact Hinv | ].
  exact (refreshPaymentStatus_keeps_assignment paidGateway rt0 "srq2" customer w
           _ _ Hidle Huniq Hinv
           (surjective_pairing (refreshPaymentStatus paidGateway rt0 "srq2" customer w))).
Defined.

(* ------------------------------------------------------------------ *)
(** ** What a status change returns *)

Lemma statusTransaction_value rt id status user data sr upd r d n flt tr v w' :
  statusTransaction rt id status user data sr upd TxHandle
    (mkWorld r (Some d) RootDb n flt tr) = (Ok v, w') ->
  v = findFirst (fun x => String.eqb (sr_id x) id) (serviceRequests r).
Proof.
  unfold statusTransaction, bind.
  tx_run; tx_done;
    match goal with
    | H : readServiceRequest _ _ = Ok _ |- _ => exact (readServiceRequest_Ok _ _ _ H)
    end.
Qed.

(** X23. [updateServiceRequestStatus] returns the request as it was before
    the update.  The row it returns is read inside the transaction
    callback through [fastify.db], the application's own connection, which
    does not see what the open transaction has written: a call that
    returns hands back the row with the old status, while the committed
    row has the new one. *)
Theorem status_change_returns_the_row_before_the_update :
  forall rt id status user data w sr v w',
    idle w ->
    storedServiceRequest id w = Some sr ->
    updateServiceRequestStatus rt id status user data w = (Ok v, w') ->
    v = Some sr
    /\ exists r',
         storedServiceRequest id w' = Some r'
         /\ sr_status r' = status.
Proof.
  intros rt id status user data w sr v w' Hidle Hsr Hrun.
  split.
  - pose proof (updateServiceRequestStatus_returned _ _ _ _ _ _ _ _ _ Hidle Hsr Hrun)
      as Hld.
    destruct Hidle as [Htx Hdb].
    rewrite (updateServiceRequestStatus_found rt id status user data w sr Hdb Hld) in Hrun.
    destruct (negb (includes (validTransitions (sr_status sr)) status));
      [discriminate Hrun | ].
    unfold bind in Hrun.
    destruct (statusValidations RootDb sr status data
                [SR_status status; SR_updatedAt (now rt)] w) as [[upd | e] w1] eqn:EV;
      [ | discriminate Hrun].
    pose proof (statusValidations_world _ _ _ _ _ _ _ _ EV) as Hw; subst w1.
    destruct w as [r o h n flt tr]; cbn in Htx, Hdb; subst o h.
    unfold transaction in Hrun. cbn [root txn fastify_db writes fault trace] in Hrun.
    destruct (statusTransaction rt id status user data sr _ TxHandle _)
      as [[v1 | e1] w2] eqn:ET; [ | discriminate Hrun].
    apply statusTransaction_value in ET.
    injection Hrun as <- _. rewrite ET. exact Hsr.
  - exists (setSR (committedUpdateData rt status data) sr).
    split; [exact (stored_after_update _ _ _ _ _ _ _ _ _ Hidle Hsr Hrun) | ].
    apply committed_images.
Qed.

Lemma status_change_returns_the_row_before_the_update_witness :
  let w := world (dbWith (generalRequest false)) in
  let run := updateServiceRequestStatus rt0 "srq1" COMPLETED customer (images ["u1"]) w in
  fst run = Ok (Some (generalRequest false))
  /\ sr_status (generalRequest false) = IN_PROGRESS
  /\ exists r',
       storedServiceRequest "srq1" (snd run) = Some r'
       /\ sr_status r' = COMPLETED.
Proof.
  intros w run.
  assert (Hok : fst run = Ok (Some (generalRequest false))) by (vm_compute; reflexivity).
  split; [exact Hok | ]. split; [reflexivity | ].
  apply (status_change_returns_the_row_before_the_update rt0 "srq1" COMPLETED customer
           (images ["u1"]) w (generalRequest false) (Some (generalRequest false))
           (snd run) (conj eq_refl eq_refl) eq_refl).
  rewrite <- Hok. apply surjective_pairing.
Defined.

(* ------------------------------------------------------------------ *)
(** ** Rows are never deleted *)

Lemma ids_updateWhere q upd l :
  map sr_id (updateWhere q (setSR upd) l) = map sr_id l.
Proof.
  unfold updateWhere. rewrite map_map. apply map_ext. intro x.
  destruct (q x); [apply sr_id_setSR | reflexivity].
Qed.

Ltac ids_kept :=
  unfold serviceRequestIds;
  cbn [root serviceRequests onPayments onSubscriptions onInstallationRequests
       onServiceRequests onActionHistory];
  rewrite ?ids_updateWhere; reflexivity.

Lemma recordPayment_keeps_ids rt srid irid user sp r d n flt tr v w' :
  recordPayment rt TxHandle srid irid user sp None
    (mkWorld r (Some d) RootDb n flt tr) = (Ok v, w') ->
  exists d', txn w' = Some d' /\ serviceRequestIds d' = serviceRequestIds d.
Proof.
  unfold recordPayment, bind.
  rx_run; tx_done; eexists; (split; [reflexivity | ]); ids_kept.
Qed.

Lemma repairSubscription_keeps_ids rt srid irid user sp p r d n flt tr v w' :
  repairSubscription rt TxHandle srid irid user sp p
    (mkWorld r (Some d) RootDb n flt tr) = (Ok v, w') ->
  exists d', txn w' = Some d' /\ serviceRequestIds d' = serviceRequestIds d.
Proof.
  unfold repairSubscription, bind.
  rx_run; tx_done; eexists; (split; [reflexivity | ]); ids_kept.
Qed.

(** X24. Service requests are never deleted and never change their id.
    After [updateServiceRequestStatus], [assignServiceAgent],
    [assignServiceRequestToSelf], [scheduleServiceRequest] or
    [refreshPaymentStatus] the table holds the same ids in the same order
    as before, whatever the outcome of the call;
    [createInstallationServiceRequest] leaves them as they are or appends
    the one id it generated. *)
Theorem service_requests_are_never_deleted :
  forall w,
    idle w ->
    (forall rt id status user data res w',
       updateServiceRequestStatus rt id status user data w = (res, w') ->
       serviceRequestIds (root w') = serviceRequestIds (root w))
    /\ (forall rt id a user res w',
          assignServiceAgent rt id a user w = (res, w') ->
          serviceRequestIds (root w') = serviceRequestIds (root w))
    /\ (forall rt id user res w',
          assignServiceRequestToSelf rt id user w = (res, w') ->
          serviceRequestIds (root w') = serviceRequestIds (root w))
    /\ (forall rt cal id t user res w',
          scheduleServiceRequest rt cal id t user w = (res, w') ->
          serviceRequestIds (root w') = serviceRequestIds (root w))
    /\ (forall rzp rt id user res w',
          refreshPaymentStatus rzp rt id user w = (res, w') ->
          serviceRequestIds (root w') = serviceRequestIds (root w))
    /\ (forall rt data user res w',
          createInstallationServiceRequest rt data user w = (res, w') ->
          serviceRequestIds (root w') = serviceRequestIds (root w)
          \/ serviceRequestIds (root w')
             = serviceRequestIds (root w) ++ [generateId rt "srq"]).
Proof.
  intros w Hidle.
  split; [ | split; [ | split; [ | split; [ | split]]]].
  - (* the status machine *)
    intros rt id status user data res w' Hrun.
    destruct res as [v | e];
      [ | destruct (updateServiceRequestStatus_throw _ _ _ _ _ _ _ _ Hidle Hrun) as [-> _];
          reflexivity].
    destruct (storedServiceRequest id w) as [sr | ] eqn:Hsr.
    + destruct (updateServiceRequestStatus_ok _ _ _ _ _ _ _ _ _ Hidle Hsr Hrun)
        as (_ & Hroot & _).
      unfold serviceRequestIds.
      rewrite Hroot, statusUpdateDb_serviceRequests. apply ids_updateWhere.
    + exfalso.
      destruct (updateServiceRequestStatus_stored _ _ _ _ _ _ _ _ Hidle Hrun) as [sr Hsr'].
      rewrite Hsr in Hsr'. discriminate Hsr'.
  - (* assignment *)
    intros rt id a user res w'.
    destruct Hidle as [Htx Hdb]. destruct w as [r o h n flt tr].
    cbn in Htx, Hdb. subst o h.
    pose proof (assignServiceAgent_unread rt id a user r n flt tr) as Hun.
    destruct (readServiceRequest r id) as [[sr | ] | e0] eqn:Hld;
      [ | rewrite Hun; intro H; injection H as <- <-; reflexivity
        | rewrite Hun; intro H; injection H as <- <-; reflexivity].
    rewrite (assignServiceAgent_run rt id a user r n flt tr sr Hld).
    destruct (negb (mayAssign r user sr)); [intro H; injection H as <- <-; reflexivity | ].
    destruct (negb (isServiceAgent r a)); [intro H; injection H as <- <-; reflexivity | ].
    destruct (flt n); [intro H; injection H as <- <-; reflexivity | ].
    cbv zeta. destruct (flt (S n)); intro H; injection H as <- <-; ids_kept.
  - (* self-assignment *)
    intros rt id user res w'.
    destruct Hidle as [Htx Hdb]. destruct w as [r o h n flt tr].
    cbn in Htx, Hdb. subst o h.
    pose proof (assignServiceRequestToSelf_unread rt id user r n flt tr) as Hun.
    destruct (readServiceRequest r id) as [[sr | ] | e0] eqn:Hld;
      [ | rewrite Hun; intro H; injection H as <- <-; reflexivity
        | rewrite Hun; intro H; injection H as <- <-; reflexivity].
    rewrite (assignServiceRequestToSelf_run rt id user r n flt tr sr Hld).
    destruct (truthy (sr_assignedToId sr));
      [intro H; injection H as <- <-; reflexivity | ].
    destruct (truthy (sr_installationRequestId sr));
      [intro H; injection H as <- <-; reflexivity | ].
    destruct (UserRole.eqb (role user) UserRole.SERVICE_AGENT
              && negb (worksIn r user (sr_franchiseId sr)));
      [intro H; injection H as <- <-; reflexivity | ].
    destruct (flt n); [intro H; injection H as <- <-; reflexivity | ].
    cbv zeta. destruct (flt (S n)); intro H; injection H as <- <-; ids_kept.
  - (* the scheduled date *)
    intros rt cal id t user res w'.
    destruct Hidle as [Htx Hdb]. destruct w as [r o h n flt tr].
    cbn in Htx, Hdb. subst o h.
    pose proof (scheduleServiceRequest_unread rt cal id t user r n flt tr) as Hun.
    destruct (readServiceRequest r id) as [[sr | ] | e0] eqn:Hld;
      [ | rewrite Hun; intro H; injection H as <- <-; reflexivity
        | rewrite Hun; intro H; injection H as <- <-; reflexivity].
    rewrite (scheduleServiceRequest_run rt cal id t user r n flt tr sr Hld).
    destruct (negb (maySchedule r user sr));
      [intro H; injection H as <- <-; reflexivity | ].
    destruct (Z.leb t (currentTime cal));
      [intro H; injection H as <- <-; reflexivity | ].
    destruct (flt n); [intro H; injection H as <- <-; reflexivity | ].
    cbv zeta. destruct (flt (S n)); intro H; injection H as <- <-; ids_kept.
  - (* reconciliation *)
    intros rzp rt id user res w' Hrun.
    apply (refreshPaymentStatus_lift
             (fun d d' => serviceRequestIds d' = serviceRequestIds d)
             rzp rt id user w res w' Hidle eq_refl); [ | | exact Hrun].
    + intros sr irid ir_ sp n tr v wr d' _ _ Hr Hd'.
      destruct (recordPayment_keeps_ids _ _ _ _ _ _ _ _ _ _ _ _ Hr) as (d0 & Hd0 & Hk).
      rewrite Hd' in Hd0. injection Hd0 as <-. exact Hk.
    + intros sr irid ir_ sp p n tr v wr d' _ _ Hr Hd'.
      destruct (repairSubscription_keeps_ids _ _ _ _ _ _ _ _ _ _ _ _ _ Hr)
        as (d0 & Hd0 & Hk).
      rewrite Hd' in Hd0. injection Hd0 as <-. exact Hk.
  - (* installation service requests *)
    intros rt data user res w'.
    destruct Hidle as [Htx Hdb]. destruct w as [r o h n flt tr].
    cbn in Htx, Hdb. subst o h.
    unfold createInstallationServiceRequest, getFranchiseById,
      logActionHistory, bind, get_fastify_db, query, execute, ret, throw.
    cbn [hasOwner linkedAction entityId serviceRequestId installationRequestId
         present orb].
    root_steps;
      (let H := fresh in intro H; injection H as <- <-);
      unfold serviceRequestIds;
      cbn [root serviceRequests onServiceRequests onInstallationRequests onActionHistory];
      first [ left; rewrite ?ids_updateWhere; reflexivity
            | right; unfold insertRow; rewrite map_app; reflexivity ].
Qed.

Lemma service_requests_are_never_deleted_witness :
  let w := world installationDb in
  idle w
  /\ serviceRequestIds
       (root (snd (refreshPaymentStatus paidGateway rt0 "srq2" customer w)))
     = ["srq2"]
  /\ serviceRequestIds
       (root (snd (updateServiceRequestStatus rt0 "srq2" CANCELLED customer None w)))
     = ["srq2"].
Proof.
  intro w.
  assert (Hidle : idle w) by (split; reflexivity).
  destruct (service_requests_are_never_deleted w Hidle)
    as (Hupdate & _ & _ & _ & Hrefresh & _).
  split; [exact Hidle | ]. split.
  - exact (Hrefresh paidGateway rt0 "srq2" customer _ _
             (surjective_pairing (refreshPaymentStatus paidGateway rt0 "srq2" customer w))).
  - exact (Hupdate rt0 "srq2" CANCELLED customer None _ _
             (surjective_pairing
                (updateServiceRequestStatus rt0 "srq2" CANCELLED customer None w))).
Defined.

(* ------------------------------------------------------------------ *)
(** ** The operation that breaks the assignment invariant *)

(** C9, the failing run.  An installation service request created without
    an agent is CREATED and unassigned; creating it again for the same
    installation request, still without an agent, takes the branch for an
    existing request, which sets SCHEDULED and leaves [assignedToId] null. *)
Theorem rescheduling_unassigned_installation_breaks_invariant :
  let w0 := world freshInstallationDb in
  let w1 := snd (createInstallationServiceRequest rt0 unassignedInstall admin w0) in
  let w2 := snd (createInstallationServiceRequest rt1 unassignedInstall admin w1) in
  assignmentInvariant (root w0)
  /\ option_map (fun r => (sr_status r, sr_assignedToId r))
                (storedServiceRequest "srq_1" w1) = Some (CREATED, None)
  /\ assignmentInvariant (root w1)
  /\ option_map (fun r => (sr_status r, sr_assignedToId r))
                (storedServiceRequest "srq_1" w2) = Some (SCHEDULED, None)
  /\ ~ assignmentInvariant (root w2).
Proof.
  cbv zeta.
  split; [constructor | ].
  split; [vm_compute; reflexivity | ].
  split; [vm_compute; repeat constructor | ].
  split; [vm_compute; reflexivity | ].
  intro H. vm_compute in H. inversion H as [ | x l Hx Hl]. discriminate Hx.
Qed.
